(** * pycassa.columnfamily: marshaling, query shaping and range scans

    A shallow embedding of [pycassa/columnfamily.py], and of the integer
    columns of [pycassa/types.py].  Python 2 byte strings ([str]) are
    Rocq [string]s (a Rocq [ascii] is one 8-bit character), Python
    integers are [Z], exceptions are the [Raise] branch of a small error
    monad, and the Thrift client is a record of functions supplied by
    the environment. *)

From Stdlib Require Import ZArith NArith Lia List Bool Ascii String Sorted.
Import ListNotations.

Set Implicit Arguments.
Local Open Scope string_scope.
Local Open Scope list_scope.
Local Open Scope Z_scope.

(** ** Exceptions and the error monad *)

Inductive exn : Type :=
| NotFoundException
| TypeError
| ValueError
| AttributeError
| KeyError
| IndexError
| StructError
| UnicodeDecodeError.

Inductive result (A : Type) : Type :=
| Ok (a : A)
| Raise (e : exn).

Arguments Ok {A} a.
Arguments Raise {A} e.

Definition bind {A B : Type} (m : result A) (k : A -> result B) : result B :=
  match m with
  | Ok a => k a
  | Raise e => Raise e
  end.

Notation "x <- m ;; k" := (bind m (fun x => k))
  (at level 61, m at next level, right associativity).
Notation "' p <- m ;; k" := (bind m (fun x => let p := x in k))
  (at level 61, p pattern, m at next level, right associativity).

(** ** Characters and big-endian integers ([struct]) *)

Definition chr (z : Z) : ascii := ascii_of_N (Z.to_N (z mod 256)).
Definition ord (c : ascii) : Z := Z.of_N (N_of_ascii c).

(** [n] bytes of [z], most significant first. *)
Fixpoint be_pack (n : nat) (z : Z) : string :=
  match n with
  | O => EmptyString
  | S k => String (chr (z / 256 ^ Z.of_nat k)) (be_pack k z)
  end.

Fixpoint be_unpack_from (acc : Z) (s : string) : Z :=
  match s with
  | EmptyString => acc
  | String c s' => be_unpack_from (acc * 256 + ord c) s'
  end.

Definition be_unpack (s : string) : Z := be_unpack_from 0 s.

(** [struct.pack('>q', v)] / [struct.pack('>i', v)]: a value outside the
    signed range of the format is a [struct.error]. *)
Definition struct_pack_int (nbytes : nat) (v : Z) : result string :=
  let half := 2 ^ (8 * Z.of_nat nbytes - 1) in
  if (- half <=? v) && (v <? half)
  then Ok (be_pack nbytes v)
  else Raise StructError.

(** [struct.unpack('>q', b)[0]] / [struct.unpack('>i', b)[0]]: the buffer
    must have exactly the size of the format. *)
Definition struct_unpack_int (nbytes : nat) (b : string) : result Z :=
  if Nat.eqb (String.length b) nbytes
  then
    let u := be_unpack b in
    let half := 2 ^ (8 * Z.of_nat nbytes - 1) in
    Ok (if u <? half then u else u - 2 * half)
  else Raise StructError.

Fixpoint nul_pad (n : nat) : string :=
  match n with
  | O => EmptyString
  | S k => String zero (nul_pad k)
  end.

(** [struct.pack('>%ds' % n, s)]: [s] cut or NUL-padded to [n] bytes. *)
Fixpoint struct_pack_s (n : nat) (s : string) : string :=
  match n with
  | O => EmptyString
  | S k =>
      match s with
      | EmptyString => nul_pad n
      | String c s' => String c (struct_pack_s k s')
      end
  end.

(** [struct.unpack('>%ds' % n, b)[0]]. *)
Definition struct_unpack_s (n : nat) (b : string) : result string :=
  if Nat.eqb (String.length b) n then Ok b else Raise StructError.

(** ** UTF-8 (the codec behind [unicode.encode] / [str.decode]) *)

(** Code points are integers; Python 2 text may hold any value below
    [0x110000], surrogates included. *)
Definition utf8_encode_cp (c : Z) : string :=
  if c <? 128 then String (chr c) EmptyString
  else if c <? 2048 then
    String (chr (192 + c / 64)) (String (chr (128 + c mod 64)) EmptyString)
  else if c <? 65536 then
    String (chr (224 + c / 4096))
      (String (chr (128 + (c / 64) mod 64))
         (String (chr (128 + c mod 64)) EmptyString))
  else
    String (chr (240 + c / 262144))
      (String (chr (128 + (c / 4096) mod 64))
         (String (chr (128 + (c / 64) mod 64))
            (String (chr (128 + c mod 64)) EmptyString))).

Definition is_high_surrogate (c : Z) : bool := (55296 <=? c) && (c <=? 56319).

Definition is_low_surrogate (c : Z) : bool := (56320 <=? c) && (c <=? 57343).

(** The code point that a surrogate pair stands for. *)
Definition join_surrogates (high low : Z) : Z :=
  (high - 55296) * 1024 + (low - 56320) + 65536.

(** [text.encode('utf-8')], the text being a list of code points as on a
    wide build: CPython 2 encodes a high surrogate that a low surrogate
    follows as the one code point the pair stands for, and every other
    code point, a surrogate on its own included, by itself. *)
Fixpoint utf8_encode (u : list Z) : string :=
  match u with
  | [] => EmptyString
  | c :: u' =>
      match u' with
      | c2 :: u'' =>
          if is_high_surrogate c && is_low_surrogate c2
          then (utf8_encode_cp (join_surrogates c c2) ++ utf8_encode u'')%string
          else (utf8_encode_cp c ++ utf8_encode u')%string
      | [] => (utf8_encode_cp c ++ utf8_encode u')%string
      end
  end.

Definition is_cont (b : Z) : bool := (128 <=? b) && (b <? 192).

(** One decoding step: the code point at the head of [s] and the rest of
    the input; [None] for an invalid or truncated sequence. *)
Definition utf8_decode_cp (s : string) : option (Z * string) :=
  match s with
  | EmptyString => None
  | String c0 s0 =>
      let b0 := ord c0 in
      if b0 <? 128 then Some (b0, s0)
      else if b0 <? 192 then None
      else if b0 <? 224 then
        match s0 with
        | String c1 s1 =>
            let b1 := ord c1 in
            let v := (b0 - 192) * 64 + (b1 - 128) in
            if is_cont b1 && (128 <=? v) then Some (v, s1) else None
        | _ => None
        end
      else if b0 <? 240 then
        match s0 with
        | String c1 (String c2 s2) =>
            let b1 := ord c1 in
            let b2 := ord c2 in
            let v := (b0 - 224) * 4096 + (b1 - 128) * 64 + (b2 - 128) in
            if is_cont b1 && is_cont b2 && (2048 <=? v)
            then Some (v, s2) else None
        | _ => None
        end
      else if b0 <? 248 then
        match s0 with
        | String c1 (String c2 (String c3 s3)) =>
            let b1 := ord c1 in
            let b2 := ord c2 in
            let b3 := ord c3 in
            let v := (b0 - 240) * 262144 + (b1 - 128) * 4096
                     + (b2 - 128) * 64 + (b3 - 128) in
            if is_cont b1 && is_cont b2 && is_cont b3
               && (65536 <=? v) && (v <? 1114112)
            then Some (v, s3) else None
        | _ => None
        end
      else None
  end.

(** The decoder consumes at least one byte per step, so the length of the
    input bounds the number of steps. *)
Fixpoint utf8_decode_fuel (fuel : nat) (s : string) : result (list Z) :=
  match s with
  | EmptyString => Ok []
  | _ =>
      match fuel with
      | O => Raise UnicodeDecodeError
      | S fuel' =>
          match utf8_decode_cp s with
          | None => Raise UnicodeDecodeError
          | Some (c, rest) =>
              u <- utf8_decode_fuel fuel' rest ;; Ok (c :: u)
          end
      end
  end.

Definition utf8_decode (s : string) : result (list Z) :=
  utf8_decode_fuel (String.length s) s.

(** ** Python values *)

(** The values that travel through the marshaling layer.  [PyUnicode]
    is a text, the list of its code points as CPython 2 holds it on a
    wide (UCS-4) build; [PyUUID] is a [uuid.UUID] (its 128-bit integer),
    [PyTime] a point in time, given as the count of 100-nanosecond
    intervals that a version-1 UUID stores. *)
Inductive pyval : Type :=
| PyNone
| PyInt (z : Z)
| PyStr (s : string)
| PyUnicode (u : list Z)
| PyUUID (int : Z)
| PyTime (ticks : Z).

Definition pyval_eq_dec (x y : pyval) : {x = y} + {x <> y}.
Proof.
  decide equality;
    first [ apply Z.eq_dec | apply string_dec | apply list_eq_dec, Z.eq_dec ].
Defined.

(** [x == y] on values of one kind.  Python 2 also equates a byte string
    and a text of the same ASCII characters; where keys have to be
    distinct the theorems take them to be byte strings. *)
Definition pyval_eqb (x y : pyval) : bool :=
  if pyval_eq_dec x y then true else false.

(** [len(value)] *)
Definition py_len (v : pyval) : result nat :=
  match v with
  | PyStr s => Ok (String.length s)
  | PyUnicode u => Ok (List.length u)
  | _ => Raise TypeError
  end.

Definition is_digit (c : ascii) : bool := (48 <=? ord c) && (ord c <=? 57).

Fixpoint parse_digits (acc : Z) (s : string) : option Z :=
  match s with
  | EmptyString => Some acc
  | String c s' =>
      if is_digit c then parse_digits (acc * 10 + (ord c - 48)) s' else None
  end.

(** Decimal literal accepted by [long(str)]: an optional sign and at least
    one digit (surrounding blanks are not modelled). *)
Definition parse_int (s : string) : result Z :=
  let unsigned (t : string) :=
    match t with
    | EmptyString => None
    | _ => parse_digits 0 t
    end in
  let r :=
    match s with
    | String "-" t => option_map Z.opp (unsigned t)
    | String "+" t => unsigned t
    | _ => unsigned s
    end in
  match r with
  | Some z => Ok z
  | None => Raise ValueError
  end.

(** [long(value)] and [int(value)] *)
Definition py_long (v : pyval) : result Z :=
  match v with
  | PyInt z => Ok z
  | PyUUID n => Ok n
  | PyStr s => parse_int s
  | PyUnicode u => parse_int (string_of_list_ascii (map chr u))
  | PyNone | PyTime _ => Raise TypeError
  end.

Fixpoint all_ascii (s : string) : bool :=
  match s with
  | EmptyString => true
  | String c s' => (ord c <? 128) && all_ascii s'
  end.

(** [value.encode('utf-8')]: text is encoded; a byte string is first
    decoded as ASCII, which fails on any byte above 127. *)
Definition py_encode_utf8 (v : pyval) : result pyval :=
  match v with
  | PyUnicode u => Ok (PyStr (utf8_encode u))
  | PyStr s => if all_ascii s then Ok (PyStr s) else Raise UnicodeDecodeError
  | _ => Raise AttributeError
  end.

(** [struct.pack(">%ds" % n, value)] on a Python value. *)
Definition py_pack_s (n : nat) (v : pyval) : result pyval :=
  match v with
  | PyStr s => Ok (PyStr (struct_pack_s n s))
  | _ => Raise StructError
  end.

(** [struct.unpack(fmt, b)] wants a byte string. *)
Definition py_buffer (b : pyval) : result string :=
  match b with
  | PyStr s => Ok s
  | _ => Raise TypeError
  end.

(** [value.bytes], when [hasattr(value, 'bytes')]. *)
Definition py_bytes_attr (v : pyval) : option string :=
  match v with
  | PyUUID n => Some (be_pack 16 n)
  | _ => None
  end.

(** ** Type names *)

Definition _TYPES : list string :=
  ["BytesType"; "LongType"; "IntegerType"; "UTF8Type"; "AsciiType";
   "LexicalUUIDType"; "TimeUUIDType"].

Definition _NON_SLICE : Z := 0.
Definition _SLICE_START : Z := 1.
Definition _SLICE_FINISH : Z := 2.

(** [string.rfind(c)]: the highest index of [c] in [s], or [-1]. *)
Fixpoint rfind_from (c : ascii) (s : string) (pos best : Z) : Z :=
  match s with
  | EmptyString => best
  | String a s' => rfind_from c s' (pos + 1) (if Ascii.eqb a c then pos else best)
  end.

Definition rfind (c : ascii) (s : string) : Z := rfind_from c s 0 (-1).

(** [string[n:]] for [n >= 0]. *)
Fixpoint str_drop (n : nat) (s : string) : string :=
  match n, s with
  | O, _ => s
  | S k, EmptyString => EmptyString
  | S k, String _ s' => str_drop k s'
  end.

Definition in_types (s : string) : bool :=
  existsb (String.eqb s) _TYPES.

Definition _extract_type_name (name : option string) : string :=
  match name with
  | None => "BytesType"
  | Some name =>
      let index := rfind "." name in
      if index =? -1 then "BytesType"
      else
        let name := str_drop (Z.to_nat (index + 1)) name in
        if in_types name then name else "BytesType"
  end.

(** ** The codec: [_pack] and [_unpack] *)

Definition data_type_is (data_type : option string) (name : string) : bool :=
  match data_type with
  | Some t => String.eqb t name
  | None => false
  end.

Definition _pack (value : pyval) (data_type : option string) : result pyval :=
  if data_type_is data_type "LongType" then
    z <- py_long value ;;
    s <- struct_pack_int 8 z ;;
    Ok (PyStr s)
  else if data_type_is data_type "IntegerType" then
    z <- py_long value ;;
    s <- struct_pack_int 4 z ;;
    Ok (PyStr s)
  else if data_type_is data_type "AsciiType" then
    n <- py_len value ;;
    py_pack_s n value
  else if data_type_is data_type "UTF8Type" then
    st <- match py_encode_utf8 value with
          | Raise UnicodeDecodeError => Ok value
          | r => r
          end ;;
    n <- py_len st ;;
    py_pack_s n st
  else if data_type_is data_type "TimeUUIDType"
          || data_type_is data_type "LexicalUUIDType" then
    match py_bytes_attr value with
    | None => Raise TypeError
    | Some bytes => Ok (PyStr (struct_pack_s 16 bytes))
    end
  else Ok value.

Definition _unpack (b : pyval) (data_type : option string) : result pyval :=
  if data_type_is data_type "LongType" then
    s <- py_buffer b ;;
    z <- struct_unpack_int 8 s ;;
    Ok (PyInt z)
  else if data_type_is data_type "IntegerType" then
    s <- py_buffer b ;;
    z <- struct_unpack_int 4 s ;;
    Ok (PyInt z)
  else if data_type_is data_type "AsciiType" then
    n <- py_len b ;;
    s <- py_buffer b ;;
    r <- struct_unpack_s n s ;;
    Ok (PyStr r)
  else if data_type_is data_type "UTF8Type" then
    n <- py_len b ;;
    s <- py_buffer b ;;
    unic <- struct_unpack_s n s ;;
    u <- utf8_decode unic ;;
    Ok (PyUnicode u)
  else if data_type_is data_type "LexicalUUIDType"
          || data_type_is data_type "TimeUUIDType" then
    s <- py_buffer b ;;
    temp_bytes <- struct_unpack_s 16 s ;;
    Ok (PyUUID (be_unpack temp_bytes))
  else Ok b.

(** ** Thrift structures ([pycassa.cassandra.ttypes]) *)

Record SliceRange : Type := mkSliceRange {
  sr_start : pyval;
  sr_finish : pyval;
  sr_reversed : bool;
  sr_count : Z
}.

(** Both fields are optional in the Thrift struct; a field that the
    constructor call does not name stays [None]. *)
Record SlicePredicate : Type := mkSlicePredicate {
  column_names : option (list pyval);
  slice_range : option SliceRange
}.

Record ColumnParent : Type := mkColumnParent {
  cp_column_family : string;
  cp_super_column : pyval
}.

Record KeyRange : Type := mkKeyRange {
  start_key : pyval;
  end_key : pyval;
  kr_count : Z
}.

Record Column : Type := mkColumn {
  col_name : pyval;
  col_value : pyval;
  col_timestamp : Z
}.

Record SuperColumn : Type := mkSuperColumn {
  sc_name : pyval;
  sc_columns : list Column
}.

Record ColumnOrSuperColumn : Type := mkColumnOrSuperColumn {
  column : option Column;
  super_column : option SuperColumn
}.

Record KeySlice : Type := mkKeySlice {
  ks_key : pyval;
  ks_columns : list ColumnOrSuperColumn
}.

Record IndexExpression : Type := mkIndexExpression {
  ie_column_name : pyval;
  ie_op : Z;
  ie_value : pyval
}.

Record IndexClause : Type := mkIndexClause {
  expressions : list IndexExpression;
  ic_start_key : pyval;
  ic_count : Z
}.

Record ColumnDef : Type := mkColumnDef {
  validation_class : option string
}.

Record CfDef : Type := mkCfDef {
  comparator_type : option string;
  subcomparator_type : option string;
  default_validation_class : option string;
  column_metadata : list (pyval * ColumnDef)
}.

(** The [columns] argument of an insert: [{'column': 'value'}], or
    [{'column': {'subcolumn': 'value'}}] for a super column family, in
    the order in which the dict iterates. *)
Inductive ColumnsArg : Type :=
| PlainColumns (cols : list (pyval * pyval))
| SuperColumns (cols : list (pyval * list (pyval * pyval))).

(** What [CfMutator.insert] is called with. *)
Record Insertion : Type := mkInsertion {
  ins_key : pyval;
  ins_columns : ColumnsArg;
  ins_timestamp : Z;
  ins_ttl : option Z
}.

(** ** The environment: remote calls, the random source, the clock *)

(** A request sent over the wire. *)
Inductive Rpc : Type :=
| Rpc_get_slice (k : pyval) (cp : ColumnParent) (sp : SlicePredicate) (cl : Z)
| Rpc_get_indexed_slices (cp : ColumnParent) (ic : IndexClause)
    (sp : SlicePredicate) (cl : Z)
| Rpc_multiget_slice (keys : list pyval) (cp : ColumnParent)
    (sp : SlicePredicate) (cl : Z)
| Rpc_get_count (k : pyval) (cp : ColumnParent) (sp : SlicePredicate) (cl : Z)
| Rpc_multiget_count (keys : list pyval) (cp : ColumnParent)
    (sp : SlicePredicate) (cl : Z)
| Rpc_get_range_slices (cp : ColumnParent) (sp : SlicePredicate)
    (kr : KeyRange) (cl : Z)
| Rpc_batch_mutate (ms : list Insertion) (cl : Z)
| Rpc_truncate (cf : string).

(** The Thrift client.  A reply may depend on everything that was sent
    before (the first argument), so a remote store whose content changes
    between two calls is covered.  Maps in replies are given in the order
    in which the Python dict iterates them. *)
Record Client : Type := mkClient {
  get_keyspace_description : list (string * CfDef);
  client_get_slice : list Rpc -> pyval -> ColumnParent -> SlicePredicate -> Z ->
              result (list ColumnOrSuperColumn);
  client_get_indexed_slices : list Rpc -> ColumnParent -> IndexClause ->
              SlicePredicate -> Z -> result (list KeySlice);
  client_multiget_slice : list Rpc -> list pyval -> ColumnParent -> SlicePredicate ->
              Z -> result (list (pyval * list ColumnOrSuperColumn));
  client_get_count : list Rpc -> pyval -> ColumnParent -> SlicePredicate -> Z ->
              result Z;
  client_multiget_count : list Rpc -> list pyval -> ColumnParent -> SlicePredicate ->
              Z -> result (list (pyval * Z));
  client_get_range_slices : list Rpc -> ColumnParent -> SlicePredicate -> KeyRange ->
              Z -> result (option (list KeySlice));
  client_batch_mutate : list Rpc -> list Insertion -> Z -> result unit;
  client_truncate : list Rpc -> string -> result unit
}.

(** State outside the handle: the requests sent so far (oldest first), how
    often the timestamp function and the random generator were read, and
    what the random generator returns on its n-th read. *)
Record World : Type := mkWorld {
  rpcs : list Rpc;
  clock_reads : nat;
  rand_reads : nat;
  getrandbits : nat -> Z
}.

Definition M (A : Type) : Type := World -> result A * World.

Definition ret {A : Type} (a : A) : M A := fun w => (Ok a, w).

Definition raise {A : Type} (e : exn) : M A := fun w => (Raise e, w).

Definition lift {A : Type} (r : result A) : M A := fun w => (r, w).

Definition bindM {A B : Type} (m : M A) (k : A -> M B) : M B :=
  fun w =>
    match m w with
    | (Ok a, w') => k a w'
    | (Raise e, w') => (Raise e, w')
    end.

Notation "x <~ m ;; k" := (bindM m (fun x => k))
  (at level 61, m at next level, right associativity).
Notation "' p <~ m ;; k" := (bindM m (fun x => let p := x in k))
  (at level 61, p pattern, m at next level, right associativity).

Fixpoint mapMM {A B : Type} (f : A -> M B) (l : list A) : M (list B) :=
  match l with
  | [] => ret []
  | a :: l' => b <~ f a ;; bs <~ mapMM f l' ;; ret (b :: bs)
  end.

(** Sends a request: the reply is computed from the history, the request
    is appended to it. *)
Definition call {A : Type} (reply : list Rpc -> result A) (request : Rpc) : M A :=
  fun w =>
    (reply (rpcs w),
     mkWorld (rpcs w ++ [request]) (clock_reads w) (rand_reads w) (getrandbits w)).

(** [random.getrandbits(64)] *)
Definition random_bits : M Z :=
  fun w =>
    (Ok (getrandbits w (rand_reads w) mod 2 ^ 64),
     mkWorld (rpcs w) (clock_reads w) (S (rand_reads w)) (getrandbits w)).

(** ** Ordered dictionaries ([dict_class])

    The result mappings are instances of the handle's [dict_class].  The
    model is the insertion-ordered one ([collections.OrderedDict]): a list
    of items without repeated keys; a plain [dict] is the same mapping
    with the order forgotten.  The handle has no field for the class:
    what a theorem says about the order of a result holds for a handle
    built with an insertion-ordered [dict_class]; with the default
    [dict] only the content of the result is determined. *)

Section Dict.
Variable V : Type.

Definition dict : Type := list (pyval * V).

Fixpoint dict_mem (k : pyval) (d : dict) : bool :=
  match d with
  | [] => false
  | (k', _) :: d' => pyval_eqb k k' || dict_mem k d'
  end.

Fixpoint dict_get (k : pyval) (d : dict) : option V :=
  match d with
  | [] => None
  | (k', v) :: d' => if pyval_eqb k k' then Some v else dict_get k d'
  end.

(** [d[k] = v]: replaces the value of an existing key in place, appends
    a new key. *)
Fixpoint dict_set (k : pyval) (v : V) (d : dict) : dict :=
  match d with
  | [] => [(k, v)]
  | (k', v') :: d' =>
      if pyval_eqb k k' then (k', v) :: d' else (k', v') :: dict_set k v d'
  end.

(** [del d[k]]: a [KeyError] when the key is not there. *)
Fixpoint dict_del (k : pyval) (d : dict) : result dict :=
  match d with
  | [] => Raise KeyError
  | (k', v') :: d' =>
      if pyval_eqb k k' then Ok d'
      else d'' <- dict_del k d' ;; Ok ((k', v') :: d'')
  end.

Definition dict_keys (d : dict) : list pyval := map fst d.
End Dict.

Arguments dict_mem {V} k d.
Arguments dict_get {V} k d.
Arguments dict_set {V} k v d.
Arguments dict_del {V} k d.
Arguments dict_keys {V} d.

(** ** The handle *)

Record ColumnFamily : Type := mkColumnFamily {
  client : Client;
  column_family : string;
  buffer_size : Z;
  read_consistency_level : Z;
  write_consistency_level : Z;
  timestamp : nat -> Z;  (* what the n-th call of the timestamp function returns *)
  super : bool;
  autopack_names : bool;
  autopack_values : bool;
  cf_data_type : option string;
  col_name_data_type : option string;
  supercol_name_data_type : option string;
  col_type_dict : dict string
}.

(** [__init__]: the schema is read once and resolved into type names. *)
Definition ColumnFamily_init (client : Client) (column_family : string)
    (buffer_size read_cl write_cl : Z) (timestamp : nat -> Z)
    (super autopack_names autopack_values : bool) : result ColumnFamily :=
  match find (fun e => String.eqb (fst e) column_family)
             (get_keyspace_description client) with
  | None => Raise NotFoundException
  | Some (_, col_fam) =>
      let col_name_data_type :=
        if negb super then comparator_type col_fam
        else subcomparator_type col_fam in
      let supercol_name_data_type :=
        if negb super then None
        else Some (_extract_type_name (comparator_type col_fam)) in
      Ok (mkColumnFamily client column_family buffer_size read_cl write_cl
            timestamp super autopack_names autopack_values
            (if autopack_values
             then Some (_extract_type_name (default_validation_class col_fam))
             else None)
            (if autopack_names
             then Some (_extract_type_name col_name_data_type)
             else None)
            (if autopack_names then supercol_name_data_type else None)
            (if autopack_values
             then fold_left
                    (fun d e => dict_set (fst e)
                       (_extract_type_name (validation_class (snd e))) d)
                    (column_metadata col_fam) []
             else []))
  end.

(** ** Names and values *)

(** Modelled from the spec: [convert_time_to_uuid] of [pycassa.util],
    which is not among the sources.  For a time value it builds the
    version-1 UUID with that timestamp; the clock-sequence and node bits,
    the only ones that are neither timestamp nor fixed by the UUID
    version, are all zero for a slice start ([lowest_val]), all one for a
    slice finish, and random otherwise. *)
Definition uuid1 (ticks clock_seq node : Z) : Z :=
  let time_low := ticks mod 2 ^ 32 in
  let time_mid := (ticks / 2 ^ 32) mod 2 ^ 16 in
  let time_hi_version := 4096 + (ticks / 2 ^ 48) mod 2 ^ 12 in
  let clock_seq_hi_variant := 128 + (clock_seq / 2 ^ 8) mod 2 ^ 6 in
  let clock_seq_low := clock_seq mod 2 ^ 8 in
  time_low * 2 ^ 96 + time_mid * 2 ^ 80 + time_hi_version * 2 ^ 64
  + clock_seq_hi_variant * 2 ^ 56 + clock_seq_low * 2 ^ 48 + node mod 2 ^ 48.

Definition convert_time_to_uuid (time_arg : pyval) (lowest_val randomize : bool)
  : M pyval :=
  match time_arg with
  | PyTime ticks =>
      if randomize then
        rand_bits <~ random_bits ;;
        ret (PyUUID (uuid1 ticks (rand_bits mod 2 ^ 16) (rand_bits / 2 ^ 16)))
      else if lowest_val then ret (PyUUID (uuid1 ticks 0 0))
      else ret (PyUUID (uuid1 ticks (2 ^ 14 - 1) (2 ^ 48 - 1)))
  | _ => raise ValueError
  end.

(** Modelled from the spec: the order the store keeps time-ordered UUID
    names in, which is the remote store's and not part of the sources.
    The timestamp decides; among UUIDs that share it, the remaining bits
    decide (the spec takes the one with minimal such bits to be the
    least). *)
Definition uuid_timestamp (b : string) : Z :=
  let n := be_unpack b in
  ((n / 2 ^ 64) mod 2 ^ 12) * 2 ^ 48 + ((n / 2 ^ 80) mod 2 ^ 16) * 2 ^ 32
  + n / 2 ^ 96.

Definition time_uuid_leb (a b : string) : bool :=
  let ta := uuid_timestamp a in
  let tb := uuid_timestamp b in
  (ta <? tb) || ((ta =? tb) && (be_unpack a mod 2 ^ 64 <=? be_unpack b mod 2 ^ 64)).

(** [value != ''] *)
Definition is_empty_string (v : pyval) : bool :=
  match v with
  | PyStr EmptyString => true
  | PyUnicode [] => true
  | _ => false
  end.

Definition name_data_type (self : ColumnFamily) (is_supercol_name : bool)
  : option string :=
  if is_supercol_name then supercol_name_data_type self
  else col_name_data_type self.

Definition _pack_name (self : ColumnFamily) (value : pyval)
    (is_supercol_name : bool) (slice_end : Z) : M pyval :=
  if negb (autopack_names self) then ret value
  else
    match value with
    | PyNone => ret PyNone
    | _ =>
        let d_type := name_data_type self is_supercol_name in
        value <~ (if data_type_is d_type "TimeUUIDType" then
                    if negb (slice_end =? 0) then
                      convert_time_to_uuid value (slice_end =? _SLICE_START) false
                    else convert_time_to_uuid value true true
                  else ret value) ;;
        lift (_pack value d_type)
    end.

Definition _unpack_name (self : ColumnFamily) (b : pyval)
    (is_supercol_name : bool) : result pyval :=
  if negb (autopack_names self) then Ok b
  else
    match b with
    | PyNone => Ok PyNone
    | _ => _unpack b (name_data_type self is_supercol_name)
    end.

Definition _get_data_type_for_col (self : ColumnFamily) (col_name : pyval)
  : option string :=
  if negb (existsb (pyval_eqb col_name) (dict_keys (col_type_dict self)))
  then cf_data_type self
  else dict_get col_name (col_type_dict self).

Definition _pack_value (self : ColumnFamily) (value col_name : pyval)
  : result pyval :=
  if negb (autopack_values self) then Ok value
  else _pack value (_get_data_type_for_col self col_name).

Definition _unpack_value (self : ColumnFamily) (value col_name : pyval)
  : result pyval :=
  if negb (autopack_values self) then Ok value
  else _unpack value (_get_data_type_for_col self col_name).

Definition _pack_slice_cols (self : ColumnFamily)
    (super_column column_start column_finish : pyval)
  : M (pyval * pyval * pyval) :=
  super_column <~ (if negb (is_empty_string super_column)
                   then _pack_name self super_column true _NON_SLICE
                   else ret super_column) ;;
  column_start <~ (if negb (is_empty_string column_start)
                   then _pack_name self column_start (super self) _SLICE_START
                   else ret column_start) ;;
  column_finish <~ (if negb (is_empty_string column_finish)
                    then _pack_name self column_finish (super self) _SLICE_FINISH
                    else ret column_finish) ;;
  ret (super_column, column_start, column_finish).

Definition _rcl (self : ColumnFamily) (alternative : option Z) : Z :=
  match alternative with
  | None => read_consistency_level self
  | Some cl => cl
  end.

Definition _wcl (self : ColumnFamily) (alternative : option Z) : Z :=
  match alternative with
  | None => write_consistency_level self
  | Some cl => cl
  end.

(** ** Predicates *)

Definition create_SlicePredicate (columns : option (list pyval))
    (column_start column_finish : pyval) (column_reversed : bool)
    (column_count : Z) : SlicePredicate :=
  match columns with
  | Some columns => mkSlicePredicate (Some columns) None
  | None =>
      let sr := mkSliceRange column_start column_finish column_reversed
                  column_count in
      mkSlicePredicate None (Some sr)
  end.

(** The loop that every read operation runs over its [columns]
    argument. *)
Definition pack_columns (self : ColumnFamily) (columns : option (list pyval))
  : M (option (list pyval)) :=
  match columns with
  | None => ret None
  | Some columns =>
      packed_cols <~ mapMM (fun col => _pack_name self col (super self) _NON_SLICE)
                       columns ;;
      ret (Some packed_cols)
  end.

(** The opening lines shared, word for word, by [get], [multiget],
    [get_indexed_slices], [get_count], [multiget_count] and [get_range]:
    pack the bounds, pack the listed columns, build the parent and the
    predicate. *)
Definition slice_query (self : ColumnFamily) (columns : option (list pyval))
    (column_start column_finish : pyval) (column_reversed : bool)
    (column_count : Z) (super_column : pyval)
  : M (ColumnParent * SlicePredicate) :=
  '(super_column, column_start, column_finish) <~
     _pack_slice_cols self super_column column_start column_finish ;;
  packed_cols <~ pack_columns self columns ;;
  let cp := mkColumnParent (column_family self) super_column in
  let sp := create_SlicePredicate packed_cols column_start column_finish
              column_reversed column_count in
  ret (cp, sp).

(** ** Results

    In [ret[name] = value] Python evaluates the right-hand side before the
    subscript, so the value is converted before the name is unpacked. *)

(** A column's value, alone or with its write timestamp. *)
Inductive base : Type :=
| Bare (v : pyval)
| Stamped (v : pyval) (ts : Z).

(** What a name maps to in a row: a column, or the sub-mapping of a super
    column. *)
Inductive cell : Type :=
| Plain (b : base)
| Nested (d : dict base).

Definition Row : Type := dict cell.

Definition _convert_Column_to_base (self : ColumnFamily) (column : Column)
    (include_timestamp : bool) : result base :=
  value <- _unpack_value self (col_value column) (col_name column) ;;
  if include_timestamp then Ok (Stamped value (col_timestamp column))
  else Ok (Bare value).

Definition _convert_SuperColumn_to_base (self : ColumnFamily)
    (super_column : SuperColumn) (include_timestamp : bool)
  : result (dict base) :=
  fold_left
    (fun acc column =>
       ret <- acc ;;
       v <- _convert_Column_to_base self column include_timestamp ;;
       k <- _unpack_name self (col_name column) false ;;
       Ok (dict_set k v ret))
    (sc_columns super_column) (Ok []).

Definition _convert_ColumnOrSuperColumns_to_dict_class (self : ColumnFamily)
    (list_col_or_super : list ColumnOrSuperColumn) (include_timestamp : bool)
  : result Row :=
  fold_left
    (fun acc col_or_super =>
       ret <- acc ;;
       match super_column col_or_super with
       | Some col =>
           v <- _convert_SuperColumn_to_base self col include_timestamp ;;
           k <- _unpack_name self (sc_name col) true ;;
           Ok (dict_set k (Nested v) ret)
       | None =>
           match column col_or_super with
           | None => Raise AttributeError
           | Some col =>
               v <- _convert_Column_to_base self col include_timestamp ;;
               k <- _unpack_name self (col_name col) false ;;
               Ok (dict_set k (Plain v) ret)
           end
       end)
    list_col_or_super (Ok []).

Definition _convert_KeySlice_list_to_dict_class (self : ColumnFamily)
    (keyslice_list : list KeySlice) (include_timestamp : bool)
  : result (dict Row) :=
  fold_left
    (fun acc keyslice =>
       ret <- acc ;;
       v <- _convert_ColumnOrSuperColumns_to_dict_class self
              (ks_columns keyslice) include_timestamp ;;
       Ok (dict_set (ks_key keyslice) v ret))
    keyslice_list (Ok []).

(** ** Read operations *)

Definition get (self : ColumnFamily) (key : pyval)
    (columns : option (list pyval)) (column_start column_finish : pyval)
    (column_reversed : bool) (column_count : Z) (include_timestamp : bool)
    (super_column : pyval) (read_consistency_level : option Z) : M Row :=
  '(cp, sp) <~ slice_query self columns column_start column_finish
                 column_reversed column_count super_column ;;
  let cl := _rcl self read_consistency_level in
  list_col_or_super <~ call (fun h => client_get_slice (client self) h key cp sp cl)
                         (Rpc_get_slice key cp sp cl) ;;
  if Nat.eqb (List.length list_col_or_super) 0 then raise NotFoundException
  else lift (_convert_ColumnOrSuperColumns_to_dict_class self
               list_col_or_super include_timestamp).

Definition pack_expression (self : ColumnFamily) (expr : IndexExpression)
  : M IndexExpression :=
  n <~ _pack_name self (ie_column_name expr) false _NON_SLICE ;;
  v <~ lift (_pack_value self (ie_value expr) (ie_column_name expr)) ;;
  ret (mkIndexExpression n (ie_op expr) v).

Definition get_indexed_slices (self : ColumnFamily)
    (index_clause : IndexClause)
    (columns : option (list pyval)) (column_start column_finish : pyval)
    (column_reversed : bool) (column_count : Z) (include_timestamp : bool)
    (super_column : pyval) (read_consistency_level : option Z)
  : M (dict Row) :=
  '(cp, sp) <~ slice_query self columns column_start column_finish
                 column_reversed column_count super_column ;;
  new_exprs <~ mapMM (pack_expression self) (expressions index_clause) ;;
  let index_clause := mkIndexClause new_exprs (ic_start_key index_clause)
                        (ic_count index_clause) in
  let cl := _rcl self read_consistency_level in
  keyslice_list <~ call (fun h => client_get_indexed_slices (client self) h cp
                                    index_clause sp cl)
                     (Rpc_get_indexed_slices cp index_clause sp cl) ;;
  if Nat.eqb (List.length keyslice_list) 0 then raise NotFoundException
  else lift (_convert_KeySlice_list_to_dict_class self keyslice_list
               include_timestamp).

(** The three loops of [multiget] after the remote call. *)
Definition multiget_placeholders (keys : list pyval)
  : dict (option Row) :=
  fold_left (fun ret key => dict_set key None ret) keys [].

Definition multiget_fill (self : ColumnFamily)
    (keymap : list (pyval * list ColumnOrSuperColumn))
    (include_timestamp : bool) (ret : dict (option Row))
  : result (list pyval * dict (option Row)) :=
  fold_left
    (fun acc item =>
       '(non_empty_keys, ret) <- acc ;;
       let '(key, columns) := item in
       if (0 <? Z.of_nat (List.length columns)) then
         row <- _convert_ColumnOrSuperColumns_to_dict_class self columns
                  include_timestamp ;;
         Ok (non_empty_keys ++ [key], dict_set key (Some row) ret)
       else Ok (non_empty_keys, ret))
    keymap (Ok ([], ret)).

Definition multiget_prune (keys non_empty_keys : list pyval)
    (ret : dict (option Row)) : result (dict (option Row)) :=
  fold_left
    (fun acc key =>
       ret <- acc ;;
       if negb (existsb (pyval_eqb key) non_empty_keys)
       then dict_del key ret
       else Ok ret)
    keys (Ok ret).

Definition multiget (self : ColumnFamily) (keys : list pyval)
    (columns : option (list pyval)) (column_start column_finish : pyval)
    (column_reversed : bool) (column_count : Z) (include_timestamp : bool)
    (super_column : pyval) (read_consistency_level : option Z)
  : M (dict (option Row)) :=
  '(cp, sp) <~ slice_query self columns column_start column_finish
                 column_reversed column_count super_column ;;
  let cl := _rcl self read_consistency_level in
  keymap <~ call (fun h => client_multiget_slice (client self) h keys cp sp cl)
              (Rpc_multiget_slice keys cp sp cl) ;;
  let ret := multiget_placeholders keys in
  '(non_empty_keys, ret) <~ lift (multiget_fill self keymap include_timestamp ret) ;;
  lift (multiget_prune keys non_empty_keys ret).

Definition MAX_COUNT : Z := 2 ^ 31 - 1.

Definition get_count (self : ColumnFamily) (key : pyval)
    (super_column : pyval) (read_consistency_level : option Z)
    (columns : option (list pyval)) (column_start column_finish : pyval)
  : M Z :=
  '(cp, sp) <~ slice_query self columns column_start column_finish
                 false MAX_COUNT super_column ;;
  let cl := _rcl self read_consistency_level in
  call (fun h => client_get_count (client self) h key cp sp cl)
    (Rpc_get_count key cp sp cl).

Definition multiget_count (self : ColumnFamily) (keys : list pyval)
    (super_column : pyval) (read_consistency_level : option Z)
    (columns : option (list pyval)) (column_start column_finish : pyval)
  : M (list (pyval * Z)) :=
  '(cp, sp) <~ slice_query self columns column_start column_finish
                 false MAX_COUNT super_column ;;
  let cl := _rcl self read_consistency_level in
  call (fun h => client_multiget_count (client self) h keys cp sp cl)
    (Rpc_multiget_count keys cp sp cl).

(** ** The range scan

    [get_range] is a generator: calling it runs nothing, each [next()]
    runs its body up to the next [yield].  The generator object is made
    explicit: its local variables, and where in the body it stands. *)

Record RangeArgs : Type := mkRangeArgs {
  ra_start : pyval;
  ra_finish : pyval;
  ra_columns : option (list pyval);
  ra_column_start : pyval;
  ra_column_finish : pyval;
  ra_column_reversed : bool;
  ra_column_count : Z;
  ra_row_count : option Z;
  ra_include_timestamp : bool;
  ra_super_column : pyval;
  ra_read_consistency_level : option Z
}.

Record Locals : Type := mkLocals {
  l_cp : ColumnParent;
  l_sp : SlicePredicate;
  l_count : Z;
  l_i : Z;
  l_last_key : pyval;
  l_buffer_size : Z
}.

Inductive Gen : Type :=
| GStart                                  (* created, body not entered *)
| GFetch (l : Locals)                     (* at the top of [while True] *)
| GIter (l : Locals) (key_slices : list KeySlice) (j : Z)
        (rest : list KeySlice)            (* in the [for], [rest] to go *)
| GYielded (l : Locals) (key_slices : list KeySlice) (j : Z)
        (rest : list KeySlice)            (* suspended at the [yield] *)
| GDone.                                  (* returned or raised *)

(** What a piece of the body ends with. *)
Inductive Signal : Type :=
| Silent                                  (* goes on without a value *)
| Yield (item : pyval * Row)
| Return.                                 (* [StopIteration] *)

Definition get_range_step (self : ColumnFamily) (a : RangeArgs) (g : Gen)
  : M (Signal * Gen) :=
  match g with
  | GStart =>
      '(cp, sp) <~ slice_query self (ra_columns a) (ra_column_start a)
                     (ra_column_finish a) (ra_column_reversed a)
                     (ra_column_count a) (ra_super_column a) ;;
      let buffer_size :=
        match ra_row_count a with
        | Some row_count => Z.min row_count (buffer_size self)
        | None => buffer_size self
        end in
      ret (Silent, GFetch (mkLocals cp sp 0 0 (ra_start a) buffer_size))
  | GFetch l =>
      let key_range := mkKeyRange (l_last_key l) (ra_finish a) (l_buffer_size l) in
      let cl := _rcl self (ra_read_consistency_level a) in
      key_slices <~ call (fun h => client_get_range_slices (client self) h
                                     (l_cp l) (l_sp l) key_range cl)
                      (Rpc_get_range_slices (l_cp l) (l_sp l) key_range cl) ;;
      match key_slices with
      | None => ret (Return, GDone)
      | Some key_slices => ret (Silent, GIter l key_slices 0 key_slices)
      end
  | GIter l key_slices j (key_slice :: rest) =>
      if (j =? 0) && negb (l_i l =? 0) then
        ret (Silent, GIter l key_slices (j + 1) rest)
      else
        row <~ lift (_convert_ColumnOrSuperColumns_to_dict_class self
                       (ks_columns key_slice) (ra_include_timestamp a)) ;;
        ret (Yield (ks_key key_slice, row), GYielded l key_slices j rest)
  | GYielded l key_slices j rest =>
      let count := l_count l + 1 in
      let l := mkLocals (l_cp l) (l_sp l) count (l_i l) (l_last_key l)
                 (l_buffer_size l) in
      match ra_row_count a with
      | Some row_count =>
          if row_count <=? count then ret (Return, GDone)
          else ret (Silent, GIter l key_slices (j + 1) rest)
      | None => ret (Silent, GIter l key_slices (j + 1) rest)
      end
  | GIter l key_slices j [] =>
      if negb (Z.of_nat (List.length key_slices) =? buffer_size self) then
        ret (Return, GDone)
      else
        match last (map Some key_slices) None with
        | None => raise IndexError
        | Some last_slice =>
            ret (Silent,
                 GFetch (mkLocals (l_cp l) (l_sp l) (l_count l) (l_i l + 1)
                           (ks_key last_slice) (l_buffer_size l)))
        end
  | GDone => ret (Return, GDone)
  end.

(** The generator consumed for at most [fuel] pieces of its body: the
    rows it yielded, in order, and how it stands.  [run_end] is [None]
    while the generator could still go on. *)
Record Run : Type := mkRun {
  run_items : list (pyval * Row);
  run_gen : Gen;
  run_world : World;
  run_end : option (result unit)
}.

Fixpoint get_range_run (fuel : nat) (self : ColumnFamily) (a : RangeArgs)
    (g : Gen) (w : World) : Run :=
  match fuel with
  | O => mkRun [] g w None
  | S fuel' =>
      match get_range_step self a g w with
      | (Raise e, w') => mkRun [] GDone w' (Some (Raise e))
      | (Ok (Return, _), w') => mkRun [] GDone w' (Some (Ok tt))
      | (Ok (Silent, g'), w') => get_range_run fuel' self a g' w'
      | (Ok (Yield item, g'), w') =>
          let r := get_range_run fuel' self a g' w' in
          mkRun (item :: run_items r) (run_gen r) (run_world r) (run_end r)
      end
  end.

(** [get_range(...)] itself only creates the generator. *)
Definition get_range (self : ColumnFamily) (a : RangeArgs) : Gen := GStart.

(** The page requests among the requests sent. *)
Definition range_requests (log : list Rpc) : list KeyRange :=
  flat_map (fun r => match r with
                     | Rpc_get_range_slices _ _ kr _ => [kr]
                     | _ => []
                     end) log.

(** ** Writes *)

(** [self.timestamp()] *)
Definition read_timestamp (self : ColumnFamily) : M Z :=
  fun w =>
    (Ok (timestamp self (clock_reads w)),
     mkWorld (rpcs w) (S (clock_reads w)) (rand_reads w) (getrandbits w)).

Record CfMutator : Type := mkCfMutator {
  m_column_family : ColumnFamily;
  m_queue_size : Z;
  m_write_consistency_level : Z;
  m_staged : list Insertion
}.

Definition batch (self : ColumnFamily) (queue_size : Z)
    (wcl : option Z) : CfMutator :=
  let wcl :=
    match wcl with
    | None => write_consistency_level self
    | Some cl => cl
    end in
  mkCfMutator self queue_size wcl [].

(** Modelled from the spec: [CfMutator.insert] of [pycassa.batch], which
    is not among the sources; it stages one write. *)
Definition CfMutator_insert (b : CfMutator) (key : pyval) (columns : ColumnsArg)
    (timestamp : Z) (ttl : option Z) : CfMutator :=
  mkCfMutator (m_column_family b) (m_queue_size b) (m_write_consistency_level b)
    (m_staged b ++ [mkInsertion key columns timestamp ttl]).

Fixpoint chunks (fuel : nat) (n : nat) (l : list Insertion) : list (list Insertion) :=
  match fuel, l with
  | _, [] => []
  | O, _ => [l]
  | S fuel', _ => firstn (S (pred n)) l :: chunks fuel' n (skipn (S (pred n)) l)
  end.

(** Modelled from the spec: [CfMutator.send] of [pycassa.batch]; it sends
    everything staged, at most [queue_size] mutations per call, and
    empties the stage. *)
Definition CfMutator_send (b : CfMutator) : M CfMutator :=
  let self := m_column_family b in
  let cl := m_write_consistency_level b in
  _ <~ mapMM (fun ms => call (fun h => client_batch_mutate (client self) h ms cl)
                          (Rpc_batch_mutate ms cl))
         (chunks (List.length (m_staged b)) (Z.to_nat (m_queue_size b))
            (m_staged b)) ;;
  ret (mkCfMutator self (m_queue_size b) cl []).

Definition batch_insert (self : ColumnFamily) (rows : list (pyval * ColumnsArg))
    (timestamp : option Z) (ttl : option Z) (write_consistency_level : option Z)
  : M Z :=
  timestamp <~ match timestamp with
               | None => read_timestamp self
               | Some t => ret t
               end ;;
  let batch0 := batch self 100 write_consistency_level in
  let batch1 := fold_left
                  (fun b row => CfMutator_insert b (fst row) (snd row) timestamp ttl)
                  rows batch0 in
  _ <~ CfMutator_send batch1 ;;
  ret timestamp.

Definition insert (self : ColumnFamily) (key : pyval) (columns : ColumnsArg)
    (timestamp : option Z) (ttl : option Z) (write_consistency_level : option Z)
  : M Z :=
  batch_insert self [(key, columns)] timestamp ttl write_consistency_level.

Definition truncate (self : ColumnFamily) : M unit :=
  call (fun h => client_truncate (client self) h (column_family self))
    (Rpc_truncate (column_family self)).

(** The mutations sent, in order. *)
Definition sent_insertions (log : list Rpc) : list Insertion :=
  flat_map (fun r => match r with
                     | Rpc_batch_mutate ms _ => ms
                     | _ => []
                     end) log.

(** ** Typed columns ([pycassa/types.py])

    [Int64] and [IntString]; the columns of floats and of dates rest on
    the host's floating point and time zone and are left out. *)

(** [str(val)] for an integer: its decimal digits, after a minus sign
    when it is negative.  A number below [2 ^ fuel] has at most [fuel]
    digits. *)
Fixpoint digits_fuel (fuel : nat) (z : Z) (acc : string) : string :=
  match fuel with
  | O => acc
  | S fuel' =>
      let acc := String (chr (48 + z mod 10)) acc in
      if z <? 10 then acc else digits_fuel fuel' (z / 10) acc
  end.

Definition digits (z : Z) : string :=
  digits_fuel (S (Z.to_nat (Z.log2 z))) z EmptyString.

Definition py_str_int (z : Z) : string :=
  if z <? 0 then String "-" (digits (- z)) else digits z.

(** [s[::-1]] *)
Fixpoint str_rev (s : string) : string :=
  match s with
  | EmptyString => EmptyString
  | String c s' => (str_rev s' ++ String c EmptyString)%string
  end.

(** [struct.Struct('q')]: eight bytes in the byte order of the host. *)
Definition native_pack_q (little_endian : bool) (v : Z) : result string :=
  s <- struct_pack_int 8 v ;;
  Ok (if little_endian then str_rev s else s).

Definition native_unpack_q (little_endian : bool) (b : string) : result Z :=
  struct_unpack_int 8 (if little_endian then str_rev b else b).

(** [Int64.pack] and [Int64.unpack], on a host of the given byte
    order. *)
Definition Int64_pack (little_endian : bool) (val : pyval) : result pyval :=
  match val with
  | PyInt z => s <- native_pack_q little_endian z ;; Ok (PyStr s)
  | _ => Raise TypeError
  end.

Definition Int64_unpack (little_endian : bool) (val : pyval) : result pyval :=
  s <- py_buffer val ;;
  z <- native_unpack_q little_endian s ;;
  Ok (PyInt z).

(** [IntString.pack] and [IntString.unpack] *)
Definition IntString_pack (val : pyval) : result pyval :=
  match val with
  | PyInt z => Ok (PyStr (py_str_int z))
  | _ => Raise TypeError
  end.

Definition IntString_unpack (val : pyval) : result pyval :=
  z <- py_long val ;; Ok (PyInt z).

(** ** The specification's vocabulary *)

(** The closed set of type tags, and the type name each stands for. *)
Inductive TypeTag : Type :=
| Bytes | Int64 | Int32 | UTF8 | Ascii | TimeOrderedUUID | LexicalUUID.

Definition tag_name (t : TypeTag) : string :=
  match t with
  | Bytes => "BytesType"
  | Int64 => "LongType"
  | Int32 => "IntegerType"
  | UTF8 => "UTF8Type"
  | Ascii => "AsciiType"
  | TimeOrderedUUID => "TimeUUIDType"
  | LexicalUUID => "LexicalUUIDType"
  end.

(** A Unicode scalar value: a code point that is not a surrogate. *)
Definition is_scalar_value (c : Z) : bool :=
  (0 <=? c) && (c <? 1114112) && negb ((55296 <=? c) && (c <=? 57343)).

(** The values of each type: byte strings, integers of the width of the
    layout, text (a sequence of Unicode scalar values), UUIDs. *)
Definition valid_for (t : TypeTag) (v : pyval) : bool :=
  match t, v with
  | Bytes, PyStr _ => true
  | Ascii, PyStr _ => true
  | Int64, PyInt z => (- 2 ^ 63 <=? z) && (z <? 2 ^ 63)
  | Int32, PyInt z => (- 2 ^ 31 <=? z) && (z <? 2 ^ 31)
  | UTF8, PyUnicode u => forallb is_scalar_value u
  | TimeOrderedUUID, PyUUID n => (0 <=? n) && (n <? 2 ^ 128)
  | LexicalUUID, PyUUID n => (0 <=? n) && (n <? 2 ^ 128)
  | _, _ => false
  end.

(** The components of a dotted path, [name.split('.')]. *)
Fixpoint split_dots (s : string) : list string :=
  match s with
  | EmptyString => [EmptyString]
  | String c s' =>
      if Ascii.eqb c "." then EmptyString :: split_dots s'
      else
        match split_dots s' with
        | [] => [String c EmptyString]
        | x :: xs => String c x :: xs
        end
  end.


(** ** A remote store *)

(** Modelled from the spec: the store on the other side of the client,
    which is not part of the sources.  It holds rows in key order; a
    range request is answered with at most [count] rows whose key lies
    between the start key and the end key, both inclusive, the empty key
    standing for no bound; a slice request with the columns of the row,
    none if the key is not stored.  Keys are byte strings in byte order.
    Secondary indexes are left out: an indexed request matches no row. *)
Definition key_leb (a b : pyval) : bool :=
  match a, b with
  | PyStr x, PyStr y => String.leb x y
  | _, _ => false
  end.

Definition no_bound (k : pyval) : bool :=
  match k with
  | PyStr EmptyString => true
  | _ => false
  end.

Definition in_key_range (kr : KeyRange) (ks : KeySlice) : bool :=
  (no_bound (start_key kr) || key_leb (start_key kr) (ks_key ks))
  && (no_bound (end_key kr) || key_leb (ks_key ks) (end_key kr)).

Definition range_slice (store : list KeySlice) (kr : KeyRange) : list KeySlice :=
  firstn (Z.to_nat (kr_count kr)) (filter (in_key_range kr) store).

Definition stored_columns (store : list KeySlice) (k : pyval)
  : list ColumnOrSuperColumn :=
  match find (fun ks => pyval_eqb k (ks_key ks)) store with
  | Some ks => ks_columns ks
  | None => []
  end.

Definition store_client (store : list KeySlice) : Client :=
  mkClient []
    (fun _ k _ _ _ => Ok (stored_columns store k))
    (fun _ _ _ _ _ => Ok [])
    (fun _ keys _ _ _ =>
       Ok (map (fun k => (k, stored_columns store k)) (nodup pyval_eq_dec keys)))
    (fun _ k _ _ _ => Ok (Z.of_nat (List.length (stored_columns store k))))
    (fun _ keys _ _ _ =>
       Ok (map (fun k => (k, Z.of_nat (List.length (stored_columns store k))))
             (nodup pyval_eq_dec keys)))
    (fun _ _ _ kr _ => Ok (Some (range_slice store kr)))
    (fun _ _ _ => Ok tt)
    (fun _ _ => Ok tt).

(** A handle on [store] with the given page size that passes names and
    values through unchanged. *)
Definition raw_handle (store : list KeySlice) (buffer_size : Z) : ColumnFamily :=
  mkColumnFamily (store_client store) "Standard1" buffer_size 1 1
    (fun n => 1000 + Z.of_nat n) false false false None None None [].

Definition fresh_world : World := mkWorld [] 0 0 (fun _ => 0).

(** [get_range()] with every argument at its default. *)
Definition default_range_args : RangeArgs :=
  mkRangeArgs (PyStr "") (PyStr "") None (PyStr "") (PyStr "") false 100 None
    false PyNone None.

(** Three rows [A < B < C] with one column each, and [X], a key that is
    not stored. *)
Definition sample_column : ColumnOrSuperColumn :=
  mkColumnOrSuperColumn (Some (mkColumn (PyStr "name") (PyStr "value") 1)) None.

Definition sample_row : Row := [(PyStr "name", Plain (Bare (PyStr "value")))].

Definition abc_store : list KeySlice :=
  [mkKeySlice (PyStr "A") [sample_column];
   mkKeySlice (PyStr "B") [sample_column];
   mkKeySlice (PyStr "C") [sample_column]].

(** A handle whose comparator is [TimeUUIDType]. *)
Definition time_uuid_handle : ColumnFamily :=
  mkColumnFamily (store_client []) "Events" 1024 1 1
    (fun n => 1000 + Z.of_nat n) false true true
    (Some "BytesType") (Some "TimeUUIDType") None [].

(** Byte order on keys. *)
Definition str_key_lt (a b : pyval) : Prop :=
  match a, b with
  | PyStr x, PyStr y => String.ltb x y = true
  | _, _ => False
  end.

Definition is_str (k : pyval) : Prop := exists s, k = PyStr s.

(** ** Notions used in the proofs *)

Definition code_point (c : Z) : Prop := 0 <= c < 1114112.

(** Every code point encoded by itself: what [utf8_encode] gives for a
    text in which no low surrogate follows a high one. *)
Fixpoint utf8_encode_each (u : list Z) : string :=
  match u with
  | [] => EmptyString
  | c :: u' => (utf8_encode_cp c ++ utf8_encode_each u')%string
  end.

(** No high surrogate of the text is followed by a low one. *)
Fixpoint no_surrogate_pair (u : list Z) : bool :=
  match u with
  | [] => true
  | c :: u' =>
      match u' with
      | c2 :: _ =>
          negb (is_high_surrogate c && is_low_surrogate c2)
          && no_surrogate_pair u'
      | [] => true
      end
  end.

(** A value that holds no surrogate pair: any value but a text with one. *)
Definition pairless (v : pyval) : bool :=
  match v with
  | PyUnicode u => no_surrogate_pair u
  | _ => true
  end.

(** The two surrogates [U+D800 U+DC00], each encoded by itself, and the
    code point [U+10000] that the pair stands for. *)
Definition surrogate_pair_bytes : string :=
  string_of_list_ascii (map chr [237; 160; 128; 237; 176; 128]).

Definition joined_pair_bytes : string :=
  string_of_list_ascii (map chr [240; 144; 128; 128]).


(** A bound of a slice as [_pack_slice_cols] treats it. *)
Definition pack_optional_bound (self : ColumnFamily) (v : pyval)
    (slice_end : Z) : M pyval :=
  if negb (is_empty_string v) then _pack_name self v (super self) slice_end
  else ret v.

(** An item of a multiget reply that has columns. *)
Definition has_columns (e : pyval * list ColumnOrSuperColumn) : bool :=
  0 <? Z.of_nat (List.length (snd e)).

(** A computation that sends nothing. *)
Definition offline {A : Type} (m : M A) : Prop :=
  forall w, rpcs (snd (m w)) = rpcs w.

(** The rows of the current page that are still to be yielded. *)
Definition pending (l : Locals) (j : Z) (rest : list KeySlice) : list KeySlice :=
  if (j =? 0) && negb (l_i l =? 0) then tl rest else rest.

(** A lower bound for the start key of every request still to come. *)
Definition cursor (g : Gen) : option pyval :=
  match g with
  | GFetch l | GIter l _ _ _ | GYielded l _ _ _ => Some (l_last_key l)
  | GStart | GDone => None
  end.

Section KeyOrder.
(** The order in which the store keeps its row keys. *)
Variable key_lt : pyval -> pyval -> Prop.

Definition key_le (a b : pyval) : Prop := a = b \/ key_lt a b.

(** What a range request is answered with: rows in strictly increasing
    key order, none before the start key. *)
Definition range_contract (c : Client) : Prop :=
  forall h cp sp kr cl page,
    client_get_range_slices c h cp sp kr cl = Ok (Some page) ->
    StronglySorted key_lt (map ks_key page)
    /\ Forall (key_le (start_key kr)) (map ks_key page).

Definition above (lo : option pyval) (k : pyval) : Prop :=
  match lo with
  | None => True
  | Some e => key_lt e k
  end.

Definition bound_le (lo : option pyval) (k : pyval) : Prop :=
  match lo with
  | None => True
  | Some e => key_le e k
  end.

Definition page_inv (lo : option pyval) (l : Locals) (page todo : list KeySlice)
    (rest : list KeySlice) (j : Z) : Prop :=
  0 <= l_i l /\ 0 <= j
  /\ StronglySorted key_lt (map ks_key todo)
  /\ Forall (above lo) (map ks_key todo)
  /\ (exists pre, page = pre ++ rest)
  /\ Forall (key_le (l_last_key l)) (map ks_key page)
  /\ (todo = [] -> forall ks, last (map Some page) None = Some ks ->
      bound_le lo (ks_key ks)).

(** The invariant of the scan; [lo] is the last key yielded so far, if
    any. *)
Definition scan_inv (g : Gen) (lo : option pyval) : Prop :=
  match g with
  | GStart => lo = None
  | GFetch l =>
      0 <= l_i l /\ (l_i l = 0 -> lo = None) /\ bound_le lo (l_last_key l)
  | GIter l page j rest => page_inv lo l page (pending l j rest) rest j
  | GYielded l page j rest => page_inv lo l page rest rest j
  | GDone => True
  end.

(** What one piece of the body does to the invariant: [new] are the page
    requests it sent. *)
Definition step_ok (g g' : Gen) (lo : option pyval) (sig : Signal)
    (new : list KeyRange) : Prop :=
  (List.length new <= 1)%nat
  /\ Forall (bound_le (cursor g)) (map start_key new)
  /\ match sig with
     | Return => True
     | _ =>
         scan_inv g' (match sig with
                      | Yield item => Some (fst item)
                      | _ => lo
                      end)
         /\ (match sig with
             | Yield item => above lo (fst item)
             | _ => True
             end)
         /\ exists k, cursor g' = Some k
                      /\ bound_le (cursor g) k
                      /\ Forall (fun kr => start_key kr = k) new
     end.
End KeyOrder.

(** The code points of a byte string read as ASCII. *)
Definition ascii_codes (s : string) : list Z := map ord (list_ascii_of_string s).

(** A reply item that holds a column. *)
Definition plain (col : Column) : ColumnOrSuperColumn :=
  mkColumnOrSuperColumn (Some col) None.

(** The item of a converted mapping that a column accounts for: its
    unpacked name with its converted value, [wrap] being what the mapping
    stores a value as. *)
Definition column_entry (self : ColumnFamily) (include_timestamp : bool)
    (V : Type) (wrap : base -> V) (col : Column) (item : pyval * V) : Prop :=
  _unpack_name self (col_name col) false = Ok (fst item)
  /\ exists v, _convert_Column_to_base self col include_timestamp = Ok v
               /\ snd item = wrap v.

(** The item of a converted result that a key slice accounts for: its
    key with its converted row. *)
Definition row_entry (self : ColumnFamily) (include_timestamp : bool)
    (keyslice : KeySlice) (item : pyval * Row) : Prop :=
  fst item = ks_key keyslice
  /\ _convert_ColumnOrSuperColumns_to_dict_class self (ks_columns keyslice)
       include_timestamp = Ok (snd item).

(** A row with the timestamps taken off. *)
Definition strip_base (b : base) : base :=
  match b with
  | Bare v => Bare v
  | Stamped v _ => Bare v
  end.

Definition strip_cell (c : cell) : cell :=
  match c with
  | Plain b => Plain (strip_base b)
  | Nested d => Nested (map (fun item => (fst item, strip_base (snd item))) d)
  end.

Definition strip_row (row : Row) : Row :=
  map (fun item => (fst item, strip_cell (snd item))) row.

Definition result_map {A B : Type} (f : A -> B) (r : result A) : result B :=
  match r with
  | Ok a => Ok (f a)
  | Raise e => Raise e
  end.

(** The page size of a scan: the handle's, capped by the row limit. *)
Definition page_size (self : ColumnFamily) (a : RangeArgs) : Z :=
  match ra_row_count a with
  | Some row_count => Z.min row_count (buffer_size self)
  | None => buffer_size self
  end.

(** The page request of a scan for the rows from [k] on. *)
Definition page_request (self : ColumnFamily) (a : RangeArgs)
    (cp : ColumnParent) (sp : SlicePredicate) (k : pyval) : Rpc :=
  Rpc_get_range_slices cp sp (mkKeyRange k (ra_finish a) (page_size self a))
    (_rcl self (ra_read_consistency_level a)).

(** A generator that asks for pages of [cp] and [sp]. *)
Definition same_query (self : ColumnFamily) (a : RangeArgs)
    (cp : ColumnParent) (sp : SlicePredicate) (g : Gen) : Prop :=
  match g with
  | GStart => False
  | GDone => True
  | GFetch l | GIter l _ _ _ | GYielded l _ _ _ =>
      l_cp l = cp /\ l_sp l = sp /\ l_buffer_size l = page_size self a
  end.

(** The rows a generator may still yield under the limit [row_count]. *)
Definition row_budget (row_count : Z) (g : Gen) : Z :=
  match g with
  | GStart => Z.max 1 row_count
  | GFetch l | GIter l _ _ _ => Z.max 1 row_count - l_count l
  | GYielded l _ _ _ => Z.max 1 row_count - l_count l - 1
  | GDone => 0
  end.

Definition below_limit (row_count : Z) (g : Gen) : Prop :=
  match g with
  | GStart | GDone => True
  | GFetch l | GIter l _ _ _ | GYielded l _ _ _ =>
      l_count l = 0 \/ 0 <= l_count l < row_count
  end.

(** The locals of a scan of [cp] and [sp] with pages of one row. *)
Definition turning (cp : ColumnParent) (sp : SlicePredicate) (l : Locals) : Prop :=
  l_cp l = cp /\ l_sp l = sp /\ l_buffer_size l = 1 /\ 0 <= l_i l.

(** A type as the handle holds it: none, or a name of the closed set. *)
Definition known_type (t : option string) : Prop :=
  match t with
  | None => True
  | Some name => In name _TYPES
  end.

(** ** Proof tools *)

Ltac split_ltb :=
  repeat match goal with
    | |- context [?a <? ?b] => destruct (Z.ltb_spec a b); try lia
    | |- context [?a <=? ?b] => destruct (Z.leb_spec a b); try lia
    end.

Ltac pow2_consts :=
  change (2 ^ 128) with 340282366920938463463374607431768211456 in *;
  change (2 ^ 96) with 79228162514264337593543950336 in *;
  change (2 ^ 80) with 1208925819614629174706176 in *;
  change (2 ^ 64) with 18446744073709551616 in *;
  change (2 ^ 63) with 9223372036854775808 in *;
  change (2 ^ 60) with 1152921504606846976 in *;
  change (2 ^ 56) with 72057594037927936 in *;
  change (2 ^ 48) with 281474976710656 in *;
  change (2 ^ 32) with 4294967296 in *;
  change (2 ^ 16) with 65536 in *;
  change (2 ^ 14) with 16384 in *;
  change (2 ^ 12) with 4096 in *;
  change (2 ^ 8) with 256 in *;
  change (2 ^ 6) with 64 in *.

Create HintDb offline.

(** * Proofs *)


(** * Characters and integers *)

Lemma ord_chr (z : Z) : ord (chr z) = z mod 256.
Proof.
  unfold ord, chr.
  assert (H : 0 <= z mod 256 < 256) by (apply Z.mod_pos_bound; lia).
  rewrite N_ascii_embedding; [apply Z2N.id; lia | ].
  change 256%N with (Z.to_N 256). apply Z2N.inj_lt; lia.
Qed.

Lemma ord_chr_small (z : Z) : 0 <= z < 256 -> ord (chr z) = z.
Proof. intros H. rewrite ord_chr. apply Z.mod_small, H. Qed.

Lemma ord_range (c : ascii) : 0 <= ord c < 256.
Proof.
  unfold ord. pose proof (N_ascii_bounded c). lia.
Qed.

Lemma chr_ord (c : ascii) : chr (ord c) = c.
Proof.
  unfold chr. rewrite Z.mod_small by apply ord_range.
  unfold ord. rewrite N2Z.id. apply ascii_N_embedding.
Qed.

Lemma be_pack_length (n : nat) (z : Z) : String.length (be_pack n z) = n.
Proof. induction n; simpl; congruence. Qed.

Lemma be_unpack_from_pack (n : nat) (z acc : Z) :
  be_unpack_from acc (be_pack n z) = acc * 256 ^ Z.of_nat n + z mod 256 ^ Z.of_nat n.
Proof.
  revert acc. induction n as [|k IH]; intros acc.
  - simpl. rewrite Z.mod_1_r. lia.
  - cbn [be_pack be_unpack_from]. rewrite IH, ord_chr.
    rewrite Nat2Z.inj_succ, Z.pow_succ_r by lia.
    assert (Hp : 0 < 256 ^ Z.of_nat k) by (apply Z.pow_pos_nonneg; lia).
    rewrite (Z.mul_comm 256 (256 ^ Z.of_nat k)).
    rewrite (Z.rem_mul_r z (256 ^ Z.of_nat k) 256) by lia.
    ring.
Qed.

Lemma be_unpack_pack (n : nat) (z : Z) :
  be_unpack (be_pack n z) = z mod 256 ^ Z.of_nat n.
Proof. unfold be_unpack. rewrite be_unpack_from_pack. lia. Qed.

Lemma struct_pack_s_id (s : string) : struct_pack_s (String.length s) s = s.
Proof. induction s; simpl; congruence. Qed.

Lemma struct_int_roundtrip (n : nat) (v : Z) (s : string) :
  (0 < n)%nat ->
  struct_pack_int n v = Ok s -> struct_unpack_int n s = Ok v.
Proof.
  unfold struct_pack_int, struct_unpack_int. intros Hn.
  set (half := 2 ^ (8 * Z.of_nat n - 1)).
  assert (Hhalf : 0 < half) by (apply Z.pow_pos_nonneg; lia).
  assert (Hfull : 256 ^ Z.of_nat n = 2 * half).
  { unfold half. change 256 with (2 ^ 8). rewrite <- Z.pow_mul_r by lia.
    rewrite <- Z.pow_succ_r by lia. f_equal. lia. }
  destruct (Z.leb_spec (- half) v); [|discriminate].
  destruct (Z.ltb_spec v half); [|discriminate].
  cbn [andb]. intros [= <-].
  rewrite be_pack_length, Nat.eqb_refl, be_unpack_pack, Hfull.
  f_equal.
  destruct (Z.lt_ge_cases v 0).
  - replace (v mod (2 * half)) with (v + 2 * half).
    + destruct (Z.ltb_spec (v + 2 * half) half); lia.
    + apply Z.mod_unique with (q := -1); lia.
  - rewrite Z.mod_small by lia.
    destruct (Z.ltb_spec v half); lia.
Qed.

(** * UTF-8 *)


Lemma utf8_decode_encode_cp (c : Z) (rest : string) :
  0 <= c < 1114112 ->
  utf8_decode_cp (utf8_encode_cp c ++ rest)%string = Some (c, rest).
Proof.
  intros Hc. unfold utf8_encode_cp.
  destruct (Z.ltb_spec c 128); [|destruct (Z.ltb_spec c 2048);
    [|destruct (Z.ltb_spec c 65536)]];
    cbn [String.append utf8_decode_cp];
    rewrite !ord_chr_small by (Z.div_mod_to_equations; lia); unfold is_cont.
  - split_ltb. reflexivity.
  - assert (192 <= 192 + c / 64 < 224) by (Z.div_mod_to_equations; lia).
    assert (128 <= 128 + c mod 64 < 192) by (Z.div_mod_to_equations; lia).
    assert ((192 + c / 64 - 192) * 64 + (128 + c mod 64 - 128) = c) as E
      by (Z.div_mod_to_equations; lia).
    rewrite E. split_ltb. reflexivity.
  - assert (224 <= 224 + c / 4096 < 240) by (Z.div_mod_to_equations; lia).
    assert (128 <= 128 + (c / 64) mod 64 < 192) by (Z.div_mod_to_equations; lia).
    assert (128 <= 128 + c mod 64 < 192) by (Z.div_mod_to_equations; lia).
    assert ((224 + c / 4096 - 224) * 4096 + (128 + (c / 64) mod 64 - 128) * 64
            + (128 + c mod 64 - 128) = c) as E
      by (Z.div_mod_to_equations; lia).
    rewrite E. split_ltb. reflexivity.
  - assert (240 <= 240 + c / 262144 < 248) by (Z.div_mod_to_equations; lia).
    assert (128 <= 128 + (c / 4096) mod 64 < 192) by (Z.div_mod_to_equations; lia).
    assert (128 <= 128 + (c / 64) mod 64 < 192) by (Z.div_mod_to_equations; lia).
    assert (128 <= 128 + c mod 64 < 192) by (Z.div_mod_to_equations; lia).
    assert ((240 + c / 262144 - 240) * 262144 + (128 + (c / 4096) mod 64 - 128) * 4096
            + (128 + (c / 64) mod 64 - 128) * 64
            + (128 + c mod 64 - 128) = c) as E
      by (Z.div_mod_to_equations; lia).
    rewrite E. split_ltb. reflexivity.
Qed.

Lemma utf8_encode_cp_cons (c : Z) (rest : string) :
  exists a s, (utf8_encode_cp c ++ rest)%string = String a s.
Proof.
  unfold utf8_encode_cp.
  destruct (c <? 128); [|destruct (c <? 2048); [|destruct (c <? 65536)]];
    cbn [String.append]; eauto.
Qed.


Lemma utf8_decode_fuel_encode (u : list Z) :
  Forall code_point u ->
  forall fuel, (List.length u <= fuel)%nat ->
  utf8_decode_fuel fuel (utf8_encode_each u) = Ok u.
Proof.
  induction 1 as [|c u Hc Hu IH]; intros fuel Hfuel.
  - destruct fuel; reflexivity.
  - cbn [utf8_encode_each].
    destruct (utf8_encode_cp_cons c (utf8_encode_each u)) as (a & s & E).
    destruct fuel as [|fuel]; [simpl in Hfuel; lia|].
    pose proof (@utf8_decode_encode_cp c (utf8_encode_each u) Hc) as D.
    rewrite E in *. cbn [utf8_decode_fuel]. rewrite D.
    rewrite IH by (simpl in Hfuel; lia). reflexivity.
Qed.

Lemma str_length_app (s t : string) :
  String.length (s ++ t)%string = (String.length s + String.length t)%nat.
Proof. induction s; simpl; congruence. Qed.

Lemma utf8_encode_each_length (u : list Z) :
  (List.length u <= String.length (utf8_encode_each u))%nat.
Proof.
  induction u as [|c u IH]; [apply Nat.le_refl|].
  cbn [utf8_encode_each List.length].
  destruct (utf8_encode_cp_cons c EmptyString) as (a & s & E).
  rewrite str_length_app.
  assert (1 <= String.length (utf8_encode_cp c))%nat.
  { clear - E. destruct (utf8_encode_cp c); [discriminate | simpl; lia]. }
  lia.
Qed.

Lemma utf8_encode_pairless (u : list Z) :
  no_surrogate_pair u = true -> utf8_encode u = utf8_encode_each u.
Proof.
  induction u as [|c u IH]; [reflexivity|].
  destruct u as [|c2 u]; [reflexivity|].
  intros H. change (no_surrogate_pair (c :: c2 :: u))
    with (negb (is_high_surrogate c && is_low_surrogate c2)
          && no_surrogate_pair (c2 :: u)) in H.
  apply andb_true_iff in H as [Hpair Hrest].
  apply negb_true_iff in Hpair.
  change (utf8_encode (c :: c2 :: u))
    with (if is_high_surrogate c && is_low_surrogate c2
          then (utf8_encode_cp (join_surrogates c c2) ++ utf8_encode u)%string
          else (utf8_encode_cp c ++ utf8_encode (c2 :: u))%string).
  rewrite Hpair, (IH Hrest). reflexivity.
Qed.

Lemma scalar_values_pairless (u : list Z) :
  forallb is_scalar_value u = true -> no_surrogate_pair u = true.
Proof.
  induction u as [|c u IH]; [reflexivity|].
  cbn [forallb]. intros H. apply andb_true_iff in H as [Hc Hu].
  destruct u as [|c2 u]; [reflexivity|].
  change (no_surrogate_pair (c :: c2 :: u))
    with (negb (is_high_surrogate c && is_low_surrogate c2)
          && no_surrogate_pair (c2 :: u)).
  rewrite (IH Hu), andb_true_r. apply negb_true_iff.
  unfold is_scalar_value in Hc. unfold is_high_surrogate.
  destruct (Z.leb_spec 55296 c); destruct (Z.leb_spec c 56319);
    cbn [andb]; try reflexivity.
  destruct (Z.leb_spec c 57343); [|lia].
  rewrite andb_false_r in Hc. discriminate Hc.
Qed.

Lemma utf8_roundtrip (u : list Z) :
  Forall code_point u -> no_surrogate_pair u = true ->
  utf8_decode (utf8_encode u) = Ok u.
Proof.
  intros H Hp. rewrite (utf8_encode_pairless _ Hp).
  apply utf8_decode_fuel_encode; [exact H | apply utf8_encode_each_length].
Qed.

Lemma struct_pack_int_ok (n : nat) (v : Z) :
  - 2 ^ (8 * Z.of_nat n - 1) <= v < 2 ^ (8 * Z.of_nat n - 1) ->
  struct_pack_int n v = Ok (be_pack n v).
Proof.
  intros [H1 H2]. unfold struct_pack_int.
  destruct (Z.leb_spec (- 2 ^ (8 * Z.of_nat n - 1)) v); [|lia].
  destruct (Z.ltb_spec v (2 ^ (8 * Z.of_nat n - 1))); [reflexivity|lia].
Qed.

Lemma uuid_bytes_roundtrip (n : Z) :
  0 <= n < 2 ^ 128 ->
  struct_pack_s 16 (be_pack 16 n) = be_pack 16 n
  /\ struct_unpack_s 16 (be_pack 16 n) = Ok (be_pack 16 n)
  /\ be_unpack (be_pack 16 n) = n.
Proof.
  intros Hn. split; [|split].
  - rewrite <- (be_pack_length 16 n) at 1. apply struct_pack_s_id.
  - unfold struct_unpack_s. rewrite be_pack_length. reflexivity.
  - rewrite be_unpack_pack. apply Z.mod_small.
    change (256 ^ Z.of_nat 16) with (2 ^ 128). exact Hn.
Qed.

Lemma valid_text (u : list Z) :
  forallb is_scalar_value u = true -> Forall code_point u.
Proof.
  rewrite forallb_forall, Forall_forall. intros H c Hc.
  specialize (H c Hc). unfold is_scalar_value in H. unfold code_point. lia.
Qed.

(** C2.  For every type tag of the closed set and every value of that
    type (a byte string, an integer of the width of the layout, a text of
    Unicode scalar values, a UUID), [_pack] succeeds and [_unpack] under
    the same type gives the value back. *)
Theorem pack_unpack_roundtrip (t : TypeTag) (v : pyval) :
  valid_for t v = true ->
  exists b, _pack v (Some (tag_name t)) = Ok b
            /\ _unpack b (Some (tag_name t)) = Ok v.
Proof.
  destruct t, v; try discriminate; cbn [valid_for]; intros Hv.
  - (* Bytes *) exists (PyStr s). split; reflexivity.
  - (* Int64 *)
    assert (Hz : - 2 ^ (8 * Z.of_nat 8 - 1) <= z < 2 ^ (8 * Z.of_nat 8 - 1))
      by (change (8 * Z.of_nat 8 - 1) with 63; lia).
    exists (PyStr (be_pack 8 z)). split.
    + change (_pack (PyInt z) (Some (tag_name Int64)))
        with (s <- struct_pack_int 8 z ;; Ok (PyStr s)).
      rewrite (@struct_pack_int_ok 8 z Hz). reflexivity.
    + change (_unpack (PyStr (be_pack 8 z)) (Some (tag_name Int64)))
        with (r <- struct_unpack_int 8 (be_pack 8 z) ;; Ok (PyInt r)).
      rewrite (@struct_int_roundtrip 8 z (be_pack 8 z));
        [reflexivity | lia | apply struct_pack_int_ok, Hz].
  - (* Int32 *)
    assert (Hz : - 2 ^ (8 * Z.of_nat 4 - 1) <= z < 2 ^ (8 * Z.of_nat 4 - 1))
      by (change (8 * Z.of_nat 4 - 1) with 31; lia).
    exists (PyStr (be_pack 4 z)). split.
    + change (_pack (PyInt z) (Some (tag_name Int32)))
        with (s <- struct_pack_int 4 z ;; Ok (PyStr s)).
      rewrite (@struct_pack_int_ok 4 z Hz). reflexivity.
    + change (_unpack (PyStr (be_pack 4 z)) (Some (tag_name Int32)))
        with (r <- struct_unpack_int 4 (be_pack 4 z) ;; Ok (PyInt r)).
      rewrite (@struct_int_roundtrip 4 z (be_pack 4 z));
        [reflexivity | lia | apply struct_pack_int_ok, Hz].
  - (* UTF8 *)
    pose proof (scalar_values_pairless _ Hv) as Hp.
    apply valid_text in Hv.
    exists (PyStr (utf8_encode u)). split.
    + change (_pack (PyUnicode u) (Some (tag_name UTF8)))
        with (Ok (PyStr (struct_pack_s (String.length (utf8_encode u))
                           (utf8_encode u)))).
      rewrite struct_pack_s_id. reflexivity.
    + change (_unpack (PyStr (utf8_encode u)) (Some (tag_name UTF8)))
        with (unic <- struct_unpack_s (String.length (utf8_encode u))
                        (utf8_encode u) ;;
              r <- utf8_decode unic ;; Ok (PyUnicode r)).
      unfold struct_unpack_s. rewrite Nat.eqb_refl. cbn [bind].
      rewrite (@utf8_roundtrip u Hv Hp). reflexivity.
  - (* Ascii *)
    exists (PyStr s). split.
    + change (_pack (PyStr s) (Some (tag_name Ascii)))
        with (Ok (PyStr (struct_pack_s (String.length s) s))).
      rewrite struct_pack_s_id. reflexivity.
    + change (_unpack (PyStr s) (Some (tag_name Ascii)))
        with (r <- struct_unpack_s (String.length s) s ;; Ok (PyStr r)).
      unfold struct_unpack_s. rewrite Nat.eqb_refl. reflexivity.
  - (* TimeOrderedUUID *)
    assert (Hn : 0 <= int < 2 ^ 128) by lia.
    destruct (@uuid_bytes_roundtrip int Hn) as (E1 & E2 & E3).
    exists (PyStr (be_pack 16 int)). split.
    + change (_pack (PyUUID int) (Some (tag_name TimeOrderedUUID)))
        with (Ok (PyStr (struct_pack_s 16 (be_pack 16 int)))).
      rewrite E1. reflexivity.
    + change (_unpack (PyStr (be_pack 16 int)) (Some (tag_name TimeOrderedUUID)))
        with (r <- struct_unpack_s 16 (be_pack 16 int) ;; Ok (PyUUID (be_unpack r))).
      rewrite E2. cbn [bind]. rewrite E3. reflexivity.
  - (* LexicalUUID *)
    assert (Hn : 0 <= int < 2 ^ 128) by lia.
    destruct (@uuid_bytes_roundtrip int Hn) as (E1 & E2 & E3).
    exists (PyStr (be_pack 16 int)). split.
    + change (_pack (PyUUID int) (Some (tag_name LexicalUUID)))
        with (Ok (PyStr (struct_pack_s 16 (be_pack 16 int)))).
      rewrite E1. reflexivity.
    + change (_unpack (PyStr (be_pack 16 int)) (Some (tag_name LexicalUUID)))
        with (r <- struct_unpack_s 16 (be_pack 16 int) ;; Ok (PyUUID (be_unpack r))).
      rewrite E2. cbn [bind]. rewrite E3. reflexivity.
Qed.


(** * Type-name resolution *)



Lemma split_dots_cons (s : string) : exists x xs, split_dots s = x :: xs.
Proof.
  destruct s as [|c s]; cbn [split_dots]; [eauto|].
  destruct (Ascii.eqb c "."); [eauto|].
  destruct (split_dots s); eauto.
Qed.



Lemma in_types_sound (s : string) : in_types s = true -> In s _TYPES.
Proof.
  unfold in_types. rewrite existsb_exists. intros (t & Ht & E).
  apply String.eqb_eq in E. subst. exact Ht.
Qed.



(** * Query shaping *)

(** Packing a slice bound reads neither the random source nor the
    network: the world is left as it was. *)
Lemma pack_name_bound_world (self : ColumnFamily) (v : pyval) (sup : bool)
    (slice_end : Z) (w : World) :
  slice_end <> 0 -> snd (_pack_name self v sup slice_end w) = w.
Proof.
  intros Hs. apply Z.eqb_neq in Hs.
  unfold _pack_name. rewrite Hs. cbn [negb].
  destruct (negb (autopack_names self)); [reflexivity|].
  destruct v; try reflexivity;
    unfold bindM, convert_time_to_uuid, ret, raise, lift;
    destruct (data_type_is (name_data_type self sup) "TimeUUIDType");
    try reflexivity.
  destruct (slice_end =? _SLICE_START); reflexivity.
Qed.


Lemma pack_optional_bound_world (self : ColumnFamily) (v : pyval)
    (slice_end : Z) (w : World) :
  slice_end <> 0 -> snd (pack_optional_bound self v slice_end w) = w.
Proof.
  intros Hs. unfold pack_optional_bound.
  destruct (negb (is_empty_string v)); [|reflexivity].
  apply pack_name_bound_world, Hs.
Qed.

(** Of [_pack_slice_cols], only the super column can move the world. *)
Lemma pack_slice_cols_inv (self : ColumnFamily) (sc cs cf sc' cs' cf' : pyval)
    (w w1 : World) :
  _pack_slice_cols self sc cs cf w = (Ok (sc', cs', cf'), w1) ->
  (if negb (is_empty_string sc) then _pack_name self sc true _NON_SLICE
   else ret sc) w = (Ok sc', w1)
  /\ pack_optional_bound self cs _SLICE_START w1 = (Ok cs', w1)
  /\ pack_optional_bound self cf _SLICE_FINISH w1 = (Ok cf', w1).
Proof.
  unfold _pack_slice_cols.
  change (if negb (is_empty_string cs)
          then _pack_name self cs (super self) _SLICE_START else ret cs)
    with (pack_optional_bound self cs _SLICE_START).
  change (if negb (is_empty_string cf)
          then _pack_name self cf (super self) _SLICE_FINISH else ret cf)
    with (pack_optional_bound self cf _SLICE_FINISH).
  set (m := if negb (is_empty_string sc)
            then _pack_name self sc true _NON_SLICE else ret sc).
  unfold bindM at 1.
  destruct (m w) as [[a|e] wa]; [|discriminate].
  unfold bindM at 1.
  pose proof (@pack_optional_bound_world self cs _SLICE_START wa) as Hb.
  destruct (pack_optional_bound self cs _SLICE_START wa) as [[b|e] wb] eqn:Eb;
    [|discriminate].
  cbn [snd] in Hb. rewrite Hb in * by discriminate. clear Hb.
  unfold bindM at 1.
  pose proof (@pack_optional_bound_world self cf _SLICE_FINISH wa) as Hc.
  destruct (pack_optional_bound self cf _SLICE_FINISH wa) as [[c|e] wc] eqn:Ec;
    [|discriminate].
  cbn [snd] in Hc. rewrite Hc in * by discriminate. clear Hc.
  unfold ret. intros [= <- <- <- <-]. auto.
Qed.

Lemma slice_query_inv (self : ColumnFamily) (columns : option (list pyval))
    (cs cf : pyval) (rev : bool) (cnt : Z) (sc : pyval)
    (w w1 : World) (cp : ColumnParent) (sp : SlicePredicate) :
  slice_query self columns cs cf rev cnt sc w = (Ok (cp, sp), w1) ->
  exists sc' cs' cf' wa packed,
    (if negb (is_empty_string sc) then _pack_name self sc true _NON_SLICE
     else ret sc) w = (Ok sc', wa)
    /\ pack_optional_bound self cs _SLICE_START wa = (Ok cs', wa)
    /\ pack_optional_bound self cf _SLICE_FINISH wa = (Ok cf', wa)
    /\ pack_columns self columns wa = (Ok packed, w1)
    /\ cp = mkColumnParent (column_family self) sc'
    /\ sp = create_SlicePredicate packed cs' cf' rev cnt.
Proof.
  unfold slice_query. unfold bindM at 1.
  destruct (_pack_slice_cols self sc cs cf w) as [[[[sc' cs'] cf']|e] wa] eqn:E;
    [|discriminate].
  apply pack_slice_cols_inv in E. destruct E as (E1 & E2 & E3).
  unfold bindM at 1.
  destruct (pack_columns self columns wa) as [[packed|e] wb] eqn:P;
    [|discriminate].
  unfold ret. intros [= <- <- <-].
  exists sc', cs', cf', wa, packed. repeat split; assumption.
Qed.

Lemma pack_columns_some (self : ColumnFamily) (cols : list pyval)
    (w w1 : World) (packed : option (list pyval)) :
  pack_columns self (Some cols) w = (Ok packed, w1) ->
  exists names, packed = Some names
    /\ mapMM (fun col => _pack_name self col (super self) _NON_SLICE) cols w
       = (Ok names, w1).
Proof.
  unfold pack_columns, bindM.
  destruct (mapMM _ cols w) as [[names|e] w'] eqn:E; [|discriminate].
  unfold ret. intros [= <- <-]. eauto.
Qed.

Lemma mapMM_length (A B : Type) (f : A -> M B) (l : list A) (w w1 : World)
    (r : list B) :
  mapMM f l w = (Ok r, w1) -> List.length r = List.length l.
Proof.
  revert w w1 r. induction l as [|a l IH]; intros w w1 r.
  - unfold mapMM, ret. intros [= <- _]. reflexivity.
  - cbn [mapMM]. unfold bindM at 1.
    destruct (f a w) as [[b|e] wa]; [|discriminate].
    unfold bindM at 1.
    destruct (mapMM f l wa) as [[bs|e] wb] eqn:E; [|discriminate].
    unfold ret. intros [= <- _]. cbn [List.length]. f_equal. eapply IH, E.
Qed.

(** C4.  With a column list, the predicate is the explicit-list one and
    nothing else: [create_SlicePredicate] returns the same predicate
    whatever the range arguments are, and two queries that differ only in
    column_start, column_finish, reversed and count build the same
    predicate, which carries the packed names and no range. *)
Theorem explicit_columns_suppress_range :
  (forall (names : list pyval) (column_start column_finish : pyval)
          (column_reversed : bool) (column_count : Z),
     create_SlicePredicate (Some names) column_start column_finish
       column_reversed column_count
     = mkSlicePredicate (Some names) None)
  /\
  (forall (self : ColumnFamily) (columns : list pyval) (super_column : pyval)
          (start1 finish1 start2 finish2 : pyval) (reversed1 reversed2 : bool)
          (count1 count2 : Z) (w w1 w2 : World) (cp1 cp2 : ColumnParent)
          (sp1 sp2 : SlicePredicate),
     slice_query self (Some columns) start1 finish1 reversed1 count1
       super_column w = (Ok (cp1, sp1), w1) ->
     slice_query self (Some columns) start2 finish2 reversed2 count2
       super_column w = (Ok (cp2, sp2), w2) ->
     sp1 = sp2
     /\ slice_range sp1 = None
     /\ exists names,
          column_names sp1 = Some names
          /\ List.length names = List.length columns).
Proof.
  split; [reflexivity|].
  intros self columns sc s1 f1 s2 f2 r1 r2 c1 c2 w w1 w2 cp1 cp2 sp1 sp2 Q1 Q2.
  apply slice_query_inv in Q1.
  destruct Q1 as (a1 & b1 & d1 & wa & p1 & A1 & _ & _ & P1 & _ & S1).
  apply slice_query_inv in Q2.
  destruct Q2 as (a2 & b2 & d2 & wb & p2 & A2 & _ & _ & P2 & _ & S2).
  rewrite A1 in A2. injection A2 as <- <-.
  rewrite P1 in P2. injection P2 as <- <-.
  apply pack_columns_some in P1. destruct P1 as (names & -> & Hn).
  subst sp1 sp2. cbn [create_SlicePredicate slice_range column_names].
  split; [reflexivity|]. split; [reflexivity|].
  exists names. split; [reflexivity|]. eapply mapMM_length, Hn.
Qed.

(** C10.  An empty column list that is not [None] still gives the
    explicit-list predicate, with no names and no range: the test is on
    [None], not on emptiness. *)
Theorem empty_columns_still_explicit :
  (forall (column_start column_finish : pyval) (column_reversed : bool)
          (column_count : Z),
     create_SlicePredicate (Some []) column_start column_finish
       column_reversed column_count
     = mkSlicePredicate (Some []) None)
  /\
  (forall (self : ColumnFamily) (super_column column_start column_finish : pyval)
          (column_reversed : bool) (column_count : Z) (w w1 : World)
          (cp : ColumnParent) (sp : SlicePredicate),
     slice_query self (Some []) column_start column_finish column_reversed
       column_count super_column w = (Ok (cp, sp), w1) ->
     sp = mkSlicePredicate (Some []) None).
Proof.
  split; [reflexivity|].
  intros self sc cs cf rev cnt w w1 cp sp Q.
  apply slice_query_inv in Q.
  destruct Q as (a & b & d & wa & p & _ & _ & _ & P & _ & ->).
  unfold pack_columns, mapMM, bindM, ret in P. injection P as <- _.
  reflexivity.
Qed.


(** * What marshaling leaves alone *)


Lemma offline_ret (A : Type) (a : A) : offline (ret a).
Proof. intros w. reflexivity. Qed.

Lemma offline_raise (A : Type) (e : exn) : offline (@raise A e).
Proof. intros w. reflexivity. Qed.

Lemma offline_lift (A : Type) (r : result A) : offline (lift r).
Proof. intros w. reflexivity. Qed.

Lemma offline_random_bits : offline random_bits.
Proof. intros w. reflexivity. Qed.

Lemma offline_bind (A B : Type) (m : M A) (k : A -> M B) :
  offline m -> (forall a, offline (k a)) -> offline (bindM m k).
Proof.
  intros Hm Hk w. unfold bindM. specialize (Hm w).
  destruct (m w) as [[a|e] w']; cbn [snd] in *.
  - rewrite Hk. exact Hm.
  - exact Hm.
Qed.

Lemma offline_mapMM (A B : Type) (f : A -> M B) (l : list A) :
  (forall a, offline (f a)) -> offline (mapMM f l).
Proof.
  intros Hf. induction l as [|a l IH]; cbn [mapMM].
  - apply offline_ret.
  - apply offline_bind; [apply Hf|]. intros b.
    apply offline_bind; [apply IH|]. intros bs. apply offline_ret.
Qed.


#[local] Hint Resolve offline_ret offline_raise offline_lift offline_random_bits
  offline_bind offline_mapMM : offline.

Lemma offline_convert_time_to_uuid (v : pyval) (lowest randomize : bool) :
  offline (convert_time_to_uuid v lowest randomize).
Proof.
  unfold convert_time_to_uuid.
  destruct v; auto with offline.
  destruct randomize; [|destruct lowest]; auto with offline.
Qed.

Lemma offline_pack_name (self : ColumnFamily) (v : pyval) (sup : bool)
    (slice_end : Z) : offline (_pack_name self v sup slice_end).
Proof.
  unfold _pack_name.
  destruct (negb (autopack_names self)); [auto with offline|].
  assert (H : offline
    (value <~ (if data_type_is (name_data_type self sup) "TimeUUIDType"
               then if negb (slice_end =? 0)
                    then convert_time_to_uuid v (slice_end =? _SLICE_START) false
                    else convert_time_to_uuid v true true
               else ret v) ;;
     lift (_pack value (name_data_type self sup)))).
  { apply offline_bind; [|auto with offline].
    destruct (data_type_is _ _); [|auto with offline].
    destruct (negb _); apply offline_convert_time_to_uuid. }
  destruct v; auto with offline.
Qed.

#[local] Hint Resolve offline_pack_name : offline.

Lemma offline_pack_slice_cols (self : ColumnFamily) (sc cs cf : pyval) :
  offline (_pack_slice_cols self sc cs cf).
Proof.
  unfold _pack_slice_cols.
  repeat (apply offline_bind; [destruct (negb _); auto with offline | intro]).
  auto with offline.
Qed.

Lemma offline_pack_columns (self : ColumnFamily) (columns : option (list pyval)) :
  offline (pack_columns self columns).
Proof.
  unfold pack_columns. destruct columns; auto with offline.
Qed.

Lemma offline_slice_query (self : ColumnFamily) (columns : option (list pyval))
    (cs cf : pyval) (rev : bool) (cnt : Z) (sc : pyval) :
  offline (slice_query self columns cs cf rev cnt sc).
Proof.
  unfold slice_query.
  apply offline_bind; [apply offline_pack_slice_cols|]. intros [[a b] c].
  apply offline_bind; [apply offline_pack_columns|]. intros p.
  apply offline_ret.
Qed.

Lemma offline_pack_expression (self : ColumnFamily) (expr : IndexExpression) :
  offline (pack_expression self expr).
Proof. unfold pack_expression. auto 6 with offline. Qed.

(** * Absent rows *)

Lemma fold_raise (A V : Type) (f : result V -> A -> result V) (l : list A) (e : exn) :
  (forall x, f (Raise e) x = Raise e) -> fold_left f l (Raise e) = Raise e.
Proof. intros H. induction l; simpl; [|rewrite H]; auto. Qed.

Lemma dict_set_nonempty (V : Type) (k : pyval) (v : V) (d : dict V) :
  dict_set k v d <> [].
Proof. destruct d as [|[k' v'] d]; simpl; [|destruct (pyval_eqb k k')]; discriminate. Qed.

Lemma keyslices_nonempty_from (self : ColumnFamily) (include_timestamp : bool)
    (l : list KeySlice) (d0 rows : dict Row) :
  d0 <> [] ->
  fold_left
    (fun acc keyslice =>
       ret <- acc ;;
       v <- _convert_ColumnOrSuperColumns_to_dict_class self
              (ks_columns keyslice) include_timestamp ;;
       Ok (dict_set (ks_key keyslice) v ret))
    l (Ok d0) = Ok rows ->
  rows <> [].
Proof.
  revert d0. induction l as [|ks l IH]; intros d0 Hd0.
  - simpl. intros [= <-]. exact Hd0.
  - cbn [fold_left bind].
    destruct (_convert_ColumnOrSuperColumns_to_dict_class self (ks_columns ks)
                include_timestamp);
      cbn [bind]; [|rewrite fold_raise by reflexivity; discriminate].
    apply IH, dict_set_nonempty.
Qed.

Lemma keyslices_nonempty (self : ColumnFamily) (include_timestamp : bool)
    (l : list KeySlice) (rows : dict Row) :
  l <> [] ->
  _convert_KeySlice_list_to_dict_class self l include_timestamp = Ok rows ->
  rows <> [].
Proof.
  unfold _convert_KeySlice_list_to_dict_class.
  destruct l as [|ks l]; [congruence|]. intros _.
  cbn [fold_left bind].
  destruct (_convert_ColumnOrSuperColumns_to_dict_class self (ks_columns ks)
              include_timestamp);
    cbn [bind]; [|rewrite fold_raise by reflexivity; discriminate].
  apply keyslices_nonempty_from, dict_set_nonempty.
Qed.

Lemma pyval_eqb_refl (k : pyval) : pyval_eqb k k = true.
Proof. unfold pyval_eqb. destruct (pyval_eq_dec k k); congruence. Qed.

Lemma pyval_eqb_eq (a b : pyval) : pyval_eqb a b = true <-> a = b.
Proof.
  unfold pyval_eqb. destruct (pyval_eq_dec a b); split; congruence.
Qed.

(** With every optional argument at its default nothing is packed. *)
Lemma slice_query_defaults (self : ColumnFamily) (rev : bool) (cnt : Z)
    (w : World) :
  slice_query self None (PyStr "") (PyStr "") rev cnt PyNone w
  = (Ok (mkColumnParent (column_family self) PyNone,
         mkSlicePredicate None
           (Some (mkSliceRange (PyStr "") (PyStr "") rev cnt))), w).
Proof.
  unfold slice_query, _pack_slice_cols, _pack_name, pack_columns, bindM, ret.
  cbn [is_empty_string negb].
  destruct (negb (autopack_names self)); reflexivity.
Qed.

Lemma multiget_single_absent (self : ColumnFamily) (k : pyval)
    (column_reversed : bool) (column_count : Z) (include_timestamp : bool)
    (read_consistency_level : option Z) (w : World) :
  (forall h cp sp cl,
     client_multiget_slice (client self) h [k] cp sp cl = Ok [(k, [])]) ->
  fst (multiget self [k] None (PyStr "") (PyStr "") column_reversed
         column_count include_timestamp PyNone read_consistency_level w)
  = Ok [].
Proof.
  intros Hmulti.
  unfold multiget, bindM at 1. rewrite slice_query_defaults.
  unfold bindM at 1, call. rewrite Hmulti.
  unfold multiget_placeholders, multiget_fill, multiget_prune, bindM, lift.
  cbn [fold_left dict_set bind List.length Z.of_nat Z.ltb Z.compare fst].
  cbn [existsb negb dict_del bind fst]. rewrite !pyval_eqb_refl.
  reflexivity.
Qed.

(** The reply to the one request that [multiget] of a single key sends
    with every other argument at its default. *)
Lemma multiget_single_absent_reply (self : ColumnFamily) (k : pyval)
    (column_reversed : bool) (column_count : Z) (include_timestamp : bool)
    (read_consistency_level : option Z) (w : World) :
  client_multiget_slice (client self) (rpcs w) [k]
    (mkColumnParent (column_family self) PyNone)
    (mkSlicePredicate None
       (Some (mkSliceRange (PyStr "") (PyStr "") column_reversed column_count)))
    (_rcl self read_consistency_level) = Ok [(k, [])] ->
  fst (multiget self [k] None (PyStr "") (PyStr "") column_reversed
         column_count include_timestamp PyNone read_consistency_level w)
  = Ok [].
Proof.
  intros Hmulti.
  unfold multiget, bindM at 1. rewrite slice_query_defaults.
  unfold bindM at 1, call. rewrite Hmulti.
  unfold multiget_placeholders, multiget_fill, multiget_prune, bindM, lift.
  cbn [fold_left dict_set bind List.length Z.of_nat Z.ltb Z.compare fst].
  cbn [existsb negb dict_del bind fst]. rewrite !pyval_eqb_refl.
  reflexivity.
Qed.

(** C8.  Once the arguments and the clause of [get_indexed_slices] are
    packed, exactly one request is sent, for that clause.  If the remote
    answers it with no key slice, [get_indexed_slices] raises
    [NotFoundException]; if it answers with key slices, the result is
    their conversion; a mapping it returns is never empty.  [multiget],
    asked for one key and answered that the key has no columns, returns
    the empty mapping instead. *)
Theorem indexed_slices_raise_not_found (self : ColumnFamily)
    (index_clause : IndexClause) (columns : option (list pyval))
    (column_start column_finish : pyval) (column_reversed : bool)
    (column_count : Z) (include_timestamp : bool) (super_column : pyval)
    (read_consistency_level : option Z) (w w1 w2 : World)
    (cp : ColumnParent) (sp : SlicePredicate) (exprs : list IndexExpression) :
  slice_query self columns column_start column_finish column_reversed
    column_count super_column w = (Ok (cp, sp), w1) ->
  mapMM (pack_expression self) (expressions index_clause) w1 = (Ok exprs, w2) ->
  let cl := _rcl self read_consistency_level in
  let sent := mkIndexClause exprs (ic_start_key index_clause)
                (ic_count index_clause) in
  let reply := client_get_indexed_slices (client self) (rpcs w) cp sent sp cl in
  let out := get_indexed_slices self index_clause columns column_start
               column_finish column_reversed column_count include_timestamp
               super_column read_consistency_level w in
  rpcs (snd out) = rpcs w ++ [Rpc_get_indexed_slices cp sent sp cl]
  /\ (reply = Ok [] -> fst out = Raise NotFoundException)
  /\ (forall keyslice_list,
        reply = Ok keyslice_list -> keyslice_list <> [] ->
        fst out = _convert_KeySlice_list_to_dict_class self keyslice_list
                    include_timestamp)
  /\ (forall rows, fst out = Ok rows -> rows <> [])
  /\ (forall k,
        client_multiget_slice (client self) (rpcs w) [k]
          (mkColumnParent (column_family self) PyNone)
          (mkSlicePredicate None
             (Some (mkSliceRange (PyStr "") (PyStr "") column_reversed
                      column_count)))
          cl = Ok [(k, [])] ->
        fst (multiget self [k] None (PyStr "") (PyStr "") column_reversed
               column_count include_timestamp PyNone read_consistency_level w)
        = Ok []).
Proof.
  intros Hq Hm cl sent reply out.
  pose proof (@offline_slice_query self columns column_start column_finish
                column_reversed column_count super_column w) as Ho.
  rewrite Hq in Ho. cbn [snd] in Ho.
  pose proof (@offline_mapMM _ _ (pack_expression self)
                (expressions index_clause)
                (offline_pack_expression self) w1) as He.
  rewrite Hm in He. cbn [snd] in He.
  assert (E : out = (match reply with
                     | Ok l => if Nat.eqb (List.length l) 0
                               then Raise NotFoundException
                               else _convert_KeySlice_list_to_dict_class self l
                                      include_timestamp
                     | Raise e => Raise e
                     end,
                     mkWorld (rpcs w ++ [Rpc_get_indexed_slices cp sent sp cl])
                       (clock_reads w2) (rand_reads w2) (getrandbits w2))).
  { subst out reply. unfold get_indexed_slices.
    unfold bindM at 1. rewrite Hq. unfold bindM at 1. rewrite Hm.
    unfold bindM, call. rewrite He, Ho. fold cl. fold sent.
    destruct (client_get_indexed_slices (client self) (rpcs w) cp sent sp cl)
      as [l|e]; [|reflexivity].
    destruct (Nat.eqb (List.length l) 0); reflexivity. }
  rewrite E. cbn [fst snd rpcs].
  split; [reflexivity|]. split; [intros ->; reflexivity|].
  split; [|split].
  - intros l -> Hl. destruct l; [congruence|reflexivity].
  - intros rows. destruct reply as [l|e]; [|discriminate].
    destruct l as [|ks l]; [discriminate|]. cbn [List.length Nat.eqb].
    apply keyslices_nonempty. discriminate.
  - intros k Hk. apply multiget_single_absent_reply, Hk.
Qed.

(** C3, at the input where the code departs from it.  For a key whose
    slice comes back without columns, [get] raises [NotFoundException]
    and [multiget] of that key returns a mapping without it; listed
    twice, the same key makes [multiget] raise [KeyError], because the
    second [del ret[key]] finds the entry already gone. *)
Theorem multiget_repeated_absent_key (self : ColumnFamily) (k : pyval)
    (column_reversed : bool) (column_count : Z) (include_timestamp : bool)
    (read_consistency_level : option Z) (w : World) :
  (forall h cp sp cl, client_get_slice (client self) h k cp sp cl = Ok []) ->
  (forall h cp sp cl,
     client_multiget_slice (client self) h [k] cp sp cl = Ok [(k, [])]) ->
  (forall h cp sp cl,
     client_multiget_slice (client self) h [k; k] cp sp cl = Ok [(k, [])]) ->
  fst (get self k None (PyStr "") (PyStr "") column_reversed column_count
         include_timestamp PyNone read_consistency_level w)
  = Raise NotFoundException
  /\ fst (multiget self [k] None (PyStr "") (PyStr "") column_reversed
            column_count include_timestamp PyNone read_consistency_level w)
     = Ok []
  /\ fst (multiget self [k; k] None (PyStr "") (PyStr "") column_reversed
            column_count include_timestamp PyNone read_consistency_level w)
     = Raise KeyError.
Proof.
  intros Hget Hone Htwo. split; [|split].
  - unfold get, bindM at 1. rewrite slice_query_defaults.
    unfold bindM, call. rewrite Hget. reflexivity.
  - apply multiget_single_absent, Hone.
  - unfold multiget, bindM at 1. rewrite slice_query_defaults.
    unfold bindM at 1, call. rewrite Htwo.
    unfold multiget_placeholders, multiget_fill, multiget_prune, bindM, lift.
    cbn [fold_left dict_set bind List.length Z.of_nat Z.ltb Z.compare fst].
    rewrite !pyval_eqb_refl.
    cbn [existsb negb dict_del bind fst]. rewrite !pyval_eqb_refl.
    reflexivity.
Qed.

(** * Ordered dictionaries *)

Lemma pyval_eqb_neq (a b : pyval) : pyval_eqb a b = false <-> a <> b.
Proof.
  unfold pyval_eqb. destruct (pyval_eq_dec a b); split; congruence.
Qed.

Lemma dict_set_new (V : Type) (k : pyval) (v : V) (d : dict V) :
  ~ In k (dict_keys d) -> dict_set k v d = d ++ [(k, v)].
Proof.
  induction d as [|[k' v'] d IH]; cbn [dict_set dict_keys map app fst];
    intros Hk; [reflexivity|].
  destruct (pyval_eqb k k') eqn:E.
  - apply pyval_eqb_eq in E. subst. exfalso. apply Hk. left. reflexivity.
  - rewrite IH; [reflexivity|]. intros H. apply Hk. right. exact H.
Qed.

Lemma dict_set_keys (V : Type) (k : pyval) (v : V) (d : dict V) :
  In k (dict_keys d) -> dict_keys (dict_set k v d) = dict_keys d.
Proof.
  induction d as [|[k' v'] d IH]; cbn [dict_set dict_keys map fst];
    intros Hk; [destruct Hk|].
  destruct (pyval_eqb k k') eqn:E; [reflexivity|].
  cbn [map fst]. f_equal. apply IH.
  destruct Hk as [Hk|Hk]; [|exact Hk].
  apply pyval_eqb_neq in E. congruence.
Qed.

Lemma dict_get_set_same (V : Type) (k : pyval) (v : V) (d : dict V) :
  dict_get k (dict_set k v d) = Some v.
Proof.
  induction d as [|[k' v'] d IH]; cbn [dict_set dict_get].
  - rewrite pyval_eqb_refl. reflexivity.
  - destruct (pyval_eqb k k') eqn:E; cbn [dict_get]; rewrite E;
      [reflexivity | exact IH].
Qed.

Lemma dict_get_set_other (V : Type) (k k' : pyval) (v : V) (d : dict V) :
  k <> k' -> dict_get k' (dict_set k v d) = dict_get k' d.
Proof.
  intros Hne. induction d as [|[k0 v0] d IH]; cbn [dict_set dict_get].
  - destruct (pyval_eqb k' k) eqn:E; [|reflexivity].
    apply pyval_eqb_eq in E. congruence.
  - destruct (pyval_eqb k k0) eqn:E; cbn [dict_get].
    + apply pyval_eqb_eq in E. subst k0.
      destruct (pyval_eqb k' k) eqn:E'; [|reflexivity].
      apply pyval_eqb_eq in E'. congruence.
    + rewrite IH. reflexivity.
Qed.

Lemma dict_get_absent (V : Type) (k : pyval) (d : dict V) :
  ~ In k (dict_keys d) -> dict_get k d = None.
Proof.
  induction d as [|[k' v'] d IH]; cbn [dict_get dict_keys map fst];
    intros Hk; [reflexivity|].
  destruct (pyval_eqb k k') eqn:E.
  - apply pyval_eqb_eq in E. subst. exfalso. apply Hk. left. reflexivity.
  - apply IH. intros H. apply Hk. right. exact H.
Qed.

(** Deleting a key that is there takes that one item out and leaves the
    others where they are. *)
Lemma dict_del_present (V : Type) (k : pyval) (d : dict V)
    (done todo : list pyval) :
  dict_keys d = done ++ k :: todo -> NoDup (done ++ k :: todo) ->
  exists d', dict_del k d = Ok d'
             /\ dict_keys d' = done ++ todo
             /\ forall k', k' <> k -> dict_get k' d' = dict_get k' d.
Proof.
  revert d. induction done as [|x done IH]; intros d Hd Hnd;
    destruct d as [|[k0 v0] d]; try discriminate;
    cbn [dict_keys map fst app] in Hd; injection Hd as -> Hd.
  - cbn [dict_del]. rewrite pyval_eqb_refl.
    exists d. split; [reflexivity|]. split; [exact Hd|].
    intros k' Hk'. cbn [dict_get].
    destruct (pyval_eqb k' k) eqn:E; [|reflexivity].
    apply pyval_eqb_eq in E. congruence.
  - cbn [app] in Hnd. inversion Hnd as [|? ? Hx Hnd']; subst.
    destruct (IH d Hd Hnd') as (d' & Hdel & Hkeys & Hget).
    cbn [dict_del].
    destruct (pyval_eqb k x) eqn:E.
    { apply pyval_eqb_eq in E. subst x. exfalso. apply Hx.
      apply in_or_app. right. left. reflexivity. }
    rewrite Hdel. cbn [bind].
    exists ((x, v0) :: d'). split; [reflexivity|].
    split; [cbn [dict_keys map fst app]; f_equal; exact Hkeys|].
    intros k' Hk'. cbn [dict_get].
    destruct (pyval_eqb k' x); [reflexivity | apply Hget, Hk'].
Qed.

(** * The three loops of [multiget] *)

Lemma placeholders_from (keys : list pyval) (d0 : dict (option Row)) :
  NoDup (dict_keys d0 ++ keys) ->
  fold_left (fun ret key => dict_set key None ret) keys d0
  = d0 ++ map (fun k => (k, None)) keys.
Proof.
  revert d0. induction keys as [|k keys IH]; intros d0 Hnd; cbn [fold_left map].
  - symmetry. apply app_nil_r.
  - assert (Hk : ~ In k (dict_keys d0)).
    { apply NoDup_remove_2 in Hnd. intros H. apply Hnd.
      apply in_or_app. left. exact H. }
    rewrite dict_set_new by exact Hk. rewrite IH.
    + rewrite <- app_assoc. reflexivity.
    + unfold dict_keys in *. rewrite map_app, <- app_assoc. exact Hnd.
Qed.

Lemma placeholders_keys (keys : list pyval) :
  NoDup keys -> dict_keys (multiget_placeholders keys) = keys.
Proof.
  intros Hnd. unfold multiget_placeholders.
  rewrite placeholders_from by exact Hnd.
  unfold dict_keys. cbn [app]. rewrite map_map. cbn [fst]. apply map_id.
Qed.

Section Multiget.
Variable self : ColumnFamily.
Variable include_timestamp : bool.

Lemma fill_from (keymap : list (pyval * list ColumnOrSuperColumn))
    (ne0 : list pyval) (ret0 : dict (option Row)) :
  (forall e, In e keymap -> In (fst e) (dict_keys ret0)) ->
  (forall e, In e keymap -> has_columns e = true ->
             exists row, _convert_ColumnOrSuperColumns_to_dict_class self (snd e)
                         include_timestamp = Ok row) ->
  exists ret,
    fold_left
      (fun acc item =>
         '(non_empty_keys, ret) <- acc ;;
         let '(key, columns) := item in
         if (0 <? Z.of_nat (List.length columns)) then
           row <- _convert_ColumnOrSuperColumns_to_dict_class self columns
                    include_timestamp ;;
           Ok (non_empty_keys ++ [key], dict_set key (Some row) ret)
         else Ok (non_empty_keys, ret))
      keymap (Ok (ne0, ret0))
    = Ok (ne0 ++ map fst (filter has_columns keymap), ret)
    /\ dict_keys ret = dict_keys ret0
    /\ (forall k, ~ In k (map fst (filter has_columns keymap)) ->
                  dict_get k ret = dict_get k ret0)
    /\ (NoDup (map fst keymap) ->
        forall e row, In e keymap -> has_columns e = true ->
                      _convert_ColumnOrSuperColumns_to_dict_class self (snd e)
                        include_timestamp = Ok row ->
                      dict_get (fst e) ret = Some (Some row)).
Proof.
  revert ne0 ret0. induction keymap as [|[k cols] keymap IH];
    intros ne0 ret0 Hin Hconv.
  - exists ret0. cbn [fold_left filter map]. rewrite app_nil_r.
    repeat split; try reflexivity. intros _ e row [].
  - cbn [fold_left bind filter]. unfold has_columns at 1 4 5. cbn [snd].
    destruct (0 <? Z.of_nat (List.length cols)) eqn:Hc.
    + destruct (Hconv (k, cols) (or_introl eq_refl) Hc) as [row Hrow].
      cbn [snd] in Hrow. rewrite Hrow. cbn [bind].
      assert (Hk : In k (dict_keys ret0)) by (apply (Hin (k, cols)); left; reflexivity).
      destruct (IH (ne0 ++ [k]) (dict_set k (Some row) ret0))
        as (ret & Hfold & Hkeys & Hother & Hdata).
      { intros e He. rewrite dict_set_keys by exact Hk. apply Hin. right. exact He. }
      { intros e He. apply Hconv. right. exact He. }
      exists ret. rewrite Hfold. cbn [map fst]. rewrite <- app_assoc.
      split; [reflexivity|].
      split; [rewrite Hkeys; apply dict_set_keys, Hk|].
      split.
      * intros k' Hk'. rewrite Hother.
        -- apply dict_get_set_other. intros ->. apply Hk'. left. reflexivity.
        -- intros H. apply Hk'. right. exact H.
      * intros Hnd e row' [<-|He] Hce Hrow'.
        -- cbn [fst snd] in *. rewrite Hrow in Hrow'.
           injection Hrow' as <-. rewrite Hother; [apply dict_get_set_same|].
           cbn [map fst] in Hnd. inversion Hnd as [|? ? Hnk _]; subst.
           intros H. apply Hnk. rewrite in_map_iff in *.
           destruct H as (e & E & He). exists e. split; [exact E|].
           apply filter_In in He. tauto.
        -- apply Hdata; try assumption.
           cbn [map] in Hnd. inversion Hnd; assumption.
    + destruct (IH ne0 ret0) as (ret & Hfold & Hkeys & Hother & Hdata).
      { intros e He. apply Hin. right. exact He. }
      { intros e He. apply Hconv. right. exact He. }
      exists ret. rewrite Hfold.
      split; [reflexivity|]. split; [exact Hkeys|]. split; [exact Hother|].
      intros Hnd e row' [<-|He] Hce Hrow'.
      * unfold has_columns in Hce. cbn [snd] in Hce. congruence.
      * apply Hdata; try assumption.
        cbn [map] in Hnd. inversion Hnd; assumption.
Qed.

Lemma prune_from (ne : list pyval) (todo done : list pyval)
    (ret : dict (option Row)) :
  dict_keys ret = done ++ todo -> NoDup (done ++ todo) ->
  exists ret',
    multiget_prune todo ne ret = Ok ret'
    /\ dict_keys ret'
       = done ++ filter (fun k => existsb (pyval_eqb k) ne) todo
    /\ forall k, In k (dict_keys ret') -> dict_get k ret' = dict_get k ret.
Proof.
  unfold multiget_prune.
  revert done ret. induction todo as [|k todo IH]; intros done ret Hkeys Hnd.
  - exists ret. cbn [fold_left filter].
    split; [reflexivity|]. split; [exact Hkeys|]. reflexivity.
  - cbn [fold_left bind filter].
    destruct (existsb (pyval_eqb k) ne) eqn:Hne; cbn [negb].
    + destruct (IH (done ++ [k]) ret) as (ret' & Hp & Hk' & Hg).
      { rewrite <- app_assoc. exact Hkeys. }
      { rewrite <- app_assoc. exact Hnd. }
      exists ret'. split; [exact Hp|]. split; [|exact Hg].
      rewrite Hk', <- app_assoc. reflexivity.
    + destruct (@dict_del_present _ k ret done todo Hkeys Hnd)
        as (d' & Hdel & Hdk & Hdg).
      rewrite Hdel.
      destruct (IH done d' Hdk (NoDup_remove_1 _ _ _ Hnd))
        as (ret' & Hp & Hk' & Hg).
      exists ret'. split; [exact Hp|]. split; [exact Hk'|].
      intros k' Hin. rewrite (Hg k' Hin). apply Hdg.
      intros ->. apply (NoDup_remove_2 _ _ _ Hnd).
      rewrite Hk' in Hin. apply in_app_or in Hin. apply in_or_app.
      destruct Hin as [H|H]; [left; exact H | right].
      apply filter_In in H. tauto.
Qed.
End Multiget.

(** With every key listed once, [multiget] returns the listed keys that
    have columns, in the order of the list, each with its row, and no
    entry for the others. *)
Lemma multiget_omits_absent (self : ColumnFamily) (keys : list pyval)
    (columns : option (list pyval)) (column_start column_finish : pyval)
    (column_reversed : bool) (column_count : Z) (include_timestamp : bool)
    (super_column : pyval) (read_consistency_level : option Z) (w w1 : World)
    (cp : ColumnParent) (sp : SlicePredicate)
    (keymap : list (pyval * list ColumnOrSuperColumn)) :
  slice_query self columns column_start column_finish column_reversed
    column_count super_column w = (Ok (cp, sp), w1) ->
  client_multiget_slice (client self) (rpcs w1) keys cp sp
    (_rcl self read_consistency_level) = Ok keymap ->
  NoDup keys -> NoDup (map fst keymap) ->
  (forall e, In e keymap -> In (fst e) keys) ->
  (forall e, In e keymap -> has_columns e = true ->
     exists row, _convert_ColumnOrSuperColumns_to_dict_class self (snd e)
                   include_timestamp = Ok row) ->
  exists ret,
    fst (multiget self keys columns column_start column_finish column_reversed
           column_count include_timestamp super_column read_consistency_level w)
    = Ok ret
    /\ dict_keys ret
       = filter (fun k => existsb (pyval_eqb k)
                            (map fst (filter has_columns keymap))) keys
    /\ forall e row,
         In e keymap -> has_columns e = true ->
         _convert_ColumnOrSuperColumns_to_dict_class self (snd e)
           include_timestamp = Ok row ->
         dict_get (fst e) ret = Some (Some row).
Proof.
  intros Hq Hreply Hkeys Hmap Hsub Hconv.
  pose proof (placeholders_keys Hkeys) as Hpk.
  destruct (@fill_from self include_timestamp keymap []
              (multiget_placeholders keys))
    as (ret1 & Hfill & Hk1 & _ & Hdata).
  { intros e He. rewrite Hpk. apply Hsub, He. }
  { exact Hconv. }
  destruct (@prune_from (map fst (filter has_columns keymap)) keys [] ret1)
    as (ret & Hprune & Hk & Hget).
  { rewrite Hk1. exact Hpk. }
  { exact Hkeys. }
  exists ret. split; [|split].
  - unfold multiget. unfold bindM at 1. rewrite Hq.
    unfold bindM at 1. unfold call at 1. rewrite Hreply.
    unfold bindM, lift. unfold multiget_fill. rewrite Hfill.
    cbn [app]. rewrite Hprune. reflexivity.
  - exact Hk.
  - intros e row He Hc Hrow. rewrite Hget; [eapply Hdata; eassumption|].
    rewrite Hk. cbn [app]. apply filter_In. split; [apply Hsub, He|].
    apply existsb_exists. exists (fst e). split; [|apply pyval_eqb_refl].
    apply in_map, filter_In. split; assumption.
Qed.

(** X7.  With byte-string keys, each listed once, [multiget] returns a
    mapping that holds exactly the listed keys that have columns, each
    with its converted row, and no entry for the others.  On a handle
    whose [dict_class] keeps insertion order the keys come in the order
    of the key list (last conjunct). *)
Theorem multiget_keeps_keys_with_data (self : ColumnFamily) (keys : list pyval)
    (columns : option (list pyval)) (column_start column_finish : pyval)
    (column_reversed : bool) (column_count : Z) (include_timestamp : bool)
    (super_column : pyval) (read_consistency_level : option Z) (w w1 : World)
    (cp : ColumnParent) (sp : SlicePredicate)
    (keymap : list (pyval * list ColumnOrSuperColumn)) :
  slice_query self columns column_start column_finish column_reversed
    column_count super_column w = (Ok (cp, sp), w1) ->
  client_multiget_slice (client self) (rpcs w) keys cp sp
    (_rcl self read_consistency_level) = Ok keymap ->
  Forall is_str keys ->
  NoDup keys -> NoDup (map fst keymap) ->
  (forall e, In e keymap -> In (fst e) keys) ->
  (forall e, In e keymap -> has_columns e = true ->
     exists row, _convert_ColumnOrSuperColumns_to_dict_class self (snd e)
                   include_timestamp = Ok row) ->
  exists ret,
    fst (multiget self keys columns column_start column_finish column_reversed
           column_count include_timestamp super_column read_consistency_level w)
    = Ok ret
    /\ (forall k, In k (dict_keys ret)
                  <-> exists e, In e keymap /\ fst e = k /\ has_columns e = true)
    /\ NoDup (dict_keys ret)
    /\ (forall e row,
          In e keymap -> has_columns e = true ->
          _convert_ColumnOrSuperColumns_to_dict_class self (snd e)
            include_timestamp = Ok row ->
          dict_get (fst e) ret = Some (Some row))
    /\ dict_keys ret
       = filter (fun k => existsb (pyval_eqb k)
                            (map fst (filter has_columns keymap))) keys.
Proof.
  intros Hq Hreply _ Hkeys Hmap Hsub Hconv.
  pose proof (@offline_slice_query self columns column_start column_finish
                column_reversed column_count super_column w) as Ho.
  rewrite Hq in Ho. cbn [snd] in Ho. rewrite <- Ho in Hreply.
  destruct (@multiget_omits_absent self keys columns column_start column_finish
              column_reversed column_count include_timestamp super_column
              read_consistency_level w w1 cp sp keymap Hq Hreply Hkeys Hmap Hsub
              Hconv) as (ret & Hret & Hk & Hget).
  exists ret. split; [exact Hret|]. split; [|split; [|split; [exact Hget|exact Hk]]].
  - intros k. rewrite Hk, filter_In, existsb_exists. split.
    + intros (_ & k' & Hin & Heq). apply pyval_eqb_eq in Heq. subst k'.
      apply in_map_iff in Hin as (e & He & Hin). apply filter_In in Hin as [Hin Hc].
      exists e. auto.
    + intros (e & Hin & He & Hc). subst k. split; [apply Hsub, Hin|].
      exists (fst e). split; [|apply pyval_eqb_refl].
      apply in_map, filter_In. auto.
  - rewrite Hk. apply NoDup_filter, Hkeys.
Qed.

(** * Writes *)

Lemma chunks_concat (fuel n : nat) (l : list Insertion) :
  List.concat (chunks fuel n l) = l.
Proof.
  revert l. induction fuel as [|fuel IH]; intros l.
  - destruct l; cbn [chunks List.concat]; [reflexivity | apply app_nil_r].
  - destruct l as [|x l]; [reflexivity|].
    cbn [chunks List.concat]. rewrite IH. apply firstn_skipn.
Qed.

Lemma staged_after_inserts (rows : list (pyval * ColumnsArg)) (t : Z)
    (ttl : option Z) (b : CfMutator) :
  let b' := fold_left
              (fun b row => CfMutator_insert b (fst row) (snd row) t ttl)
              rows b in
  m_staged b' = m_staged b
                ++ map (fun row => mkInsertion (fst row) (snd row) t ttl) rows
  /\ m_column_family b' = m_column_family b
  /\ m_queue_size b' = m_queue_size b
  /\ m_write_consistency_level b' = m_write_consistency_level b.
Proof.
  revert b. induction rows as [|row rows IH]; intros b; cbn [fold_left map].
  - rewrite app_nil_r. auto.
  - destruct (IH (CfMutator_insert b (fst row) (snd row) t ttl))
      as (E1 & E2 & E3 & E4).
    cbv zeta in *. rewrite E1, E2, E3, E4. cbn [CfMutator_insert m_staged
      m_column_family m_queue_size m_write_consistency_level].
    rewrite <- app_assoc. auto.
Qed.

Lemma sent_insertions_app (l1 l2 : list Rpc) :
  sent_insertions (l1 ++ l2) = sent_insertions l1 ++ sent_insertions l2.
Proof. apply flat_map_app. Qed.

Lemma send_batches (c : Client) (cl : Z) (batches : list (list Insertion))
    (w : World) :
  (forall h ms cl, client_batch_mutate c h ms cl = Ok tt) ->
  exists units w',
    mapMM (fun ms => call (fun h => client_batch_mutate c h ms cl)
                       (Rpc_batch_mutate ms cl)) batches w
    = (Ok units, w')
    /\ clock_reads w' = clock_reads w
    /\ sent_insertions (rpcs w') = sent_insertions (rpcs w) ++ List.concat batches.
Proof.
  intros Hok. revert w. induction batches as [|ms batches IH]; intros w.
  - exists [], w. cbn [mapMM List.concat]. rewrite app_nil_r. auto.
  - cbn [mapMM]. unfold bindM at 1. unfold call at 1. rewrite Hok.
    match goal with |- context [bindM _ _ ?w1] => destruct (IH w1)
      as (units & w' & E & C & S) end.
    unfold bindM at 1. rewrite E. unfold ret.
    exists (tt :: units), w'. split; [reflexivity|].
    cbn [clock_reads rpcs] in *. split; [exact C|].
    rewrite S, sent_insertions_app. cbn [sent_insertions flat_map List.concat].
    rewrite app_nil_r, app_assoc. reflexivity.
Qed.

(** C9.  [batch_insert] without a timestamp reads the handle's
    timestamp function exactly once, stages every row with that one
    timestamp, sends them, and returns it. *)
Theorem batch_insert_single_timestamp (self : ColumnFamily)
    (rows : list (pyval * ColumnsArg)) (ttl : option Z)
    (write_consistency_level : option Z) (w : World) :
  (forall h ms cl, client_batch_mutate (client self) h ms cl = Ok tt) ->
  let t := timestamp self (clock_reads w) in
  let out := batch_insert self rows None ttl write_consistency_level w in
  fst out = Ok t
  /\ clock_reads (snd out) = S (clock_reads w)
  /\ sent_insertions (rpcs (snd out))
     = sent_insertions (rpcs w)
       ++ map (fun row => mkInsertion (fst row) (snd row) t ttl) rows.
Proof.
  intros Hok t out. subst out.
  destruct (batch_insert self rows None ttl write_consistency_level w)
    as [r wz] eqn:Eout.
  cbn [fst snd]. revert Eout.
  unfold batch_insert. unfold bindM at 1. unfold read_timestamp at 1.
  fold t.
  set (b0 := batch self 100 write_consistency_level).
  destruct (staged_after_inserts rows t ttl b0) as (E1 & E2 & E3 & E4).
  cbv zeta in E1, E2, E3, E4.
  set (b1 := fold_left _ rows b0) in *.
  unfold CfMutator_send. rewrite E1, E2, E4.
  set (w1 := mkWorld _ _ _ _).
  set (batches := chunks _ _ _).
  destruct (@send_batches (client self) (m_write_consistency_level b0) batches w1 Hok)
    as (units & w' & E & C & S).
  unfold bindM. cbn [m_column_family b0 batch]. cbn [m_column_family b0 batch] in E.
  rewrite E. unfold ret. intros [= <- <-].
  split; [reflexivity|]. split; [rewrite C; reflexivity|].
  rewrite S. subst batches. rewrite chunks_concat. reflexivity.
Qed.


(** * Slice bounds on time-ordered names *)


(** The fields of a version-1 UUID, read back from its integer. *)
Lemma uuid_fields (tl tm th ch cl nd : Z) :
  0 <= tl < 2 ^ 32 -> 0 <= tm < 2 ^ 16 -> 0 <= th < 2 ^ 12 ->
  0 <= ch < 2 ^ 6 -> 0 <= cl < 2 ^ 8 -> 0 <= nd < 2 ^ 48 ->
  let n := tl * 2 ^ 96 + tm * 2 ^ 80 + (4096 + th) * 2 ^ 64
           + (128 + ch) * 2 ^ 56 + cl * 2 ^ 48 + nd in
  0 <= n < 2 ^ 128
  /\ (n / 2 ^ 64) mod 2 ^ 12 = th
  /\ (n / 2 ^ 80) mod 2 ^ 16 = tm
  /\ n / 2 ^ 96 = tl
  /\ n mod 2 ^ 64 = (128 + ch) * 2 ^ 56 + cl * 2 ^ 48 + nd.
Proof.
  intros Htl Htm Hth Hch Hcl Hnd n. pow2_consts.
  assert (E64 : n / 18446744073709551616 = tl * 4294967296 + tm * 65536 + (4096 + th)).
  { symmetry. apply Z.div_unique_pos
      with (r := (128 + ch) * 72057594037927936 + cl * 281474976710656 + nd);
      subst n; lia. }
  assert (E80 : n / 1208925819614629174706176 = tl * 65536 + tm).
  { symmetry. apply Z.div_unique_pos
      with (r := (4096 + th) * 18446744073709551616
                 + (128 + ch) * 72057594037927936 + cl * 281474976710656 + nd);
      subst n; lia. }
  assert (E96 : n / 79228162514264337593543950336 = tl).
  { symmetry. apply Z.div_unique_pos
      with (r := tm * 1208925819614629174706176
                 + (4096 + th) * 18446744073709551616
                 + (128 + ch) * 72057594037927936 + cl * 281474976710656 + nd);
      subst n; lia. }
  rewrite E64, E80, E96.
  split; [subst n; lia|].
  split; [symmetry; apply Z.mod_unique_pos
            with (q := tl * 1048576 + tm * 16 + 1); lia|].
  split; [symmetry; apply Z.mod_unique_pos with (q := tl); lia|].
  split; [reflexivity|].
  symmetry. apply Z.mod_unique_pos
    with (q := tl * 4294967296 + tm * 65536 + (4096 + th)); subst n; lia.
Qed.

Lemma timestamp_fields (t : Z) :
  0 <= t < 2 ^ 60 ->
  ((t / 2 ^ 48) mod 2 ^ 12) * 2 ^ 48 + ((t / 2 ^ 32) mod 2 ^ 16) * 2 ^ 32
  + t mod 2 ^ 32 = t.
Proof. intros Ht. pow2_consts. Z.div_mod_to_equations. lia. Qed.

Lemma clock_seq_fields (cs : Z) :
  0 <= cs < 2 ^ 14 ->
  (128 + (cs / 2 ^ 8) mod 2 ^ 6) * 2 ^ 56 + (cs mod 2 ^ 8) * 2 ^ 48
  = 2 ^ 63 + cs * 2 ^ 48.
Proof. intros Hc. pow2_consts. Z.div_mod_to_equations. lia. Qed.

Lemma uuid1_facts (t cs node : Z) :
  0 <= t < 2 ^ 60 -> 0 <= cs < 2 ^ 14 -> 0 <= node < 2 ^ 48 ->
  let b := be_pack 16 (uuid1 t cs node) in
  be_unpack b = uuid1 t cs node
  /\ String.length b = 16%nat
  /\ struct_pack_s 16 b = b
  /\ uuid_timestamp b = t
  /\ be_unpack b mod 2 ^ 64 = 2 ^ 63 + cs * 2 ^ 48 + node.
Proof.
  intros Ht Hc Hn b.
  assert (Hm : forall x k, 0 < k -> 0 <= x mod k < k)
    by (intros; apply Z.mod_pos_bound; assumption).
  destruct (@uuid_fields (t mod 2 ^ 32) ((t / 2 ^ 32) mod 2 ^ 16)
              ((t / 2 ^ 48) mod 2 ^ 12) ((cs / 2 ^ 8) mod 2 ^ 6)
              (cs mod 2 ^ 8) (node mod 2 ^ 48))
    as (R & F1 & F2 & F3 & F4); try (apply Hm; reflexivity).
  cbv zeta in R, F1, F2, F3, F4.
  change (uuid1 t cs node) with
    (t mod 2 ^ 32 * 2 ^ 96 + (t / 2 ^ 32) mod 2 ^ 16 * 2 ^ 80
     + (4096 + (t / 2 ^ 48) mod 2 ^ 12) * 2 ^ 64
     + (128 + (cs / 2 ^ 8) mod 2 ^ 6) * 2 ^ 56 + cs mod 2 ^ 8 * 2 ^ 48
     + node mod 2 ^ 48) in *.
  destruct (uuid_bytes_roundtrip R) as (E1 & _ & E3).
  subst b. split; [exact E3|]. split; [apply be_pack_length|].
  split; [exact E1|].
  unfold uuid_timestamp. rewrite E3, F1, F2, F3, F4.
  split; [apply timestamp_fields, Ht|].
  rewrite (Z.mod_small node) by exact Hn.
  rewrite clock_seq_fields by exact Hc. reflexivity.
Qed.

Lemma pack_uuid_name (u : Z) :
  _pack (PyUUID u) (Some "TimeUUIDType")
  = Ok (PyStr (struct_pack_s 16 (be_pack 16 u))).
Proof. reflexivity. Qed.

Lemma pack_name_time_bound (self : ColumnFamily) (t : Z) (slice_end : Z)
    (w : World) :
  autopack_names self = true ->
  name_data_type self (super self) = Some "TimeUUIDType" ->
  slice_end <> 0 ->
  _pack_name self (PyTime t) (super self) slice_end w
  = (Ok (PyStr (struct_pack_s 16
                  (be_pack 16 (if slice_end =? _SLICE_START
                               then uuid1 t 0 0
                               else uuid1 t (2 ^ 14 - 1) (2 ^ 48 - 1))))), w).
Proof.
  intros Ha Hd Hs. apply Z.eqb_neq in Hs.
  unfold _pack_name. rewrite Ha, Hd, Hs. cbn [negb].
  change (data_type_is (Some "TimeUUIDType") "TimeUUIDType") with true.
  unfold bindM, convert_time_to_uuid, ret, lift.
  destruct (slice_end =? _SLICE_START); rewrite pack_uuid_name; reflexivity.
Qed.

(** C7.  For one time value, the name packed as a slice start and the
    name packed as a slice finish are two different 16-byte strings; the
    start one is at most the finish one, and every version-1 UUID with
    that timestamp lies between them, in the store's order of
    time-ordered UUIDs. *)
Theorem time_uuid_bounds_ordered (self : ColumnFamily) (t : Z) (w : World) :
  autopack_names self = true ->
  name_data_type self (super self) = Some "TimeUUIDType" ->
  0 <= t < 2 ^ 60 ->
  exists s f,
    _pack_name self (PyTime t) (super self) _SLICE_START w = (Ok (PyStr s), w)
    /\ _pack_name self (PyTime t) (super self) _SLICE_FINISH w = (Ok (PyStr f), w)
    /\ _pack_slice_cols self (PyStr "") (PyTime t) (PyTime t) w
       = (Ok (PyStr "", PyStr s, PyStr f), w)
    /\ String.length s = 16%nat /\ String.length f = 16%nat
    /\ s <> f
    /\ time_uuid_leb s f = true
    /\ forall cs node, 0 <= cs < 2 ^ 14 -> 0 <= node < 2 ^ 48 ->
         time_uuid_leb s (be_pack 16 (uuid1 t cs node)) = true
         /\ time_uuid_leb (be_pack 16 (uuid1 t cs node)) f = true.
Proof.
  intros Ha Hd Ht.
  assert (H0 : 0 <= 0 < 2 ^ 14) by (pow2_consts; lia).
  assert (H0' : 0 <= 0 < 2 ^ 48) by (pow2_consts; lia).
  assert (H1 : 0 <= 2 ^ 14 - 1 < 2 ^ 14) by (pow2_consts; lia).
  assert (H1' : 0 <= 2 ^ 48 - 1 < 2 ^ 48) by (pow2_consts; lia).
  destruct (uuid1_facts Ht H0 H0') as (Us & Ls & Ps & Ts & Los).
  destruct (uuid1_facts Ht H1 H1') as (Uf & Lf & Pf & Tf & Lof).
  cbv zeta in *.
  pose proof (@pack_name_time_bound self t _SLICE_START w Ha Hd) as Es.
  pose proof (@pack_name_time_bound self t _SLICE_FINISH w Ha Hd) as Ef.
  specialize (Es ltac:(discriminate)). specialize (Ef ltac:(discriminate)).
  change (_SLICE_START =? _SLICE_START) with true in Es.
  change (_SLICE_FINISH =? _SLICE_START) with false in Ef.
  cbv iota in Es, Ef. rewrite Ps in Es. rewrite Pf in Ef.
  exists (be_pack 16 (uuid1 t 0 0)),
         (be_pack 16 (uuid1 t (2 ^ 14 - 1) (2 ^ 48 - 1))).
  split; [exact Es|]. split; [exact Ef|].
  split.
  { unfold _pack_slice_cols. cbn [is_empty_string negb].
    unfold bindM at 1. unfold ret at 1.
    unfold bindM at 1. rewrite Es.
    unfold bindM at 1. rewrite Ef. reflexivity. }
  split; [exact Ls|]. split; [exact Lf|].
  split.
  { intros E. rewrite E in Los. rewrite Los in Lof. pow2_consts. lia. }
  assert (Hleb : forall a b ta la lb,
             uuid_timestamp a = ta -> uuid_timestamp b = ta ->
             be_unpack a mod 2 ^ 64 = la -> be_unpack b mod 2 ^ 64 = lb ->
             la <= lb -> time_uuid_leb a b = true).
  { intros a b ta la lb A1 B1 A2 B2 Hle. unfold time_uuid_leb.
    rewrite A1, B1, A2, B2, Z.eqb_refl.
    destruct (Z.leb_spec la lb); [|lia]. apply orb_true_r. }
  split.
  { eapply Hleb; eauto. pow2_consts. lia. }
  intros cs node Hc Hn.
  destruct (uuid1_facts Ht Hc Hn) as (_ & _ & _ & Tu & Lou). cbv zeta in *.
  split; eapply Hleb; eauto; pow2_consts; lia.
Qed.


(** * The order of keys *)

Lemma ascii_compare_refl (a : ascii) : Ascii.compare a a = Eq.
Proof. unfold Ascii.compare. apply N.compare_refl. Qed.

Lemma ascii_compare_lt_trans (a b c : ascii) :
  Ascii.compare a b = Lt -> Ascii.compare b c = Lt -> Ascii.compare a c = Lt.
Proof.
  unfold Ascii.compare. rewrite !N.compare_lt_iff. apply N.lt_trans.
Qed.

Lemma string_compare_refl (s : string) : String.compare s s = Eq.
Proof.
  induction s as [|a s IH]; [reflexivity|].
  cbn [String.compare]. rewrite ascii_compare_refl. exact IH.
Qed.

Lemma string_compare_lt_trans (s1 s2 s3 : string) :
  String.compare s1 s2 = Lt -> String.compare s2 s3 = Lt ->
  String.compare s1 s3 = Lt.
Proof.
  revert s2 s3. induction s1 as [|a s1 IH]; intros [|b s2] [|c s3];
    cbn [String.compare]; try discriminate; try reflexivity.
  destruct (Ascii.compare a b) eqn:Eab; try discriminate;
    destruct (Ascii.compare b c) eqn:Ebc; try discriminate; intros H1 H2.
  - apply Ascii.compare_eq_iff in Eab, Ebc. subst.
    rewrite ascii_compare_refl. eapply IH; eassumption.
  - apply Ascii.compare_eq_iff in Eab. subst. rewrite Ebc. reflexivity.
  - apply Ascii.compare_eq_iff in Ebc. subst. rewrite Eab. reflexivity.
  - rewrite (ascii_compare_lt_trans _ _ _ Eab Ebc). reflexivity.
Qed.

Lemma string_ltb_trans (a b c : string) :
  String.ltb a b = true -> String.ltb b c = true -> String.ltb a c = true.
Proof.
  unfold String.ltb. intros H1 H2.
  destruct (String.compare a b) eqn:E1; try discriminate.
  destruct (String.compare b c) eqn:E2; try discriminate.
  rewrite (string_compare_lt_trans _ _ _ E1 E2). reflexivity.
Qed.

Lemma string_leb_refl (a : string) : String.leb a a = true.
Proof. unfold String.leb. rewrite string_compare_refl. reflexivity. Qed.

Lemma string_ltb_leb (a b : string) :
  String.ltb a b = true -> String.leb a b = true.
Proof.
  unfold String.ltb, String.leb. destruct (String.compare a b); congruence.
Qed.

Lemma string_ltb_not_leb (a b : string) :
  String.ltb a b = true -> String.leb b a = false.
Proof.
  unfold String.ltb, String.leb. rewrite (String.compare_antisym a b).
  destruct (String.compare b a); cbn; congruence.
Qed.

Lemma string_ltb_nonempty (a b : string) :
  String.ltb a b = true -> no_bound (PyStr b) = false.
Proof.
  unfold String.ltb. destruct b; [|reflexivity].
  destruct a; cbn; discriminate.
Qed.

(** * Running the range scan *)

Lemma run_silent (n : nat) (self : ColumnFamily) (a : RangeArgs) (g g' : Gen)
    (w w' : World) :
  get_range_step self a g w = (Ok (Silent, g'), w') ->
  get_range_run (S n) self a g w = get_range_run n self a g' w'.
Proof. intros E. cbn [get_range_run]. rewrite E. reflexivity. Qed.

Lemma run_yield (n : nat) (self : ColumnFamily) (a : RangeArgs) (g g' : Gen)
    (w w' : World) (item : pyval * Row) :
  get_range_step self a g w = (Ok (Yield item, g'), w') ->
  get_range_run (S n) self a g w
  = let r := get_range_run n self a g' w' in
    mkRun (item :: run_items r) (run_gen r) (run_world r) (run_end r).
Proof. intros E. cbn [get_range_run]. rewrite E. reflexivity. Qed.

Lemma run_return (n : nat) (self : ColumnFamily) (a : RangeArgs) (g g' : Gen)
    (w w' : World) :
  get_range_step self a g w = (Ok (Return, g'), w') ->
  get_range_run (S n) self a g w = mkRun [] GDone w' (Some (Ok tt)).
Proof. intros E. cbn [get_range_run]. rewrite E. reflexivity. Qed.

Section ThreeRows.
Variables A B C : string.
Variables colsA colsB colsC : list ColumnOrSuperColumn.
Hypothesis HAB : String.ltb A B = true.
Hypothesis HBC : String.ltb B C = true.

Lemma three_rows_page1 :
  range_slice [mkKeySlice (PyStr A) colsA; mkKeySlice (PyStr B) colsB;
               mkKeySlice (PyStr C) colsC]
    (mkKeyRange (PyStr "") (PyStr "") 2)
  = [mkKeySlice (PyStr A) colsA; mkKeySlice (PyStr B) colsB].
Proof. reflexivity. Qed.

Lemma three_rows_page2 :
  range_slice [mkKeySlice (PyStr A) colsA; mkKeySlice (PyStr B) colsB;
               mkKeySlice (PyStr C) colsC]
    (mkKeyRange (PyStr B) (PyStr "") 2)
  = [mkKeySlice (PyStr B) colsB; mkKeySlice (PyStr C) colsC].
Proof.
  unfold range_slice, in_key_range.
  cbn [filter start_key end_key kr_count ks_key key_leb].
  rewrite (string_ltb_nonempty _ _ HAB), (string_ltb_not_leb _ _ HAB),
    string_leb_refl, (string_ltb_leb _ _ HBC).
  reflexivity.
Qed.

Lemma three_rows_page3 :
  range_slice [mkKeySlice (PyStr A) colsA; mkKeySlice (PyStr B) colsB;
               mkKeySlice (PyStr C) colsC]
    (mkKeyRange (PyStr C) (PyStr "") 2)
  = [mkKeySlice (PyStr C) colsC].
Proof.
  unfold range_slice, in_key_range.
  cbn [filter start_key end_key kr_count ks_key key_leb].
  pose proof (string_ltb_trans _ _ _ HAB HBC) as HAC.
  rewrite (string_ltb_nonempty _ _ HBC), (string_ltb_not_leb _ _ HAC),
    (string_ltb_not_leb _ _ HBC), string_leb_refl.
  reflexivity.
Qed.
End ThreeRows.

(** The pieces of the generator's body, one lemma for each way a piece
    can end. *)

Lemma step_start (self : ColumnFamily) (a : RangeArgs) (w : World) :
  ra_columns a = None -> ra_column_start a = PyStr "" ->
  ra_column_finish a = PyStr "" -> ra_super_column a = PyNone ->
  ra_row_count a = None ->
  get_range_step self a GStart w
  = (Ok (Silent,
         GFetch (mkLocals (mkColumnParent (column_family self) PyNone)
                   (mkSlicePredicate None
                      (Some (mkSliceRange (PyStr "") (PyStr "")
                               (ra_column_reversed a) (ra_column_count a))))
                   0 0 (ra_start a) (buffer_size self))), w).
Proof.
  intros E1 E2 E3 E4 E5. cbn [get_range_step].
  rewrite E1, E2, E3, E4, E5. unfold bindM. rewrite slice_query_defaults.
  reflexivity.
Qed.

Lemma step_fetch (self : ColumnFamily) (a : RangeArgs) (l : Locals) (w : World)
    (store : list KeySlice) :
  client self = store_client store ->
  let kr := mkKeyRange (l_last_key l) (ra_finish a) (l_buffer_size l) in
  let page := range_slice store kr in
  get_range_step self a (GFetch l) w
  = (Ok (Silent, GIter l page 0 page),
     mkWorld (rpcs w ++ [Rpc_get_range_slices (l_cp l) (l_sp l) kr
                           (_rcl self (ra_read_consistency_level a))])
       (clock_reads w) (rand_reads w) (getrandbits w)).
Proof.
  intros Hc kr page. cbn [get_range_step]. unfold bindM, call.
  rewrite Hc. reflexivity.
Qed.

Lemma step_skip (self : ColumnFamily) (a : RangeArgs) (l : Locals) (w : World)
    (page rest : list KeySlice) (ks : KeySlice) :
  l_i l <> 0 ->
  get_range_step self a (GIter l page 0 (ks :: rest)) w
  = (Ok (Silent, GIter l page 1 rest), w).
Proof.
  intros Hi. apply Z.eqb_neq in Hi. cbn [get_range_step].
  rewrite Hi. reflexivity.
Qed.

Lemma step_emit (self : ColumnFamily) (a : RangeArgs) (l : Locals) (w : World)
    (page rest : list KeySlice) (ks : KeySlice) (j : Z) (row : Row) :
  j <> 0 \/ l_i l = 0 ->
  _convert_ColumnOrSuperColumns_to_dict_class self (ks_columns ks)
    (ra_include_timestamp a) = Ok row ->
  get_range_step self a (GIter l page j (ks :: rest)) w
  = (Ok (Yield (ks_key ks, row), GYielded l page j rest), w).
Proof.
  intros Hj Hr. cbn [get_range_step].
  assert (E : (j =? 0) && negb (l_i l =? 0) = false).
  { destruct Hj as [Hj|Hj].
    - apply Z.eqb_neq in Hj. rewrite Hj. reflexivity.
    - rewrite Hj, Z.eqb_refl. apply andb_false_r. }
  rewrite E. unfold bindM, lift. rewrite Hr. reflexivity.
Qed.

Lemma step_resume (self : ColumnFamily) (a : RangeArgs) (l : Locals) (w : World)
    (page rest : list KeySlice) (j : Z) :
  ra_row_count a = None ->
  get_range_step self a (GYielded l page j rest) w
  = (Ok (Silent,
         GIter (mkLocals (l_cp l) (l_sp l) (l_count l + 1) (l_i l)
                  (l_last_key l) (l_buffer_size l)) page (j + 1) rest), w).
Proof. intros E. cbn [get_range_step]. rewrite E. reflexivity. Qed.

Lemma step_next_page (self : ColumnFamily) (a : RangeArgs) (l : Locals)
    (w : World) (page : list KeySlice) (j : Z) (ks : KeySlice) :
  Z.of_nat (List.length page) = buffer_size self ->
  last (map Some page) None = Some ks ->
  get_range_step self a (GIter l page j []) w
  = (Ok (Silent,
         GFetch (mkLocals (l_cp l) (l_sp l) (l_count l) (l_i l + 1)
                   (ks_key ks) (l_buffer_size l))), w).
Proof.
  intros Hl Hk. cbn [get_range_step].
  rewrite Hl, Z.eqb_refl, Hk. reflexivity.
Qed.

Lemma step_short_page (self : ColumnFamily) (a : RangeArgs) (l : Locals)
    (w : World) (page : list KeySlice) (j : Z) :
  Z.of_nat (List.length page) <> buffer_size self ->
  get_range_step self a (GIter l page j []) w = (Ok (Return, GDone), w).
Proof.
  intros Hl. apply Z.eqb_neq in Hl. cbn [get_range_step].
  rewrite Hl. reflexivity.
Qed.

Lemma run_more_fuel (n k : nat) (self : ColumnFamily) (a : RangeArgs) (g : Gen)
    (w : World) (e : result unit) :
  run_end (get_range_run n self a g w) = Some e ->
  get_range_run (n + k) self a g w = get_range_run n self a g w.
Proof.
  revert g w. induction n as [|n IH]; intros g w; [discriminate|].
  cbn [get_range_run Nat.add].
  destruct (get_range_step self a g w) as [[[[| item |] g']|err] w'];
    cbn [run_end]; intros H; try reflexivity.
  - apply IH, H.
  - rewrite (IH _ _ H). reflexivity.
Qed.

(** C1, as the code has it.  With a page size of 2 and the rows
    [A < B < C] stored, [get_range] yields each row once, in order, and
    stops after exactly three page requests: [A, B] (a full page, so it
    goes on), [B, C] with [B] passed over (full again, so it goes on),
    and [C] alone, passed over (a short page, so it stops). *)
Theorem get_range_three_rows_three_pages
    (A B C : string) (colsA colsB colsC : list ColumnOrSuperColumn)
    (self : ColumnFamily) (rA rB rC : Row)
    (column_reversed include_timestamp : bool) (column_count : Z)
    (read_consistency_level : option Z) (w : World) :
  String.ltb A B = true -> String.ltb B C = true ->
  let store := [mkKeySlice (PyStr A) colsA; mkKeySlice (PyStr B) colsB;
                mkKeySlice (PyStr C) colsC] in
  client self = store_client store ->
  buffer_size self = 2 ->
  _convert_ColumnOrSuperColumns_to_dict_class self colsA include_timestamp
    = Ok rA ->
  _convert_ColumnOrSuperColumns_to_dict_class self colsB include_timestamp
    = Ok rB ->
  _convert_ColumnOrSuperColumns_to_dict_class self colsC include_timestamp
    = Ok rC ->
  let a := mkRangeArgs (PyStr "") (PyStr "") None (PyStr "") (PyStr "")
             column_reversed column_count None include_timestamp PyNone
             read_consistency_level in
  let page1 := mkKeyRange (PyStr "") (PyStr "") 2 in
  let page2 := mkKeyRange (PyStr B) (PyStr "") 2 in
  let page3 := mkKeyRange (PyStr C) (PyStr "") 2 in
  forall fuel, (15 <= fuel)%nat ->
  let r := get_range_run fuel self a (get_range self a) w in
  run_items r = [(PyStr A, rA); (PyStr B, rB); (PyStr C, rC)]
  /\ run_end r = Some (Ok tt)
  /\ range_requests (rpcs (run_world r))
     = range_requests (rpcs w) ++ [page1; page2; page3]
  /\ List.map ks_key (range_slice store page1) = [PyStr A; PyStr B]
  /\ List.map ks_key (range_slice store page2) = [PyStr B; PyStr C]
  /\ List.map ks_key (range_slice store page3) = [PyStr C].
Proof.
  intros HAB HBC store Hc Hb HrA HrB HrC a page1 page2 page3 fuel Hfuel r.
  pose proof (three_rows_page1 A B C colsA colsB colsC) as P1.
  pose proof (@three_rows_page2 A B C colsA colsB colsC HAB HBC) as P2.
  pose proof (@three_rows_page3 A B C colsA colsB colsC HAB HBC) as P3.
  assert (R : get_range_run 15 self a GStart w
              = mkRun [(PyStr A, rA); (PyStr B, rB); (PyStr C, rC)] GDone
                  (mkWorld
                     (((rpcs w
                        ++ [Rpc_get_range_slices
                              (mkColumnParent (column_family self) PyNone)
                              (mkSlicePredicate None
                                 (Some (mkSliceRange (PyStr "") (PyStr "")
                                          column_reversed column_count)))
                              page1 (_rcl self read_consistency_level)])
                       ++ [Rpc_get_range_slices
                             (mkColumnParent (column_family self) PyNone)
                             (mkSlicePredicate None
                                (Some (mkSliceRange (PyStr "") (PyStr "")
                                         column_reversed column_count)))
                             page2 (_rcl self read_consistency_level)])
                      ++ [Rpc_get_range_slices
                            (mkColumnParent (column_family self) PyNone)
                            (mkSlicePredicate None
                               (Some (mkSliceRange (PyStr "") (PyStr "")
                                        column_reversed column_count)))
                            page3 (_rcl self read_consistency_level)])
                     (clock_reads w) (rand_reads w) (getrandbits w))
                  (Some (Ok tt))).
  { subst store a page1 page2 page3.
    erewrite run_silent by (apply step_start; reflexivity).
    erewrite run_silent by (apply step_fetch; exact Hc).
    cbn [l_last_key l_buffer_size l_cp l_sp ra_finish ra_start
         ra_column_reversed ra_column_count ra_read_consistency_level].
    rewrite Hb, P1.
    erewrite run_yield by (apply step_emit; [right; reflexivity | exact HrA]).
    cbv zeta. erewrite run_silent by (apply step_resume; reflexivity).
    erewrite run_yield by (apply step_emit; [left; discriminate | exact HrB]).
    cbv zeta. erewrite run_silent by (apply step_resume; reflexivity).
    erewrite run_silent
      by (apply step_next_page with (ks := mkKeySlice (PyStr B) colsB);
          [rewrite Hb; reflexivity | reflexivity]).
    erewrite run_silent by (apply step_fetch; exact Hc).
    cbn [l_last_key l_buffer_size l_cp l_sp ra_finish ks_key
         ra_read_consistency_level rpcs clock_reads rand_reads getrandbits].
    rewrite P2.
    erewrite run_silent by (apply step_skip; discriminate).
    erewrite run_yield by (apply step_emit; [left; discriminate | exact HrC]).
    cbv zeta. erewrite run_silent by (apply step_resume; reflexivity).
    erewrite run_silent
      by (apply step_next_page with (ks := mkKeySlice (PyStr C) colsC);
          [rewrite Hb; reflexivity | reflexivity]).
    erewrite run_silent by (apply step_fetch; exact Hc).
    cbn [l_last_key l_buffer_size l_cp l_sp ra_finish ks_key
         ra_read_consistency_level rpcs clock_reads rand_reads getrandbits].
    rewrite P3.
    erewrite run_silent by (apply step_skip; discriminate).
    erewrite run_return by (apply step_short_page; rewrite Hb; discriminate).
    reflexivity. }
  assert (Rf : r = get_range_run 15 self a GStart w).
  { subst r. unfold get_range.
    replace fuel with (15 + (fuel - 15))%nat by lia.
    apply run_more_fuel with (e := Ok tt). rewrite R. reflexivity. }
  rewrite Rf, R. cbn [run_items run_end run_world rpcs].
  split; [reflexivity|]. split; [reflexivity|].
  split.
  { unfold range_requests. rewrite !flat_map_app. cbn [flat_map].
    rewrite !app_nil_r, <- !app_assoc. reflexivity. }
  subst store page1 page2 page3. rewrite P1, P2, P3.
  repeat split; reflexivity.
Qed.


(** * The scan never goes back *)

Section Forward.
Variable key_lt : pyval -> pyval -> Prop.
Hypothesis key_lt_irrefl : forall k, ~ key_lt k k.
Hypothesis key_lt_trans : forall a b c, key_lt a b -> key_lt b c -> key_lt a c.

Lemma key_le_refl (k : pyval) : (key_le key_lt) k k.
Proof. left. reflexivity. Qed.

Lemma key_le_trans (a b c : pyval) : (key_le key_lt) a b -> (key_le key_lt) b c -> (key_le key_lt) a c.
Proof.
  intros [->|H1] [->|H2]; unfold key_le; eauto.
Qed.

Lemma key_le_lt_trans (a b c : pyval) : (key_le key_lt) a b -> key_lt b c -> key_lt a c.
Proof. intros [->|H1] H2; eauto. Qed.

Lemma bound_le_lt (lo : option pyval) (a b : pyval) :
  (bound_le key_lt) lo a -> key_lt a b -> (above key_lt) lo b.
Proof.
  destruct lo as [e|]; cbn; [|trivial]. apply key_le_lt_trans.
Qed.

Lemma bound_le_le (lo : option pyval) (a b : pyval) :
  (bound_le key_lt) lo a -> (key_le key_lt) a b -> (bound_le key_lt) lo b.
Proof.
  destruct lo as [e|]; cbn; [|trivial]. apply key_le_trans.
Qed.

Lemma above_lt (lo : option pyval) (a b : pyval) :
  (above key_lt) lo a -> key_lt a b -> (above key_lt) lo b.
Proof.
  destruct lo as [e|]; cbn; [|trivial]. apply key_lt_trans.
Qed.

Lemma last_some_app (A : Type) (pre : list A) (x : A) :
  last (map Some (pre ++ [x])) None = Some x.
Proof.
  rewrite map_app. cbn [map]. apply last_last.
Qed.

Lemma last_some_in (A : Type) (l : list A) (x : A) :
  last (map Some l) None = Some x -> In x l.
Proof.
  induction l as [|a l IH]; [discriminate|].
  cbn [map last]. destruct l as [|b l].
  - cbn. intros [= ->]. left. reflexivity.
  - intros H. right. apply IH. exact H.
Qed.

Variable self : ColumnFamily.
Variable a : RangeArgs.
Hypothesis contract : (range_contract key_lt) (client self).

(** One piece of the body keeps the invariant, yields only a key (above key_lt)
    everything yielded before, and asks only for a page that starts at
    the cursor. *)
Lemma step_forward (g g' : Gen) (lo : option pyval) (w w' : World)
    (sig : Signal) :
  (scan_inv key_lt) g lo ->
  get_range_step self a g w = (Ok (sig, g'), w') ->
  exists new, rpcs w' = rpcs w ++ new
              /\ (step_ok key_lt) g g' lo sig (range_requests new).
Proof.
  intros Hinv Hstep. destruct g as [|l|l page j rest|l page j rest|].
  - (* GStart *)
    cbn [get_range_step] in Hstep. unfold bindM at 1 in Hstep.
    pose proof (@offline_slice_query self (ra_columns a) (ra_column_start a)
                  (ra_column_finish a) (ra_column_reversed a)
                  (ra_column_count a) (ra_super_column a) w) as Hq.
    destruct (slice_query _ _ _ _ _ _ _ w) as [[[cp sp]|e] w1];
      [|discriminate].
    cbn [snd] in Hq. unfold ret in Hstep. injection Hstep as <- <- <-.
    cbn [scan_inv] in Hinv. subst lo.
    exists []. rewrite app_nil_r. split; [exact Hq|].
    unfold step_ok. cbn [range_requests flat_map List.length map cursor].
    split; [lia|]. split; [constructor|].
    split; [cbn; auto with zarith|]. split; [exact I|].
    eexists. split; [reflexivity|]. split; [exact I | constructor].
  - (* GFetch *)
    cbn [get_range_step] in Hstep. unfold bindM, call in Hstep.
    destruct (client_get_range_slices _ _ _ _ _ _) as [[page|]|e] eqn:Hreply;
      [| |discriminate]; unfold ret in Hstep; injection Hstep as <- <- <-;
      eexists; cbn [rpcs]; (split; [reflexivity|]);
      unfold step_ok;
      cbn [range_requests flat_map app List.length map start_key cursor];
      (split; [lia|]);
      (split; [constructor; [apply key_le_refl | constructor]|]);
      [|exact I].
    apply contract in Hreply. destruct Hreply as [Hs Hf].
    cbn [start_key] in Hf.
    destruct Hinv as (Hi & Hlo & Hb).
    split.
    { cbn [scan_inv]. unfold page_inv, pending. cbn [Z.eqb andb].
      split; [exact Hi|]. split; [lia|].
      destruct (Z.eqb_spec (l_i l) 0) as [E|E]; cbn [negb].
      - rewrite (Hlo E).
        split; [exact Hs|]. split; [apply Forall_forall; cbn; trivial|].
        split; [exists []; reflexivity|]. split; [exact Hf|].
        cbn. trivial.
      - split; [destruct page; [constructor | inversion Hs; assumption]|].
        split.
        { destruct page as [|k0 more]; [constructor|].
          cbn [List.tl map] in *. inversion Hs as [|? ? _ Hgt]; subst.
          inversion Hf as [|? ? Hk0 _]; subst.
          rewrite Forall_forall in *. intros k Hk.
          eapply bound_le_lt; [eapply bound_le_le; eassumption|].
          apply Hgt, Hk. }
        split; [exists []; reflexivity|]. split; [exact Hf|].
        intros _ ks Hlast. apply last_some_in in Hlast.
        eapply bound_le_le; [exact Hb|].
        rewrite Forall_forall in Hf. apply Hf, in_map, Hlast. }
    split; [exact I|].
    eexists. split; [reflexivity|]. split; [apply key_le_refl|].
    constructor; [reflexivity | constructor].
  - (* GIter *)
    destruct Hinv as (Hi & Hj & Hs & Ha & [pre Hpre] & Hf & Hlast).
    destruct rest as [|ks rest].
    + (* the page is used up *)
      cbn [get_range_step] in Hstep.
      destruct (negb (Z.of_nat (List.length page) =? buffer_size self)).
      * unfold ret in Hstep. injection Hstep as <- <- <-.
        exists []. rewrite app_nil_r. split; [reflexivity|].
        unfold step_ok. cbn. split; [lia|]. split; [constructor | exact I].
      * destruct (last (map Some page) None) as [ks|] eqn:El; [|discriminate].
        unfold ret in Hstep. injection Hstep as <- <- <-.
        exists []. rewrite app_nil_r. split; [reflexivity|].
        unfold step_ok. cbn [range_requests flat_map List.length map cursor].
        split; [lia|]. split; [constructor|].
        assert (Hp : pending l j [] = []) by (unfold pending; destruct (_ && _); reflexivity).
        rewrite Hp in Hlast.
        split; [|split; [exact I|]].
        { cbn [scan_inv l_i l_last_key]. split; [lia|]. split; [lia|].
          apply Hlast; reflexivity. }
        eexists. split; [reflexivity|]. split; [|constructor].
        cbn [bound_le l_last_key]. apply last_some_in in El.
        rewrite Forall_forall in Hf. apply Hf, in_map, El.
    + cbn [get_range_step] in Hstep. unfold pending in *.
      destruct ((j =? 0) && negb (l_i l =? 0)) eqn:Ec.
      * (* the first row of a later page is passed over *)
        unfold ret in Hstep. injection Hstep as <- <- <-.
        exists []. rewrite app_nil_r. split; [reflexivity|].
        unfold step_ok. cbn [range_requests flat_map List.length map cursor].
        split; [lia|]. split; [constructor|].
        split; [|split; [exact I|]].
        { cbn [scan_inv]. unfold page_inv, pending.
          replace (j + 1 =? 0) with false by (symmetry; apply Z.eqb_neq; lia).
          cbn [andb List.tl] in *.
          repeat split; try assumption; try lia.
          exists (pre ++ [ks]). rewrite <- app_assoc. exact Hpre. }
        eexists. split; [reflexivity|]. split; [apply key_le_refl|constructor].
      * unfold bindM, lift in Hstep.
        destruct (_convert_ColumnOrSuperColumns_to_dict_class _ _ _)
          as [row|e]; [|discriminate].
        unfold ret in Hstep. injection Hstep as <- <- <-.
        exists []. rewrite app_nil_r. split; [reflexivity|].
        unfold step_ok. cbn [range_requests flat_map List.length map cursor fst].
        split; [lia|]. split; [constructor|].
        cbn [map] in Hs, Ha.
        inversion Hs as [|? ? Hs' Hgt]; subst.
        inversion Ha as [|? ? Hk Ha']; subst.
        split; [|split; [exact Hk|]].
        { cbn [scan_inv]. unfold page_inv.
          split; [exact Hi|]. split; [exact Hj|]. split; [exact Hs'|].
          split; [exact Hgt|].
          split; [exists (pre ++ [ks]); rewrite <- app_assoc; reflexivity|].
          split; [exact Hf|].
          intros -> ks' El. rewrite last_some_app in El.
          injection El as <-. apply key_le_refl. }
        eexists. split; [reflexivity|]. split; [apply key_le_refl|constructor].
  - (* GYielded *)
    destruct Hinv as (Hi & Hj & Hs & Ha & Hpre & Hf & Hlast).
    cbn [get_range_step] in Hstep.
    assert (Hgo : forall lz,
              l_i lz = l_i l -> l_last_key lz = l_last_key l ->
              exists new, rpcs w = rpcs w ++ new
                /\ (step_ok key_lt) (GYielded l page j rest)
                     (GIter lz page (j + 1) rest) lo Silent
                     (range_requests new)).
    { intros lz Ei Ek. exists []. rewrite app_nil_r. split; [reflexivity|].
      unfold step_ok. cbn [range_requests flat_map List.length map cursor].
      split; [lia|]. split; [constructor|].
      split; [|split; [exact I|]].
      - cbn [scan_inv]. unfold page_inv, pending.
        replace (j + 1 =? 0) with false by (symmetry; apply Z.eqb_neq; lia).
        cbn [andb]. rewrite Ei, Ek.
        repeat split; try assumption; lia.
      - eexists. split; [reflexivity|]. rewrite Ek.
        split; [apply key_le_refl | constructor]. }
    destruct (ra_row_count a) as [row_count|].
    + destruct (row_count <=? l_count l + 1).
      * unfold ret in Hstep. injection Hstep as <- <- <-.
        exists []. rewrite app_nil_r. split; [reflexivity|].
        unfold step_ok. cbn. split; [lia|]. split; [constructor | exact I].
      * unfold ret in Hstep. injection Hstep as <- <- <-.
        apply Hgo; reflexivity.
    + unfold ret in Hstep. injection Hstep as <- <- <-.
      apply Hgo; reflexivity.
  - (* GDone *)
    cbn [get_range_step] in Hstep. unfold ret in Hstep.
    injection Hstep as <- <- <-.
    exists []. rewrite app_nil_r. split; [reflexivity|].
    unfold step_ok. cbn. split; [lia|]. split; [constructor | exact I].
Qed.

(** Whatever a piece of the body ends with, it sends at most one page
    request, and that one starts at the cursor. *)
Lemma step_requests (g : Gen) (w : World) :
  exists new,
    rpcs (snd (get_range_step self a g w)) = rpcs w ++ new
    /\ (List.length (range_requests new) <= 1)%nat
    /\ Forall ((bound_le key_lt) (cursor g)) (map start_key (range_requests new)).
Proof.
  assert (Hnone : forall w', rpcs w' = rpcs w ->
            exists new, rpcs w' = rpcs w ++ new
              /\ (List.length (range_requests new) <= 1)%nat
              /\ Forall ((bound_le key_lt) (cursor g))
                   (map start_key (range_requests new))).
  { intros w' E. exists []. rewrite app_nil_r. cbn. auto. }
  destruct g as [|l|l page j rest|l page j rest|]; cbn [get_range_step].
  - apply Hnone. unfold bindM.
    pose proof (@offline_slice_query self (ra_columns a) (ra_column_start a)
                  (ra_column_finish a) (ra_column_reversed a)
                  (ra_column_count a) (ra_super_column a) w) as Hq.
    destruct (slice_query _ _ _ _ _ _ _ w) as [[[cp sp]|e] w1]; exact Hq.
  - eexists. split; [|split].
    + unfold bindM, call.
      destruct (client_get_range_slices _ _ _ _ _ _) as [[page|]|e];
        cbn [snd rpcs ret]; reflexivity.
    + cbn. lia.
    + cbn. constructor; [apply key_le_refl | constructor].
  - apply Hnone. destruct rest as [|ks rest].
    + destruct (negb _); [reflexivity|].
      destruct (last _ _); reflexivity.
    + destruct (_ && _); [reflexivity|].
      unfold bindM, lift. destruct (_convert_ColumnOrSuperColumns_to_dict_class _ _ _);
        reflexivity.
  - apply Hnone. destruct (ra_row_count a) as [rc|]; [|reflexivity].
    destruct (rc <=? _); reflexivity.
  - apply Hnone. reflexivity.
Qed.

Lemma range_requests_app (l1 l2 : list Rpc) :
  range_requests (l1 ++ l2) = range_requests l1 ++ range_requests l2.
Proof. apply flat_map_app. Qed.

Lemma strongly_sorted_nodup (l : list pyval) :
  StronglySorted key_lt l -> NoDup l.
Proof.
  induction 1 as [|k l Hs IH Hk]; constructor; [|exact IH].
  intros Hin. rewrite Forall_forall in Hk.
  exact (key_lt_irrefl (Hk k Hin)).
Qed.

Lemma run_forward (fuel : nat) (g : Gen) (lo : option pyval) (w : World) :
  (scan_inv key_lt) g lo ->
  let r := get_range_run fuel self a g w in
  StronglySorted key_lt (map fst (run_items r))
  /\ Forall ((above key_lt) lo) (map fst (run_items r))
  /\ exists new,
       rpcs (run_world r) = rpcs w ++ new
       /\ StronglySorted (key_le key_lt) (map start_key (range_requests new))
       /\ Forall ((bound_le key_lt) (cursor g)) (map start_key (range_requests new)).
Proof.
  revert g lo w. induction fuel as [|fuel IH]; intros g lo w Hinv.
  { cbn. split; [constructor|]. split; [constructor|].
    exists []. rewrite app_nil_r. cbn. repeat split; constructor. }
  cbn [get_range_run].
  destruct (step_requests g w) as (new0 & Hlog0 & Hlen0 & Hb0).
  destruct (get_range_step self a g w) as [[[sig g']|e] w'] eqn:Hstep;
    cbn [snd] in Hlog0.
  2: { cbn. split; [constructor|]. split; [constructor|].
       exists new0. split; [exact Hlog0|]. split; [|exact Hb0].
       destruct (range_requests new0) as [|kr [|kr' more]];
         cbn in Hlen0 |- *; [constructor | | lia].
       constructor; constructor. }
  destruct (@step_forward g g' lo w w' sig Hinv Hstep) as (new & Hlog & Hlen & Hb & Hsig).
  assert (new = new0) by (eapply app_inv_head; rewrite <- Hlog; exact Hlog0).
  subst new0. clear Hlog0 Hlen0 Hb0.
  assert (Hone : StronglySorted (key_le key_lt) (map start_key (range_requests new))).
  { destruct (range_requests new) as [|kr [|kr' more]];
      cbn in Hlen |- *; [constructor | | lia].
    constructor; constructor. }
  destruct sig as [|item|].
  - (* Silent *)
    destruct Hsig as (Hinv' & _ & k & Hk & Hck & Hall).
    destruct (IH g' lo w' Hinv') as (Hs & Ha & future & Hf & Hfs & Hfb).
    split; [exact Hs|]. split; [exact Ha|].
    exists (new ++ future). rewrite Hf, Hlog, app_assoc.
    split; [reflexivity|].
    rewrite range_requests_app, map_app. rewrite Hk in Hfb.
    cbn [bound_le] in Hfb. split.
    + destruct (range_requests new) as [|kr [|kr' more]];
        cbn in Hlen |- *; [exact Hfs | | lia].
      inversion Hall as [|? ? Ekr _]; subst.
      constructor; [exact Hfs | exact Hfb].
    + apply Forall_app. split; [exact Hb|].
      eapply Forall_impl; [|exact Hfb].
      intros x Hx. eapply bound_le_le; eassumption.
  - (* Yield *)
    destruct Hsig as (Hinv' & Hab & k & Hk & Hck & Hall).
    destruct (IH g' (Some (fst item)) w' Hinv')
      as (Hs & Ha & future & Hf & Hfs & Hfb).
    cbn [run_items run_world map].
    split; [constructor; [exact Hs | exact Ha]|].
    split.
    { constructor; [exact Hab|].
      eapply Forall_impl; [|exact Ha].
      intros x Hx. eapply above_lt; [exact Hab | exact Hx]. }
    exists (new ++ future). rewrite Hf, Hlog, app_assoc.
    split; [reflexivity|].
    rewrite range_requests_app, map_app. rewrite Hk in Hfb.
    cbn [bound_le] in Hfb. split.
    + destruct (range_requests new) as [|kr [|kr' more]];
        cbn in Hlen |- *; [exact Hfs | | lia].
      inversion Hall as [|? ? Ekr _]; subst.
      constructor; [exact Hfs | exact Hfb].
    + apply Forall_app. split; [exact Hb|].
      eapply Forall_impl; [|exact Hfb].
      intros x Hx. eapply bound_le_le; eassumption.
  - (* Return *)
    cbn. split; [constructor|]. split; [constructor|].
    exists new. auto.
Qed.

(** C5.  Against a store that answers a range request with rows in
    strictly increasing key order, none before the start key, the keys
    [get_range] yields are strictly increasing, so none comes twice; the
    start keys of its page requests never decrease; and the first row of
    every page after the first is passed over without being yielded. *)
Theorem get_range_never_repeats (fuel : nat) (w : World) :
  let r := get_range_run fuel self a (get_range self a) w in
  StronglySorted key_lt (map fst (run_items r))
  /\ NoDup (map fst (run_items r))
  /\ (exists new,
        rpcs (run_world r) = rpcs w ++ new
        /\ StronglySorted (key_le key_lt) (map start_key (range_requests new)))
  /\ (forall l page ks rest w0,
        l_i l <> 0 ->
        get_range_step self a (GIter l page 0 (ks :: rest)) w0
        = (Ok (Silent, GIter l page 1 rest), w0)).
Proof.
  intros r. subst r. unfold get_range.
  destruct (@run_forward fuel GStart None w eq_refl)
    as (Hs & _ & new & Hlog & Hreq & _).
  split; [exact Hs|]. split; [apply strongly_sorted_nodup, Hs|].
  split; [exists new; auto|].
  intros l page ks rest w0 Hi. apply step_skip, Hi.
Qed.
End Forward.

(** * The sample store *)

Lemma str_key_lt_irrefl (k : pyval) : ~ str_key_lt k k.
Proof.
  destruct k; cbn; try tauto.
  unfold String.ltb. rewrite string_compare_refl. discriminate.
Qed.

Lemma str_key_lt_trans (a b c : pyval) :
  str_key_lt a b -> str_key_lt b c -> str_key_lt a c.
Proof.
  destruct a, b, c; cbn; try tauto. apply string_ltb_trans.
Qed.

Lemma string_leb_cases (x y : string) :
  String.leb x y = true -> x = y \/ String.ltb x y = true.
Proof.
  unfold String.leb, String.ltb.
  destruct (String.compare x y) eqn:E; try discriminate; intros _.
  - left. apply String.compare_eq_iff, E.
  - right. reflexivity.
Qed.

Lemma empty_key_least (y : string) : key_le str_key_lt (PyStr "") (PyStr y).
Proof.
  destruct y as [|c y]; [left; reflexivity | right; reflexivity].
Qed.

Lemma sorted_filter (A : Type) (R : pyval -> pyval -> Prop) (f : A -> pyval)
    (p : A -> bool) (l : list A) :
  StronglySorted R (map f l) -> StronglySorted R (map f (filter p l)).
Proof.
  induction l as [|x l IH]; cbn [map filter]; intros H; [constructor|].
  inversion H as [|? ? Hs Hall]; subst.
  destruct (p x); [|apply IH, Hs].
  cbn [map]. constructor; [apply IH, Hs|].
  rewrite Forall_forall in *. intros k Hk. apply Hall.
  rewrite in_map_iff in *. destruct Hk as (y & <- & Hy).
  exists y. split; [reflexivity|]. apply filter_In in Hy. tauto.
Qed.

Lemma in_firstn (A : Type) (n : nat) (l : list A) (x : A) :
  In x (firstn n l) -> In x l.
Proof.
  intros H. rewrite <- (firstn_skipn n l). apply in_or_app. left. exact H.
Qed.

Lemma sorted_firstn (A : Type) (R : pyval -> pyval -> Prop) (f : A -> pyval)
    (n : nat) (l : list A) :
  StronglySorted R (map f l) -> StronglySorted R (map f (firstn n l)).
Proof.
  revert l. induction n as [|n IH]; intros l H; [constructor|].
  destruct l as [|x l]; [constructor|].
  cbn [map firstn] in *. inversion H as [|? ? Hs Hall]; subst.
  constructor; [apply IH, Hs|].
  rewrite Forall_forall in *. intros k Hk. apply Hall.
  rewrite in_map_iff in *. destruct Hk as (y & <- & Hy).
  exists y. split; [reflexivity|]. eapply in_firstn, Hy.
Qed.

(** A store that keeps byte-string keys in byte order answers as the
    contract says. *)
Lemma store_range_contract (store : list KeySlice) :
  StronglySorted str_key_lt (map ks_key store) ->
  Forall is_str (map ks_key store) ->
  range_contract str_key_lt (store_client store).
Proof.
  intros Hsorted Hstr h cp sp kr cl page. cbn [client_get_range_slices store_client].
  intros [= <-]. unfold range_slice. split.
  - apply sorted_firstn, sorted_filter, Hsorted.
  - rewrite Forall_forall in *. intros k Hk.
    rewrite in_map_iff in Hk. destruct Hk as (ks & <- & Hin).
    apply in_firstn, filter_In in Hin. destruct Hin as [Hin Hr].
    destruct (Hstr (ks_key ks) (in_map _ _ _ Hin)) as [y Ey].
    unfold in_key_range in Hr. rewrite Ey in *.
    apply andb_prop in Hr. destruct Hr as [Hr _].
    apply orb_prop in Hr. destruct Hr as [Hr|Hr].
    + destruct (start_key kr) as [| |[|c s]| | |]; try discriminate.
      apply empty_key_least.
    + destruct (start_key kr) as [| |x| | |]; try discriminate.
      cbn [key_leb] in Hr. apply string_leb_cases in Hr.
      destruct Hr as [->|Hr]; [left; reflexivity | right; exact Hr].
Qed.

Lemma abc_store_contract : range_contract str_key_lt (store_client abc_store).
Proof.
  apply store_range_contract.
  - repeat constructor.
  - repeat constructor; eexists; reflexivity.
Qed.

(** * What [_unpack] accepts, [_pack] gives back *)

Lemma chr_mod (z : Z) : chr (z mod 256) = chr z.
Proof. unfold chr. rewrite Z.mod_mod by lia. reflexivity. Qed.

Lemma be_unpack_from_split (s : string) (acc : Z) :
  be_unpack_from acc s = acc * 256 ^ Z.of_nat (String.length s) + be_unpack s
  /\ 0 <= be_unpack s < 256 ^ Z.of_nat (String.length s).
Proof.
  revert acc. induction s as [|c s IH]; intros acc.
  - unfold be_unpack. simpl. lia.
  - unfold be_unpack. cbn [be_unpack_from String.length].
    rewrite Nat2Z.inj_succ, Z.pow_succ_r by lia.
    destruct (IH (acc * 256 + ord c)) as [E1 _].
    destruct (IH (0 * 256 + ord c)) as [E2 B].
    rewrite E1, E2. pose proof (ord_range c).
    split; [ring | nia].
Qed.

Lemma be_pack_unpack_from (s : string) (acc : Z) :
  be_pack (String.length s) (be_unpack_from acc s) = s.
Proof.
  revert acc. induction s as [|c s IH]; intros acc; [reflexivity|].
  cbn [String.length be_pack be_unpack_from]. rewrite IH. f_equal.
  destruct (be_unpack_from_split s (acc * 256 + ord c)) as [E B].
  rewrite E.
  assert (Hp : 0 < 256 ^ Z.of_nat (String.length s))
    by (apply Z.pow_pos_nonneg; lia).
  rewrite Z.div_add_l, Z.div_small, Z.add_0_r by lia.
  rewrite <- chr_mod, Z.add_comm, Z.mod_add, chr_mod by lia.
  apply chr_ord.
Qed.

Lemma be_pack_unpack (s : string) : be_pack (String.length s) (be_unpack s) = s.
Proof. apply be_pack_unpack_from. Qed.

Lemma be_pack_shift (n : nat) (z m : Z) :
  be_pack n (z + m * 256 ^ Z.of_nat n) = be_pack n z.
Proof.
  revert m. induction n as [|k IH]; intros m; [reflexivity|].
  cbn [be_pack]. rewrite Nat2Z.inj_succ, Z.pow_succ_r by lia.
  assert (Hp : 0 < 256 ^ Z.of_nat k) by (apply Z.pow_pos_nonneg; lia).
  replace (m * (256 * 256 ^ Z.of_nat k)) with (m * 256 * 256 ^ Z.of_nat k) by ring.
  rewrite IH. f_equal.
  rewrite Z.div_add by lia.
  rewrite <- chr_mod, Z.mod_add, chr_mod by lia. reflexivity.
Qed.

Lemma struct_int_unpack_pack (n : nat) (b : string) (z : Z) :
  (0 < n)%nat ->
  struct_unpack_int n b = Ok z -> struct_pack_int n z = Ok b.
Proof.
  unfold struct_pack_int, struct_unpack_int. intros Hn.
  set (half := 2 ^ (8 * Z.of_nat n - 1)).
  assert (Hhalf : 0 < half) by (apply Z.pow_pos_nonneg; lia).
  assert (Hfull : 256 ^ Z.of_nat n = 2 * half).
  { unfold half. change 256 with (2 ^ 8). rewrite <- Z.pow_mul_r by lia.
    rewrite <- Z.pow_succ_r by lia. f_equal. lia. }
  destruct (Nat.eqb_spec (String.length b) n) as [Hl|]; [|discriminate].
  intros E.
  assert (Hz : z = if be_unpack b <? half then be_unpack b
                   else be_unpack b - 2 * half) by (cbv zeta in E; congruence).
  clear E.
  destruct (be_unpack_from_split b 0) as [_ B]. rewrite Hl, Hfull in B.
  destruct (Z.ltb_spec (be_unpack b) half); subst z.
  - destruct (Z.leb_spec (- half) (be_unpack b)); [|lia].
    destruct (Z.ltb_spec (be_unpack b) half); [|lia].
    cbn [andb]. rewrite <- Hl. f_equal. apply be_pack_unpack.
  - destruct (Z.leb_spec (- half) (be_unpack b - 2 * half)); [|lia].
    destruct (Z.ltb_spec (be_unpack b - 2 * half) half); [|lia].
    cbn [andb]. f_equal.
    replace (be_unpack b - 2 * half)
      with (be_unpack b + (-1) * 256 ^ Z.of_nat n) by lia.
    rewrite be_pack_shift, <- Hl. apply be_pack_unpack.
Qed.

Lemma utf8_decode_cp_strict (s rest : string) (c : Z) :
  utf8_decode_cp s = Some (c, rest) -> s = (utf8_encode_cp c ++ rest)%string.
Proof.
  unfold utf8_decode_cp, utf8_encode_cp, is_cont.
  destruct s as [|c0 s0]; [discriminate|].
  pose proof (ord_range c0) as R0.
  destruct (Z.ltb_spec (ord c0) 128).
  { intros [= <- <-]. destruct (Z.ltb_spec (ord c0) 128); [|lia].
    simpl. f_equal. symmetry. apply chr_ord. }
  destruct (Z.ltb_spec (ord c0) 192); [discriminate|].
  destruct (Z.ltb_spec (ord c0) 224).
  { destruct s0 as [|c1 s1]; [discriminate|].
    pose proof (ord_range c1) as R1.
    destruct (Z.leb_spec 128 (ord c1)); [|discriminate].
    destruct (Z.ltb_spec (ord c1) 192); [|discriminate].
    destruct (Z.leb_spec 128 ((ord c0 - 192) * 64 + (ord c1 - 128)));
      [|discriminate].
    cbn [andb]. intros [= <- <-].
    set (v := (ord c0 - 192) * 64 + (ord c1 - 128)) in *.
    destruct (Z.ltb_spec v 128); [lia|].
    destruct (Z.ltb_spec v 2048); [|lia].
    assert (E0 : 192 + v / 64 = ord c0)
      by (unfold v; Z.div_mod_to_equations; lia).
    assert (E1 : 128 + v mod 64 = ord c1)
      by (unfold v; Z.div_mod_to_equations; lia).
    rewrite E0, E1, !chr_ord. reflexivity. }
  destruct (Z.ltb_spec (ord c0) 240).
  { destruct s0 as [|c1 [|c2 s2]]; try discriminate.
    pose proof (ord_range c1) as R1. pose proof (ord_range c2) as R2.
    destruct (Z.leb_spec 128 (ord c1)); [|discriminate].
    destruct (Z.ltb_spec (ord c1) 192); [|discriminate].
    destruct (Z.leb_spec 128 (ord c2)); [|discriminate].
    destruct (Z.ltb_spec (ord c2) 192); [|discriminate].
    destruct (Z.leb_spec 2048
                ((ord c0 - 224) * 4096 + (ord c1 - 128) * 64 + (ord c2 - 128)));
      [|discriminate].
    cbn [andb]. intros [= <- <-].
    set (v := (ord c0 - 224) * 4096 + (ord c1 - 128) * 64 + (ord c2 - 128)) in *.
    destruct (Z.ltb_spec v 128); [lia|].
    destruct (Z.ltb_spec v 2048); [lia|].
    destruct (Z.ltb_spec v 65536); [|lia].
    assert (E0 : 224 + v / 4096 = ord c0)
      by (unfold v; Z.div_mod_to_equations; lia).
    assert (E1 : 128 + (v / 64) mod 64 = ord c1)
      by (unfold v; Z.div_mod_to_equations; lia).
    assert (E2 : 128 + v mod 64 = ord c2)
      by (unfold v; Z.div_mod_to_equations; lia).
    rewrite E0, E1, E2, !chr_ord. reflexivity. }
  destruct (Z.ltb_spec (ord c0) 248); [|discriminate].
  destruct s0 as [|c1 [|c2 [|c3 s3]]]; try discriminate.
  pose proof (ord_range c1) as R1. pose proof (ord_range c2) as R2.
  pose proof (ord_range c3) as R3.
  destruct (Z.leb_spec 128 (ord c1)); [|discriminate].
  destruct (Z.ltb_spec (ord c1) 192); [|discriminate].
  destruct (Z.leb_spec 128 (ord c2)); [|discriminate].
  destruct (Z.ltb_spec (ord c2) 192); [|discriminate].
  destruct (Z.leb_spec 128 (ord c3)); [|discriminate].
  destruct (Z.ltb_spec (ord c3) 192); [|discriminate].
  set (v := (ord c0 - 240) * 262144 + (ord c1 - 128) * 4096
            + (ord c2 - 128) * 64 + (ord c3 - 128)) in *.
  destruct (Z.leb_spec 65536 v); [|discriminate].
  destruct (Z.ltb_spec v 1114112); [|discriminate].
  cbn [andb]. intros [= <- <-].
  destruct (Z.ltb_spec v 128); [lia|].
  destruct (Z.ltb_spec v 2048); [lia|].
  destruct (Z.ltb_spec v 65536); [lia|].
  assert (E0 : 240 + v / 262144 = ord c0)
    by (unfold v; Z.div_mod_to_equations; lia).
  assert (E1 : 128 + (v / 4096) mod 64 = ord c1)
    by (unfold v; Z.div_mod_to_equations; lia).
  assert (E2 : 128 + (v / 64) mod 64 = ord c2)
    by (unfold v; Z.div_mod_to_equations; lia).
  assert (E3 : 128 + v mod 64 = ord c3)
    by (unfold v; Z.div_mod_to_equations; lia).
  rewrite E0, E1, E2, E3, !chr_ord. reflexivity.
Qed.

Lemma utf8_decode_fuel_strict (fuel : nat) (s : string) (u : list Z) :
  utf8_decode_fuel fuel s = Ok u -> utf8_encode_each u = s.
Proof.
  revert s u. induction fuel as [|fuel IH]; intros s u.
  - destruct s; [intros [= <-]; reflexivity | discriminate].
  - destruct s as [|c0 s0]; [intros [= <-]; reflexivity|].
    cbn [utf8_decode_fuel].
    destruct (utf8_decode_cp (String c0 s0)) as [[c rest]|] eqn:E; [|discriminate].
    destruct (utf8_decode_fuel fuel rest) as [u'|] eqn:E'; [|discriminate].
    cbn [bind]. intros [= <-]. cbn [utf8_encode_each].
    rewrite (IH _ _ E'). symmetry. apply utf8_decode_cp_strict, E.
Qed.

Lemma struct_pack_s_exact (n : nat) (s : string) :
  String.length s = n -> struct_pack_s n s = s.
Proof. intros <-. apply struct_pack_s_id. Qed.

Lemma struct_unpack_int_injective (n : nat) (s s' : string) (z : Z) :
  (0 < n)%nat ->
  struct_unpack_int n s = Ok z -> struct_unpack_int n s' = Ok z -> s = s'.
Proof.
  intros Hn H H'.
  apply (struct_int_unpack_pack _ Hn) in H.
  apply (struct_int_unpack_pack _ Hn) in H'. congruence.
Qed.

Lemma unpack_injective (b b' v : pyval) (data_type : option string) :
  _unpack b data_type = Ok v -> _unpack b' data_type = Ok v -> b = b'.
Proof.
  unfold _unpack.
  destruct (data_type_is data_type "LongType").
  { destruct b as [| |s| | |], b' as [| |s'| | |]; try discriminate.
    cbn [py_buffer bind].
    destruct (struct_unpack_int 8 s) as [z|] eqn:E; [|discriminate].
    destruct (struct_unpack_int 8 s') as [z'|] eqn:E'; [|discriminate].
    intros [= <-] [= ->]. f_equal.
    apply (@struct_unpack_int_injective 8 s s' z); auto; lia. }
  destruct (data_type_is data_type "IntegerType").
  { destruct b as [| |s| | |], b' as [| |s'| | |]; try discriminate.
    cbn [py_buffer bind].
    destruct (struct_unpack_int 4 s) as [z|] eqn:E; [|discriminate].
    destruct (struct_unpack_int 4 s') as [z'|] eqn:E'; [|discriminate].
    intros [= <-] [= ->]. f_equal.
    apply (@struct_unpack_int_injective 4 s s' z); auto; lia. }
  destruct (data_type_is data_type "AsciiType").
  { destruct b as [| |s| | |], b' as [| |s'| | |]; try discriminate.
    cbn [py_len py_buffer bind]. unfold struct_unpack_s.
    rewrite !Nat.eqb_refl. cbn [bind]. congruence. }
  destruct (data_type_is data_type "UTF8Type").
  { destruct b as [| |s| | |], b' as [| |s'| | |]; try discriminate.
    cbn [py_len py_buffer bind]. unfold struct_unpack_s.
    rewrite !Nat.eqb_refl. cbn [bind]. unfold utf8_decode.
    destruct (utf8_decode_fuel (String.length s) s) as [u|] eqn:E; [|discriminate].
    destruct (utf8_decode_fuel (String.length s') s') as [u'|] eqn:E';
      [|discriminate].
    intros [= <-] [= ->]. f_equal.
    rewrite <- (utf8_decode_fuel_strict _ _ E), <- (utf8_decode_fuel_strict _ _ E').
    reflexivity. }
  destruct (data_type_is data_type "LexicalUUIDType"
            || data_type_is data_type "TimeUUIDType").
  { destruct b as [| |s| | |], b' as [| |s'| | |]; try discriminate.
    cbn [py_buffer bind]. unfold struct_unpack_s.
    destruct (Nat.eqb_spec (String.length s) 16) as [Hl|]; [|discriminate].
    destruct (Nat.eqb_spec (String.length s') 16) as [Hl'|]; [|discriminate].
    intros [= <-] [= E]. f_equal.
    rewrite <- (be_pack_unpack s), <- (be_pack_unpack s'), Hl, Hl', E.
    reflexivity. }
  congruence.
Qed.

Lemma unpack_pack_inverse (b v : pyval) (data_type : option string) :
  _unpack b data_type = Ok v -> pairless v = true -> _pack v data_type = Ok b.
Proof.
  unfold _unpack, _pack.
  destruct (data_type_is data_type "LongType").
  { destruct b as [| |s| | |]; try discriminate. cbn [py_buffer bind].
    destruct (struct_unpack_int 8 s) as [z|] eqn:E; [|discriminate].
    intros [= <-] _. cbn [py_long bind].
    rewrite (@struct_int_unpack_pack 8 s z) by (auto; lia). reflexivity. }
  destruct (data_type_is data_type "IntegerType").
  { destruct b as [| |s| | |]; try discriminate. cbn [py_buffer bind].
    destruct (struct_unpack_int 4 s) as [z|] eqn:E; [|discriminate].
    intros [= <-] _. cbn [py_long bind].
    rewrite (@struct_int_unpack_pack 4 s z) by (auto; lia). reflexivity. }
  destruct (data_type_is data_type "AsciiType").
  { destruct b as [| |s| | |]; try discriminate.
    cbn [py_len py_buffer bind]. unfold struct_unpack_s.
    rewrite Nat.eqb_refl. intros [= <-] _.
    cbn [py_len py_pack_s bind]. rewrite struct_pack_s_id. reflexivity. }
  destruct (data_type_is data_type "UTF8Type").
  { destruct b as [| |s| | |]; try discriminate.
    cbn [py_len py_buffer bind]. unfold struct_unpack_s.
    rewrite Nat.eqb_refl. cbn [bind]. unfold utf8_decode.
    destruct (utf8_decode_fuel (String.length s) s) as [u|] eqn:E; [|discriminate].
    intros [= <-] Hp. cbn [pairless] in Hp.
    cbn [py_encode_utf8 py_len py_pack_s bind].
    rewrite (utf8_encode_pairless _ Hp), (utf8_decode_fuel_strict _ _ E),
      struct_pack_s_id.
    reflexivity. }
  rewrite (orb_comm (data_type_is data_type "TimeUUIDType")).
  destruct (data_type_is data_type "LexicalUUIDType"
            || data_type_is data_type "TimeUUIDType").
  { destruct b as [| |s| | |]; try discriminate.
    cbn [py_buffer bind]. unfold struct_unpack_s.
    destruct (Nat.eqb_spec (String.length s) 16) as [Hl|]; [|discriminate].
    intros [= <-] _. cbn [py_bytes_attr].
    assert (E : be_pack 16 (be_unpack s) = s)
      by (rewrite <- Hl; apply be_pack_unpack).
    rewrite E, struct_pack_s_exact by exact Hl. reflexivity. }
  intros [= <-] _. reflexivity.
Qed.

Lemma unpack_none (b : pyval) (data_type : option string) :
  _unpack b data_type = Ok PyNone -> b = PyNone.
Proof.
  unfold _unpack. intros H.
  repeat match type of H with
         | context [if ?c then _ else _] => destruct c
         end;
    try congruence;
    destruct b; cbn [py_buffer py_len bind] in H; try discriminate H;
    repeat match type of H with
           | context [bind ?x _] => destruct x; cbn [bind] in H
           end;
    discriminate H.
Qed.

(** The wire bytes of two surrogates, each encoded by itself, are read
    as the two surrogates, and the two surrogates are written as the one
    code point the pair stands for. *)
Lemma surrogate_pair_packs_joined :
  _unpack (PyStr surrogate_pair_bytes) (Some "UTF8Type")
  = Ok (PyUnicode [55296; 56320])
  /\ _pack (PyUnicode [55296; 56320]) (Some "UTF8Type")
     = Ok (PyStr joined_pair_bytes)
  /\ _unpack (PyStr joined_pair_bytes) (Some "UTF8Type") = Ok (PyUnicode [65536])
  /\ surrogate_pair_bytes <> joined_pair_bytes.
Proof. vm_compute. repeat split; discriminate. Qed.

(** X1.  [_unpack] is injective: no two wire values unpack to the same
    value under a data type.  What [_unpack] returns, [_pack] under the
    same data type turns back into the very bytes it came from, unless
    it is a text that holds a surrogate pair, which [_pack] writes as
    one code point. *)
Theorem unpack_then_pack (b v : pyval) (data_type : option string) :
  _unpack b data_type = Ok v ->
  (forall b', _unpack b' data_type = Ok v -> b' = b)
  /\ (pairless v = true -> _pack v data_type = Ok b).
Proof.
  intros H. split.
  - intros b' H'. apply (@unpack_injective _ _ _ _ H' H).
  - intros Hp. apply (@unpack_pack_inverse _ _ _ H Hp).
Qed.

(** * Typed columns *)

Lemma is_digit_chr (d : Z) : 0 <= d < 10 -> is_digit (chr (48 + d)) = true
  /\ ord (chr (48 + d)) - 48 = d.
Proof.
  intros H. unfold is_digit. rewrite ord_chr_small by lia.
  split; [|lia].
  destruct (Z.leb_spec 48 (48 + d)); [|lia].
  destruct (Z.leb_spec (48 + d) 57); [reflexivity|lia].
Qed.

Lemma parse_digits_fuel (fuel : nat) (z : Z) (s : string) :
  0 <= z < 2 ^ Z.of_nat fuel ->
  exists n, 0 <= n
    /\ forall a, parse_digits a (digits_fuel fuel z s)
                 = parse_digits (a * 10 ^ n + z) s.
Proof.
  revert z s. induction fuel as [|fuel IH]; intros z s Hz.
  - exists 0. split; [lia|]. intros a. simpl in *.
    replace (a * 1 + z) with a by lia. reflexivity.
  - cbn [digits_fuel].
    assert (Hd : 0 <= z mod 10 < 10) by (apply Z.mod_pos_bound; lia).
    destruct (is_digit_chr Hd) as [D1 D2].
    destruct (Z.ltb_spec z 10).
    + exists 1. split; [lia|]. intros a. cbn [parse_digits].
      rewrite D1, D2, Z.mod_small by lia. f_equal; lia.
    + rewrite Nat2Z.inj_succ, Z.pow_succ_r in Hz by lia.
      destruct (IH (z / 10) (String (chr (48 + z mod 10)) s)) as (n & Hn & E).
      { split; [apply Z.div_pos; lia|].
        apply Z.div_lt_upper_bound; lia. }
      exists (n + 1). split; [lia|]. intros a.
      rewrite E. cbn [parse_digits]. rewrite D1, D2. f_equal; [idtac].
      rewrite Z.pow_add_r, Z.pow_1_r by lia.
      pose proof (Z.div_mod z 10). lia.
Qed.

Lemma digits_fuel_head (fuel : nat) (z : Z) (c : ascii) (s : string) :
  is_digit c = true ->
  exists c' s', digits_fuel fuel z (String c s) = String c' s'
                /\ is_digit c' = true.
Proof.
  revert z c s. induction fuel as [|fuel IH]; intros z c s Hc.
  - exists c, s. auto.
  - cbn [digits_fuel].
    assert (H10 : is_digit (chr (48 + z mod 10)) = true).
    { apply is_digit_chr, Z.mod_pos_bound. lia. }
    destruct (z <? 10); [eauto|]. apply IH, H10.
Qed.

Lemma digits_spec (z : Z) :
  0 <= z ->
  parse_digits 0 (digits z) = Some z
  /\ exists c s, digits z = String c s /\ is_digit c = true.
Proof.
  intros Hz. unfold digits. split.
  - destruct (@parse_digits_fuel (S (Z.to_nat (Z.log2 z))) z EmptyString)
      as (n & _ & E).
    { split; [lia|]. rewrite Nat2Z.inj_succ, Z2Nat.id by apply Z.log2_nonneg.
      destruct (Z.eq_dec z 0) as [->|]; [reflexivity|].
      apply Z.log2_spec. lia. }
    rewrite E. reflexivity.
  - cbn [digits_fuel].
    assert (H10 : is_digit (chr (48 + z mod 10)) = true).
    { apply is_digit_chr, Z.mod_pos_bound. lia. }
    destruct (z <? 10); [eauto|]. apply digits_fuel_head, H10.
Qed.

Lemma parse_int_digit_head (c : ascii) (s : string) :
  is_digit c = true ->
  parse_int (String c s)
  = match parse_digits 0 (String c s) with
    | Some z => Ok z
    | None => Raise ValueError
    end.
Proof.
  destruct c as [[] [] [] [] [] [] [] []]; intros H;
    try discriminate H; reflexivity.
Qed.

Lemma parse_int_str (z : Z) : parse_int (py_str_int z) = Ok z.
Proof.
  unfold py_str_int. destruct (Z.ltb_spec z 0).
  - destruct (@digits_spec (- z)) as (E & c & s & Es & Hc); [lia|].
    unfold parse_int. rewrite Es in *. rewrite E. cbn. f_equal. lia.
  - destruct (@digits_spec z) as (E & c & s & Es & Hc); [lia|].
    rewrite Es in *. rewrite parse_int_digit_head, E by exact Hc. reflexivity.
Qed.

(** X15.  An [IntString] column gives every integer back: [pack] writes
    its decimal digits and [unpack] reads them.  [_pack] under
    [LongType] or [IntegerType] takes those digits for the integer. *)
Theorem IntString_roundtrip (z : Z) :
  exists s, IntString_pack (PyInt z) = Ok (PyStr s)
            /\ IntString_unpack (PyStr s) = Ok (PyInt z)
            /\ _pack (PyStr s) (Some "LongType") = _pack (PyInt z) (Some "LongType")
            /\ _pack (PyStr s) (Some "IntegerType")
               = _pack (PyInt z) (Some "IntegerType").
Proof.
  exists (py_str_int z). unfold IntString_unpack, _pack.
  cbn [IntString_pack py_long data_type_is String.eqb Ascii.eqb Bool.eqb].
  rewrite parse_int_str. auto.
Qed.

Lemma str_app_nil_r (s : string) : (s ++ EmptyString)%string = s.
Proof. induction s; simpl; congruence. Qed.

Lemma str_app_assoc (s t u : string) :
  ((s ++ t) ++ u)%string = (s ++ (t ++ u))%string.
Proof. induction s; simpl; congruence. Qed.

Lemma str_rev_app (s t : string) :
  str_rev (s ++ t) = (str_rev t ++ str_rev s)%string.
Proof.
  induction s as [|c s IH]; simpl.
  - symmetry. apply str_app_nil_r.
  - rewrite IH. apply str_app_assoc.
Qed.

Lemma str_rev_involutive (s : string) : str_rev (str_rev s) = s.
Proof.
  induction s as [|c s IH]; [reflexivity|].
  simpl. rewrite str_rev_app, IH. reflexivity.
Qed.

Lemma str_rev_length (s : string) : String.length (str_rev s) = String.length s.
Proof.
  induction s as [|c s IH]; [reflexivity|].
  simpl. rewrite str_length_app, IH. simpl. lia.
Qed.

(** X14.  An [Int64] column and [_pack] under [LongType] write the same
    eight bytes of an integer in range, the column in the byte order of
    the host: on a little-endian host its bytes are those of the wire
    layout reversed.  The column reads its own bytes back. *)
Theorem Int64_column_layout (little_endian : bool) (z : Z) :
  - 2 ^ 63 <= z < 2 ^ 63 ->
  exists s,
    _pack (PyInt z) (Some "LongType") = Ok (PyStr s)
    /\ String.length s = 8%nat
    /\ Int64_pack little_endian (PyInt z)
       = Ok (PyStr (if little_endian then str_rev s else s))
    /\ Int64_unpack little_endian (PyStr (if little_endian then str_rev s else s))
       = Ok (PyInt z).
Proof.
  intros Hz. exists (be_pack 8 z).
  assert (E : struct_pack_int 8 z = Ok (be_pack 8 z))
    by (apply struct_pack_int_ok; exact Hz).
  unfold _pack, Int64_pack, Int64_unpack, native_pack_q, native_unpack_q.
  cbn [data_type_is String.eqb Ascii.eqb Bool.eqb py_long py_buffer bind].
  rewrite E. cbn [bind].
  split; [reflexivity|]. split; [apply be_pack_length|].
  split; [reflexivity|].
  destruct little_endian; [rewrite str_rev_involutive|];
    rewrite (@struct_int_roundtrip 8 z (be_pack 8 z)) by (auto; lia);
    reflexivity.
Qed.

(** * Byte strings under [UTF8Type] *)

Lemma utf8_decode_ascii (s : string) (fuel : nat) :
  all_ascii s = true -> (String.length s <= fuel)%nat ->
  utf8_decode_fuel fuel s = Ok (ascii_codes s).
Proof.
  revert fuel. induction s as [|c s IH]; intros fuel Ha Hf.
  - destruct fuel; reflexivity.
  - simpl in Ha, Hf. apply andb_true_iff in Ha as [Hc Ha].
    destruct fuel as [|fuel]; [lia|].
    cbn [utf8_decode_fuel utf8_decode_cp]. rewrite Hc.
    rewrite IH by (auto; lia). reflexivity.
Qed.

(** X2.  Under [UTF8Type] a byte string is written as it is, whatever
    its bytes.  If it is ASCII it is read back as text, not as the byte
    string that was written; if it starts with a continuation byte it
    was written all the same, and reading it fails. *)
Theorem utf8_byte_strings_unchecked :
  (forall s, _pack (PyStr s) (Some "UTF8Type") = Ok (PyStr s))
  /\ (forall s, all_ascii s = true ->
        _unpack (PyStr s) (Some "UTF8Type") = Ok (PyUnicode (ascii_codes s)))
  /\ (forall c s, 128 <= ord c < 192 ->
        _unpack (PyStr (String c s)) (Some "UTF8Type") = Raise UnicodeDecodeError).
Proof.
  unfold _pack, _unpack, struct_unpack_s.
  cbn [data_type_is String.eqb Ascii.eqb Bool.eqb py_encode_utf8 py_len py_buffer
       bind].
  split; [|split].
  - intros s. destruct (all_ascii s); cbn [bind py_len py_pack_s];
      rewrite struct_pack_s_id; reflexivity.
  - intros s Hs. rewrite Nat.eqb_refl. cbn [bind]. unfold utf8_decode.
    rewrite utf8_decode_ascii by auto. reflexivity.
  - intros c s Hc. rewrite Nat.eqb_refl. cbn [bind]. unfold utf8_decode.
    cbn [String.length utf8_decode_fuel utf8_decode_cp].
    destruct (Z.ltb_spec (ord c) 128); [lia|].
    destruct (Z.ltb_spec (ord c) 192); [|lia]. reflexivity.
Qed.

(** * Result conversion *)

Lemma unpack_name_injective (self : ColumnFamily) (b b' k : pyval) (sup : bool) :
  _unpack_name self b sup = Ok k -> _unpack_name self b' sup = Ok k -> b = b'.
Proof.
  unfold _unpack_name. destruct (negb (autopack_names self)); [congruence|].
  intros H H'.
  destruct b, b';
    try congruence;
    try (injection H as <-; apply unpack_none in H'; congruence);
    try (injection H' as <-; apply unpack_none in H; congruence);
    apply (@unpack_injective _ _ _ _ H H').
Qed.

Lemma forall2_in_r (A B : Type) (R : A -> B -> Prop) (l : list A) (l' : list B)
    (y : B) :
  Forall2 R l l' -> In y l' -> exists x, In x l /\ R x y.
Proof.
  induction 1 as [|x y' l l' Hxy _ IH]; intros Hin; [destruct Hin|].
  destruct Hin as [<-|Hin]; [exists x; simpl; auto|].
  destruct (IH Hin) as (x' & Hx' & HR). exists x'. simpl. auto.
Qed.

Section KeepEveryColumn.
Variable self : ColumnFamily.
Variable include_timestamp : bool.
Variables (V : Type) (wrap : base -> V).

Lemma columns_fold (cols done : list Column) (d0 d : dict V) :
  NoDup (map col_name (done ++ cols)) ->
  Forall2 (column_entry self include_timestamp wrap) done d0 ->
  fold_left
    (fun acc col =>
       ret <- acc ;;
       v <- _convert_Column_to_base self col include_timestamp ;;
       k <- _unpack_name self (col_name col) false ;;
       Ok (dict_set k (wrap v) ret))
    cols (Ok d0) = Ok d ->
  Forall2 (column_entry self include_timestamp wrap) (done ++ cols) d.
Proof.
  revert done d0. induction cols as [|col cols IH]; intros done d0 Hnd Hdone.
  - simpl. intros [= <-]. rewrite app_nil_r. exact Hdone.
  - cbn [fold_left bind].
    destruct (_convert_Column_to_base self col include_timestamp) as [v|e] eqn:Ev;
      cbn [bind]; [|rewrite fold_raise by reflexivity; discriminate].
    destruct (_unpack_name self (col_name col) false) as [k|e] eqn:Ek;
      cbn [bind]; [|rewrite fold_raise by reflexivity; discriminate].
    assert (Hnew : ~ In k (dict_keys d0)).
    { intros Hin. unfold dict_keys in Hin. apply in_map_iff in Hin as (item & <- & Hitem).
      destruct (@forall2_in_r _ _ _ _ _ item Hdone Hitem) as (c' & Hc' & [Hu _]).
      pose proof (@unpack_name_injective _ _ _ _ _ Hu Ek) as Heq.
      rewrite map_app in Hnd. cbn [map] in Hnd.
      apply NoDup_remove_2 in Hnd. apply Hnd, in_or_app. left.
      rewrite <- Heq. apply in_map, Hc'. }
    rewrite dict_set_new by exact Hnew.
    intros Hfold.
    replace (done ++ col :: cols) with ((done ++ [col]) ++ cols)
      by (rewrite <- app_assoc; reflexivity).
    apply IH with (d0 := d0 ++ [(k, wrap v)]); [| |exact Hfold].
    + rewrite <- app_assoc. exact Hnd.
    + apply Forall2_app; [exact Hdone|]. constructor; [|constructor].
      split; [exact Ek|]. exists v. auto.
Qed.
End KeepEveryColumn.

Lemma convert_plain_fold (self : ColumnFamily) (include_timestamp : bool)
    (cols : list Column) (acc : result Row) :
  fold_left
    (fun acc col_or_super =>
       ret <- acc ;;
       match super_column col_or_super with
       | Some col =>
           v <- _convert_SuperColumn_to_base self col include_timestamp ;;
           k <- _unpack_name self (sc_name col) true ;;
           Ok (dict_set k (Nested v) ret)
       | None =>
           match column col_or_super with
           | None => Raise AttributeError
           | Some col =>
               v <- _convert_Column_to_base self col include_timestamp ;;
               k <- _unpack_name self (col_name col) false ;;
               Ok (dict_set k (Plain v) ret)
           end
       end)
    (map plain cols) acc
  = fold_left
      (fun acc col =>
         ret <- acc ;;
         v <- _convert_Column_to_base self col include_timestamp ;;
         k <- _unpack_name self (col_name col) false ;;
         Ok (dict_set k (Plain v) ret))
      cols acc.
Proof.
  revert acc. induction cols as [|col cols IH]; intros acc; [reflexivity|].
  cbn [map fold_left]. rewrite IH. reflexivity.
Qed.

(** X3.  Columns with distinct wire names are converted to a mapping
    that holds one item for each column, in the order of the reply: the
    unpacked name with the converted value.  No column is lost to
    another one's name, in a row and in a super column alike. *)
Theorem converted_row_keeps_every_column (self : ColumnFamily)
    (cols : list Column) (include_timestamp : bool) :
  NoDup (map col_name cols) ->
  (forall row,
     _convert_ColumnOrSuperColumns_to_dict_class self (map plain cols)
       include_timestamp = Ok row ->
     Forall2 (column_entry self include_timestamp Plain) cols row
     /\ List.length row = List.length cols)
  /\ (forall name d,
        _convert_SuperColumn_to_base self (mkSuperColumn name cols)
          include_timestamp = Ok d ->
        Forall2 (column_entry self include_timestamp (fun v => v)) cols d
        /\ List.length d = List.length cols).
Proof.
  intros Hnd. split.
  - intros row H. unfold _convert_ColumnOrSuperColumns_to_dict_class in H.
    rewrite convert_plain_fold in H.
    assert (F : Forall2 (column_entry self include_timestamp Plain) ([] ++ cols) row)
      by (eapply columns_fold; [exact Hnd|constructor|exact H]).
    split; [exact F|]. symmetry. eapply Forall2_length, F.
  - intros name d H. unfold _convert_SuperColumn_to_base in H. cbn [sc_columns] in H.
    assert (F : Forall2 (column_entry self include_timestamp (fun v => v))
                  ([] ++ cols) d)
      by (eapply columns_fold with (wrap := fun v => v);
          [exact Hnd|constructor|exact H]).
    split; [exact F|]. symmetry. eapply Forall2_length, F.
Qed.

(** * [include_timestamp] *)

Lemma dict_set_map (V W : Type) (f : V -> W) (k : pyval) (v : V) (d : dict V) :
  map (fun item => (fst item, f (snd item))) (dict_set k v d)
  = dict_set k (f v) (map (fun item => (fst item, f (snd item))) d).
Proof.
  induction d as [|[k' v'] d IH]; [reflexivity|].
  cbn [dict_set map fst snd]. destruct (pyval_eqb k k'); cbn [map fst snd];
    [reflexivity|]. rewrite IH. reflexivity.
Qed.

Lemma column_without_timestamp (self : ColumnFamily) (col : Column) :
  _convert_Column_to_base self col false
  = result_map strip_base (_convert_Column_to_base self col true).
Proof.
  unfold _convert_Column_to_base.
  destruct (_unpack_value self (col_value col) (col_name col)); reflexivity.
Qed.

Lemma super_column_without_timestamp (self : ColumnFamily) (sc : SuperColumn) :
  _convert_SuperColumn_to_base self sc false
  = result_map (map (fun item => (fst item, strip_base (snd item))))
      (_convert_SuperColumn_to_base self sc true).
Proof.
  unfold _convert_SuperColumn_to_base.
  change (Ok (@nil (pyval * base)))
    with (result_map (map (fun item : pyval * base => (fst item, strip_base (snd item))))
            (Ok (@nil (pyval * base)))) at 1.
  generalize (Ok (@nil (pyval * base))) as acc.
  induction (sc_columns sc) as [|col cols IH]; intros acc; [reflexivity|].
  cbn [fold_left]. rewrite <- IH. f_equal.
  destruct acc as [ret|e]; [|reflexivity]. cbn [bind result_map].
  rewrite column_without_timestamp.
  destruct (_convert_Column_to_base self col true) as [v|e]; [|reflexivity].
  cbn [bind result_map].
  destruct (_unpack_name self (col_name col) false) as [k|e]; [|reflexivity].
  cbn [bind result_map]. rewrite dict_set_map. reflexivity.
Qed.

(** X4.  Asking for timestamps changes nothing but the values' shape:
    the conversion without timestamps fails exactly when the one with
    timestamps fails, and otherwise gives the same names, in the same
    order, with the same values, the timestamps taken off. *)
Theorem include_timestamp_only_adds_timestamps (self : ColumnFamily)
    (list_col_or_super : list ColumnOrSuperColumn) :
  _convert_ColumnOrSuperColumns_to_dict_class self list_col_or_super false
  = result_map strip_row
      (_convert_ColumnOrSuperColumns_to_dict_class self list_col_or_super true).
Proof.
  unfold _convert_ColumnOrSuperColumns_to_dict_class.
  change (Ok (@nil (pyval * cell)))
    with (result_map strip_row (Ok (@nil (pyval * cell)))) at 1.
  generalize (Ok (@nil (pyval * cell))) as acc.
  induction list_col_or_super as [|c l IH]; intros acc; [reflexivity|].
  cbn [fold_left]. rewrite <- IH. f_equal.
  destruct acc as [ret|e]; [|reflexivity]. cbn [bind result_map].
  destruct (super_column c) as [sc|].
  - rewrite super_column_without_timestamp.
    destruct (_convert_SuperColumn_to_base self sc true) as [v|e]; [|reflexivity].
    cbn [bind result_map].
    destruct (_unpack_name self (sc_name sc) true) as [k|e]; [|reflexivity].
    cbn [bind result_map]. unfold strip_row. rewrite dict_set_map. reflexivity.
  - destruct (column c) as [col|]; [|reflexivity].
    rewrite column_without_timestamp.
    destruct (_convert_Column_to_base self col true) as [v|e]; [|reflexivity].
    cbn [bind result_map].
    destruct (_unpack_name self (col_name col) false) as [k|e]; [|reflexivity].
    cbn [bind result_map]. unfold strip_row. rewrite dict_set_map. reflexivity.
Qed.

(** * One request per read *)



Lemma slice_query_parent (self : ColumnFamily) (columns : option (list pyval))
    (cs cf : pyval) (rev : bool) (cnt : Z) (sc : pyval)
    (w w1 : World) (cp : ColumnParent) (sp : SlicePredicate) :
  slice_query self columns cs cf rev cnt sc w = (Ok (cp, sp), w1) ->
  rpcs w1 = rpcs w
  /\ cp_column_family cp = column_family self
  /\ exists packed s f,
       sp = create_SlicePredicate packed s f rev cnt
       /\ (columns = None -> packed = None).
Proof.
  intros H.
  pose proof (@offline_slice_query self columns cs cf rev cnt sc w) as Hq.
  rewrite H in Hq. cbn [snd] in Hq. split; [exact Hq|].
  destruct (@slice_query_inv _ _ _ _ _ _ _ _ _ _ _ H)
    as (sc' & cs' & cf' & wa & packed & _ & _ & _ & Hp & -> & ->).
  split; [reflexivity|]. exists packed, cs', cf'. split; [reflexivity|].
  intros ->. unfold pack_columns, ret in Hp. congruence.
Qed.


(** X6.  [get_count] and [multiget_count] run the prologue of every
    read with direction forward and the count [2 ^ 31 - 1].  If it fails
    nothing is sent; otherwise exactly one count request is sent, with
    the parent and the predicate the prologue built, and the remote's
    answer is returned as it is.  The predicate holds the packed names
    of [columns] when they are given, and otherwise the range of the
    packed bounds, forward, with that count. *)
Theorem counts_ignore_direction_and_limit (self : ColumnFamily)
    (super_column : pyval) (read_consistency_level : option Z)
    (columns : option (list pyval)) (column_start column_finish : pyval)
    (w : World) :
  let cl := _rcl self read_consistency_level in
  let query := slice_query self columns column_start column_finish false
                 MAX_COUNT super_column w in
  (forall cp sp w1,
     query = (Ok (cp, sp), w1) ->
     exists packed_super start finish wa,
       (if negb (is_empty_string super_column)
        then _pack_name self super_column true _NON_SLICE
        else ret super_column) w = (Ok packed_super, wa)
       /\ pack_optional_bound self column_start _SLICE_START wa = (Ok start, wa)
       /\ pack_optional_bound self column_finish _SLICE_FINISH wa
          = (Ok finish, wa)
       /\ cp = mkColumnParent (column_family self) packed_super
       /\ match columns with
          | None =>
              sp = mkSlicePredicate None
                     (Some (mkSliceRange start finish false MAX_COUNT))
          | Some cols =>
              exists names,
                mapMM (fun col => _pack_name self col (super self) _NON_SLICE)
                  cols wa = (Ok names, w1)
                /\ sp = mkSlicePredicate (Some names) None
          end)
  /\ (forall key,
        let out := get_count self key super_column read_consistency_level
                     columns column_start column_finish w in
        match query with
        | (Ok (cp, sp), _) =>
            rpcs (snd out) = rpcs w ++ [Rpc_get_count key cp sp cl]
            /\ fst out = client_get_count (client self) (rpcs w) key cp sp cl
        | (Raise e, _) => fst out = Raise e /\ rpcs (snd out) = rpcs w
        end)
  /\ (forall keys,
        let out := multiget_count self keys super_column read_consistency_level
                     columns column_start column_finish w in
        match query with
        | (Ok (cp, sp), _) =>
            rpcs (snd out) = rpcs w ++ [Rpc_multiget_count keys cp sp cl]
            /\ fst out = client_multiget_count (client self) (rpcs w) keys cp sp
                           cl
        | (Raise e, _) => fst out = Raise e /\ rpcs (snd out) = rpcs w
        end).
Proof.
  cbv zeta.
  pose proof (@offline_slice_query self columns column_start column_finish
                false MAX_COUNT super_column w) as Ho.
  split; [|split].
  - intros cp sp w1 Hq.
    destruct (@slice_query_inv _ _ _ _ _ _ _ _ _ _ _ Hq)
      as (sc' & cs' & cf' & wa & packed & Hsc & Hcs & Hcf & Hp & -> & ->).
    exists sc', cs', cf', wa. repeat (split; [assumption || reflexivity|]).
    destruct columns as [cols|].
    + destruct (@pack_columns_some _ _ _ _ _ Hp) as (names & -> & Hnames).
      exists names. split; [exact Hnames|reflexivity].
    + unfold pack_columns, ret in Hp. injection Hp as <- _. reflexivity.
  - intros key. unfold get_count. unfold bindM.
    destruct (slice_query self columns column_start column_finish false
                MAX_COUNT super_column w) as [[[cp sp]|e] w1];
      cbn [snd] in Ho; [|auto].
    unfold call. cbn [fst snd rpcs]. rewrite Ho. auto.
  - intros keys. unfold multiget_count. unfold bindM.
    destruct (slice_query self columns column_start column_finish false
                MAX_COUNT super_column w) as [[[cp sp]|e] w1];
      cbn [snd] in Ho; [|auto].
    unfold call. cbn [fst snd rpcs]. rewrite Ho. auto.
Qed.

(** * A first page that is not full *)

Lemma run_eta (r : Run) :
  mkRun (run_items r) (run_gen r) (run_world r) (run_end r) = r.
Proof. destruct r; reflexivity. Qed.

Lemma run_last_page (self : ColumnFamily) (a : RangeArgs) (page : list KeySlice) :
  ra_row_count a = None ->
  Z.of_nat (List.length page) <> buffer_size self ->
  forall (rest : list KeySlice) (rows : list Row) (l : Locals) (j : Z) (w : World),
    l_i l = 0 ->
    Forall2 (fun ks row =>
               _convert_ColumnOrSuperColumns_to_dict_class self (ks_columns ks)
                 (ra_include_timestamp a) = Ok row) rest rows ->
    get_range_run (2 * List.length rest + 1) self a (GIter l page j rest) w
    = mkRun (combine (map ks_key rest) rows) GDone w (Some (Ok tt)).
Proof.
  intros Hrow Hshort rest rows l j w Hi H. revert l j Hi.
  induction H as [|ks row rest rows Hks _ IH]; intros l j Hi.
  - cbn [List.length Nat.mul Nat.add].
    erewrite run_return by (apply step_short_page; exact Hshort). reflexivity.
  - replace (2 * List.length (ks :: rest) + 1)%nat
      with (S (S (2 * List.length rest + 1))) by (cbn [List.length]; lia).
    erewrite run_yield by (apply step_emit; [right; exact Hi|exact Hks]).
    erewrite run_silent by (apply step_resume; exact Hrow).
    cbv zeta. rewrite IH by exact Hi. reflexivity.
Qed.

(** X8.  Without a row limit, when the first page is not exactly
    [buffer_size] rows long (an empty page included), [get_range] yields
    the rows of that page in order, each key with its converted row, and
    stops; one request has been sent. *)
Theorem get_range_short_first_page (self : ColumnFamily) (a : RangeArgs)
    (w w1 : World) (cp : ColumnParent) (sp : SlicePredicate)
    (page : list KeySlice) (rows : list Row) :
  ra_row_count a = None ->
  slice_query self (ra_columns a) (ra_column_start a) (ra_column_finish a)
    (ra_column_reversed a) (ra_column_count a) (ra_super_column a) w
  = (Ok (cp, sp), w1) ->
  let request :=
    Rpc_get_range_slices cp sp
      (mkKeyRange (ra_start a) (ra_finish a) (buffer_size self))
      (_rcl self (ra_read_consistency_level a)) in
  client_get_range_slices (client self) (rpcs w) cp sp
    (mkKeyRange (ra_start a) (ra_finish a) (buffer_size self))
    (_rcl self (ra_read_consistency_level a)) = Ok (Some page) ->
  Z.of_nat (List.length page) <> buffer_size self ->
  Forall2 (fun ks row =>
             _convert_ColumnOrSuperColumns_to_dict_class self (ks_columns ks)
               (ra_include_timestamp a) = Ok row) page rows ->
  forall fuel, (2 * List.length page + 3 <= fuel)%nat ->
  let r := get_range_run fuel self a (get_range self a) w in
  run_items r = combine (map ks_key page) rows
  /\ run_end r = Some (Ok tt)
  /\ rpcs (run_world r) = rpcs w ++ [request].
Proof.
  intros Hrow Hq request Hreply Hshort Hrows fuel Hfuel.
  pose proof (@offline_slice_query self (ra_columns a) (ra_column_start a)
                (ra_column_finish a) (ra_column_reversed a) (ra_column_count a)
                (ra_super_column a) w) as Ho.
  rewrite Hq in Ho. cbn [snd] in Ho.
  pose proof Hreply as Hreply'. rewrite <- Ho in Hreply'.
  assert (E : get_range_run (2 * List.length page + 3) self a (get_range self a) w
              = mkRun (combine (map ks_key page) rows) GDone
                  (mkWorld (rpcs w1 ++ [request]) (clock_reads w1) (rand_reads w1)
                     (getrandbits w1))
                  (Some (Ok tt))).
  { replace (2 * List.length page + 3)%nat
      with (S (S (2 * List.length page + 1))) by lia.
    unfold get_range.
    erewrite run_silent
      by (cbn [get_range_step]; unfold bindM; rewrite Hq, Hrow; reflexivity).
    erewrite run_silent
      by (cbn [get_range_step l_cp l_sp l_last_key l_buffer_size];
          unfold bindM, call; rewrite Hreply'; reflexivity).
    apply run_last_page; auto. }
  replace fuel with ((2 * List.length page + 3) + (fuel - (2 * List.length page + 3)))%nat
    by lia.
  cbv zeta. erewrite run_more_fuel by (rewrite E; reflexivity).
  rewrite E. cbn [run_items run_end run_world rpcs]. rewrite Ho. auto.
Qed.

(** * The row limit *)

Section RowLimit.
Variable self : ColumnFamily.
Variable a : RangeArgs.
Variable row_count : Z.
Hypothesis Hrow : ra_row_count a = Some row_count.

Lemma step_row_limit (g : Gen) (w : World) :
  below_limit row_count g ->
  0 <= row_budget row_count g
  /\ match get_range_step self a g w with
     | (Ok (Silent, g'), _) =>
         below_limit row_count g' /\ row_budget row_count g' <= row_budget row_count g
     | (Ok (Yield _, g'), _) =>
         below_limit row_count g'
         /\ row_budget row_count g' + 1 <= row_budget row_count g
     | _ => True
     end.
Proof.
  destruct g as [|l|l page j rest|l page j rest|];
    cbn [get_range_step row_budget below_limit]; intros Hg.
  - split; [lia|]. unfold bindM.
    destruct (slice_query _ _ _ _ _ _ _ w) as [[[cp sp]|e] w1]; [|exact I].
    cbn. split; [auto|lia].
  - split; [lia|]. unfold bindM, call.
    destruct (client_get_range_slices _ _ _ _ _ _) as [[ks|]|e]; cbn; auto.
    split; [exact Hg|lia].
  - split; [lia|]. destruct rest as [|ks rest].
    + destruct (negb _); cbn; [exact I|].
      destruct (last (map Some page) None); cbn; [|exact I].
      split; [exact Hg|lia].
    + destruct ((j =? 0) && negb (l_i l =? 0)); cbn.
      * split; [exact Hg|lia].
      * unfold bindM, lift.
        destruct (_convert_ColumnOrSuperColumns_to_dict_class _ _ _); cbn;
          [|exact I].
        split; [exact Hg|lia].
  - split; [lia|]. rewrite Hrow.
    destruct (Z.leb_spec row_count (l_count l + 1)); cbn; [exact I|].
    split; [right; lia|lia].
  - split; [lia|exact I].
Qed.

Lemma run_row_limit (fuel : nat) (g : Gen) (w : World) :
  below_limit row_count g ->
  Z.of_nat (List.length (run_items (get_range_run fuel self a g w)))
  <= row_budget row_count g.
Proof.
  revert g w. induction fuel as [|fuel IH]; intros g w Hg.
  - destruct (@step_row_limit g w Hg) as [H0 _]. simpl. exact H0.
  - destruct (@step_row_limit g w Hg) as [H0 Hs]. cbn [get_range_run].
    destruct (get_range_step self a g w) as [[[[|item|] g']|e] w'];
      cbn [run_items List.length]; try lia.
    + destruct Hs as [Hg' Hb]. specialize (IH g' w' Hg'). lia.
    + destruct Hs as [Hg' Hb]. specialize (IH g' w' Hg'). lia.
Qed.

(** X9.  With a row limit, [get_range] never yields more rows than the
    limit, whatever the remote answers and however long it is consumed;
    a limit below one still lets one row through. *)
Theorem get_range_row_count_limit (fuel : nat) (w : World) :
  Z.of_nat (List.length
              (run_items (get_range_run fuel self a (get_range self a) w)))
  <= Z.max 1 row_count.
Proof. apply (@run_row_limit fuel GStart w). exact I. Qed.
End RowLimit.

(** * The requests of a scan *)

Section Requests.
Variable self : ColumnFamily.
Variable a : RangeArgs.
Variable cp : ColumnParent.
Variable sp : SlicePredicate.

Lemma step_same_query (g : Gen) (w : World) :
  same_query self a cp sp g ->
  exists new,
    rpcs (snd (get_range_step self a g w))
    = rpcs w ++ map (page_request self a cp sp) new
    /\ (forall l, g = GFetch l -> new = [l_last_key l])
    /\ match fst (get_range_step self a g w) with
       | Ok (_, g') => same_query self a cp sp g'
       | Raise _ => True
       end.
Proof.
  destruct g as [|l|l page j rest|l page j rest|];
    cbn [get_range_step same_query]; intros Hg; try contradiction.
  - destruct Hg as (Hcp & Hsp & Hbs). exists [l_last_key l].
    unfold bindM, call. cbn [snd rpcs map].
    split; [|split].
    + destruct (client_get_range_slices _ _ _ _ _ _) as [[ks|]|e];
        cbn [snd rpcs]; unfold page_request; rewrite Hcp, Hsp, Hbs; reflexivity.
    + intros ? [= <-]. reflexivity.
    + destruct (client_get_range_slices _ _ _ _ _ _) as [[ks|]|e];
        cbn; auto.
  - exists []. cbn [map]. rewrite app_nil_r.
    destruct rest as [|ks rest].
    + destruct (negb _); cbn; [repeat split; discriminate|].
      destruct (last (map Some page) None); cbn;
        repeat split; auto; try discriminate; apply Hg.
    + destruct ((j =? 0) && negb (l_i l =? 0)); cbn;
        [repeat split; auto; try discriminate; apply Hg|].
      unfold bindM, lift.
      destruct (_convert_ColumnOrSuperColumns_to_dict_class _ _ _); cbn;
        repeat split; auto; try discriminate; apply Hg.
  - exists []. cbn [map]. rewrite app_nil_r.
    destruct (ra_row_count a) as [n|]; [destruct (n <=? l_count l + 1)|];
      cbn; repeat split; auto; try discriminate; apply Hg.
  - exists []. cbn. rewrite app_nil_r. repeat split; auto; discriminate.
Qed.

Lemma run_same_query (fuel : nat) (g : Gen) (w : World) :
  same_query self a cp sp g ->
  exists new,
    rpcs (run_world (get_range_run fuel self a g w))
    = rpcs w ++ map (page_request self a cp sp) new
    /\ (forall l, g = GFetch l -> (0 < fuel)%nat ->
                  exists more, new = l_last_key l :: more).
Proof.
  revert g w. induction fuel as [|fuel IH]; intros g w Hg.
  - exists []. cbn. rewrite app_nil_r. split; [reflexivity|]. intros; lia.
  - destruct (@step_same_query g w Hg) as (new & Hnew & Hhead & Hnext).
    cbn [get_range_run].
    destruct (get_range_step self a g w) as [[[[|item|] g']|e] w'];
      cbn [fst snd] in *.
    + destruct (IH g' w' Hnext) as (more & Hmore & _).
      exists (new ++ more). rewrite Hmore, Hnew, map_app, app_assoc.
      split; [reflexivity|]. intros l Hl _.
      rewrite (Hhead l Hl). cbn [app]. eauto.
    + destruct (IH g' w' Hnext) as (more & Hmore & _).
      exists (new ++ more). cbn [run_world].
      rewrite Hmore, Hnew, map_app, app_assoc.
      split; [reflexivity|]. intros l Hl _.
      rewrite (Hhead l Hl). cbn [app]. eauto.
    + exists new. cbn [run_world]. split; [exact Hnew|].
      intros l Hl _. rewrite (Hhead l Hl). exists []. reflexivity.
    + exists new. cbn [run_world]. split; [exact Hnew|].
      intros l Hl _. rewrite (Hhead l Hl). exists []. reflexivity.
Qed.
End Requests.

(** X10.  Whatever the remote answers, a scan sends nothing but page
    requests, all on the handle's column family with one and the same
    predicate, the caller's end key and consistency level, and the page
    size of the scan; the first one starts at the caller's start key. *)
Theorem get_range_requests_one_query (self : ColumnFamily) (a : RangeArgs)
    (fuel : nat) (w : World) :
  let r := get_range_run fuel self a (get_range self a) w in
  exists cp sp starts,
    rpcs (run_world r) = rpcs w ++ map (page_request self a cp sp) starts
    /\ cp_column_family cp = column_family self
    /\ match starts with
       | [] => True
       | first :: _ => first = ra_start a
       end.
Proof.
  cbv zeta. unfold get_range.
  destruct fuel as [|fuel].
  { exists (mkColumnParent (column_family self) PyNone),
           (mkSlicePredicate None None), [].
    cbn. rewrite app_nil_r. auto. }
  cbn [get_range_run get_range_step]. unfold bindM at 1.
  pose proof (@offline_slice_query self (ra_columns a) (ra_column_start a)
                (ra_column_finish a) (ra_column_reversed a) (ra_column_count a)
                (ra_super_column a) w) as Ho.
  destruct (slice_query self (ra_columns a) (ra_column_start a)
              (ra_column_finish a) (ra_column_reversed a) (ra_column_count a)
              (ra_super_column a) w) as [[[cp sp]|e] w1] eqn:Hq;
    cbn [snd] in Ho.
  - destruct (@slice_query_parent _ _ _ _ _ _ _ _ _ _ _ Hq) as (_ & Hcp & _).
    cbn [ret].
    destruct (@run_same_query self a cp sp fuel
                (GFetch (mkLocals cp sp 0 0 (ra_start a)
                           match ra_row_count a with
                           | Some row_count => Z.min row_count (buffer_size self)
                           | None => buffer_size self
                           end)) w1)
      as (new & Hnew & Hhead).
    { cbn. auto. }
    exists cp, sp, new. rewrite Hnew, Ho. split; [reflexivity|].
    split; [exact Hcp|].
    destruct fuel as [|fuel].
    + cbn in Hnew. destruct new; [exact I|].
      apply (f_equal (@List.length Rpc)) in Hnew.
      rewrite length_app in Hnew. cbn in Hnew. lia.
    + destruct (Hhead _ eq_refl ltac:(lia)) as (more & ->). reflexivity.
  - exists (mkColumnParent (column_family self) PyNone),
           (mkSlicePredicate None None), [].
    cbn. rewrite app_nil_r. auto.
Qed.

(** * A page size of one *)

Section PageSizeOne.
Variable self : ColumnFamily.
Variable a : RangeArgs.
Variable cp : ColumnParent.
Variable sp : SlicePredicate.
Variable ks : KeySlice.
Hypothesis Hone : buffer_size self = 1.
Hypothesis Hrow : ra_row_count a = None.
Hypothesis Hpage :
  forall h k, k = ra_start a \/ k = ks_key ks ->
    client_get_range_slices (client self) h cp sp
      (mkKeyRange k (ra_finish a) 1) (_rcl self (ra_read_consistency_level a))
    = Ok (Some [ks]).

Lemma turn_fetch (l : Locals) (w : World) :
  turning cp sp l -> l_last_key l = ra_start a \/ l_last_key l = ks_key ks ->
  get_range_step self a (GFetch l) w
  = (Ok (Silent, GIter l [ks] 0 [ks]),
     mkWorld (rpcs w ++ [Rpc_get_range_slices cp sp
                           (mkKeyRange (l_last_key l) (ra_finish a) 1)
                           (_rcl self (ra_read_consistency_level a))])
       (clock_reads w) (rand_reads w) (getrandbits w)).
Proof.
  intros (Hcp & Hsp & Hbs & _) Hk. cbn [get_range_step].
  unfold bindM, call. rewrite Hcp, Hsp, Hbs, Hpage by exact Hk. reflexivity.
Qed.

Lemma turn_next (l : Locals) (j : Z) (w : World) :
  get_range_step self a (GIter l [ks] j []) w
  = (Ok (Silent,
         GFetch (mkLocals (l_cp l) (l_sp l) (l_count l) (l_i l + 1)
                   (ks_key ks) (l_buffer_size l))), w).
Proof. apply step_next_page; [rewrite Hone|]; reflexivity. Qed.

Lemma turns (fuel : nat) :
  forall (l : Locals) (w : World),
    turning cp sp l ->
    (0 < l_i l -> l_last_key l = ks_key ks ->
     let r := get_range_run fuel self a (GFetch l) w in
     run_end r = None /\ run_items r = []
     /\ (fuel + 3 * List.length (rpcs w) <= 3 * List.length (rpcs (run_world r)))%nat)
    /\ (0 < l_i l ->
        let r := get_range_run fuel self a (GIter l [ks] 0 [ks]) w in
        run_end r = None /\ run_items r = []
        /\ (fuel + 3 * List.length (rpcs w)
            <= 3 * List.length (rpcs (run_world r)) + 2)%nat)
    /\ (forall j,
        let r := get_range_run fuel self a (GIter l [ks] j []) w in
        run_end r = None /\ run_items r = []
        /\ (fuel + 3 * List.length (rpcs w)
            <= 3 * List.length (rpcs (run_world r)) + 1)%nat).
Proof.
  induction fuel as [|fuel IH]; intros l w Hl.
  - cbn. repeat split; lia.
  - split; [|split].
    + intros Hi Hk. cbv zeta.
      erewrite run_silent by (apply turn_fetch; auto).
      destruct (IH l (mkWorld (rpcs w ++ [Rpc_get_range_slices cp sp
                                  (mkKeyRange (l_last_key l) (ra_finish a) 1)
                                  (_rcl self (ra_read_consistency_level a))])
                        (clock_reads w) (rand_reads w) (getrandbits w)) Hl)
        as (_ & H & _).
      destruct (H Hi) as (H1 & H2 & H3). cbn [rpcs] in H3.
      rewrite length_app in H3. cbn [List.length] in H3.
      repeat split; auto; lia.
    + intros Hi. cbv zeta.
      erewrite run_silent by (apply step_skip; lia).
      destruct (IH l w Hl) as (_ & _ & H).
      destruct (H 1) as (H1 & H2 & H3). repeat split; auto; lia.
    + intros j. cbv zeta. erewrite run_silent by apply turn_next.
      destruct Hl as (Hcp & Hsp & Hbs & Hi).
      destruct (IH (mkLocals (l_cp l) (l_sp l) (l_count l) (l_i l + 1)
                      (ks_key ks) (l_buffer_size l)) w) as (H & _).
      { unfold turning. cbn. repeat split; auto; lia. }
      destruct H as (H1 & H2 & H3); [cbn; lia|reflexivity|].
      repeat split; auto; lia.
Qed.

(** X11.  With a [buffer_size] of one and no row limit, a scan that
    finds a row never ends: every page is the full page that holds the
    row it starts at, which is passed over.  The generator yields the
    first row and then goes on sending requests, at least one for every
    three pieces of its body, without yielding or stopping. *)
Theorem get_range_page_size_one_never_ends (row : Row) (w w1 : World)
    (fuel : nat) :
  slice_query self (ra_columns a) (ra_column_start a) (ra_column_finish a)
    (ra_column_reversed a) (ra_column_count a) (ra_super_column a) w
  = (Ok (cp, sp), w1) ->
  _convert_ColumnOrSuperColumns_to_dict_class self (ks_columns ks)
    (ra_include_timestamp a) = Ok row ->
  let r := get_range_run fuel self a (get_range self a) w in
  run_end r = None
  /\ (3 <= fuel -> run_items r = [(ks_key ks, row)])%nat
  /\ (fuel + 3 * List.length (rpcs w)
      <= 3 * List.length (rpcs (run_world r)) + 2)%nat.
Proof.
  intros Hq Hconv. cbv zeta. unfold get_range.
  pose proof (@offline_slice_query self (ra_columns a) (ra_column_start a)
                (ra_column_finish a) (ra_column_reversed a) (ra_column_count a)
                (ra_super_column a) w) as Ho.
  rewrite Hq in Ho. cbn [snd] in Ho.
  destruct fuel as [|fuel]; [cbn; repeat split; lia|].
  erewrite run_silent
    by (cbn [get_range_step]; unfold bindM; rewrite Hq, Hrow; reflexivity).
  set (l0 := mkLocals cp sp 0 0 (ra_start a) (buffer_size self)).
  assert (Hl0 : turning cp sp l0) by (unfold turning; cbn; repeat split; auto; lia).
  destruct fuel as [|fuel];
    [cbn [get_range_run run_end run_items run_world]; rewrite Ho;
     repeat split; lia|].
  erewrite run_silent by (apply turn_fetch; [exact Hl0|left; reflexivity]).
  destruct fuel as [|fuel];
    [cbn [get_range_run run_end run_items run_world rpcs];
     rewrite length_app, Ho; cbn [List.length]; repeat split; lia|].
  erewrite run_yield by (apply step_emit; [right; reflexivity|exact Hconv]).
  cbv zeta. cbn [run_end run_items run_world].
  destruct fuel as [|fuel];
    [cbn [get_range_run run_end run_items run_world rpcs];
     rewrite length_app, Ho; cbn [List.length]; repeat split; lia|].
  erewrite run_silent by (apply step_resume; exact Hrow).
  match goal with
  | |- context [get_range_run fuel self a (GIter ?l [ks] ?j []) ?w'] =>
      destruct (@turns fuel l w') as (_ & _ & H);
        [unfold turning; cbn; repeat split; auto; lia|];
        destruct (H j) as (H1 & H2 & H3)
  end.
  cbn [rpcs] in H3. rewrite length_app in H3. cbn [List.length] in H3.
  rewrite H1, H2, <- Ho. split; [reflexivity|]. split; [intros _; reflexivity|lia].
Qed.
End PageSizeOne.

(** * The handle's types *)

Lemma extract_type_name_known (declared : option string) :
  In (_extract_type_name declared) _TYPES.
Proof.
  unfold _extract_type_name. destruct declared as [name|]; [|simpl; auto].
  destruct (rfind "." name =? -1); [simpl; auto|].
  destruct (in_types _) eqn:E; [apply in_types_sound, E|simpl; auto].
Qed.

Lemma dict_set_values (V : Type) (P : V -> Prop) (k : pyval) (v : V) (d : dict V) :
  P v -> Forall (fun item => P (snd item)) d ->
  Forall (fun item => P (snd item)) (dict_set k v d).
Proof.
  intros Hv Hd. induction Hd as [|[k' v'] d Hx Hd IH]; cbn [dict_set].
  - constructor; [exact Hv|constructor].
  - destruct (pyval_eqb k k'); constructor; auto.
Qed.

Lemma dict_get_values (V : Type) (P : V -> Prop) (k : pyval) (v : V) (d : dict V) :
  Forall (fun item => P (snd item)) d -> dict_get k d = Some v -> P v.
Proof.
  induction 1 as [|[k' v'] d Hx Hd IH]; cbn [dict_get]; [discriminate|].
  destruct (pyval_eqb k k'); [intros [= <-]; exact Hx|exact IH].
Qed.

Lemma metadata_types (l : list (pyval * ColumnDef)) (d0 : dict string) :
  Forall (fun item => In (snd item) _TYPES) d0 ->
  Forall (fun item => In (snd item) _TYPES)
    (fold_left (fun d e => dict_set (fst e)
                             (_extract_type_name (validation_class (snd e))) d)
       l d0).
Proof.
  revert d0. induction l as [|e l IH]; intros d0 Hd0; [exact Hd0|].
  cbn [fold_left]. apply IH.
  apply (@dict_set_values string (fun t => In t _TYPES));
    [apply extract_type_name_known|exact Hd0].
Qed.

(** X12.  The constructor fails, with [NotFoundException], exactly when
    the keyspace does not list the column family.  Every type the handle
    then holds or looks up for a column is a name of the closed set or
    none; with [autopack_names] off names pass through unchanged, with
    [autopack_values] off values do. *)
Theorem init_resolves_types (client : Client) (column_family : string)
    (buffer_size read_cl write_cl : Z) (timestamp : nat -> Z)
    (super autopack_names autopack_values : bool) :
  match ColumnFamily_init client column_family buffer_size read_cl write_cl
          timestamp super autopack_names autopack_values with
  | Raise e =>
      e = NotFoundException
      /\ forall col_fam,
           ~ In (column_family, col_fam) (get_keyspace_description client)
  | Ok self =>
      (exists col_fam,
         In (column_family, col_fam) (get_keyspace_description client))
      /\ known_type (col_name_data_type self)
      /\ known_type (supercol_name_data_type self)
      /\ (forall col_name, known_type (_get_data_type_for_col self col_name))
      /\ (autopack_names = false ->
          forall value is_supercol_name,
            _unpack_name self value is_supercol_name = Ok value
            /\ forall slice_end w,
                 _pack_name self value is_supercol_name slice_end w
                 = (Ok value, w))
      /\ (autopack_values = false ->
          forall value col_name,
            _pack_value self value col_name = Ok value
            /\ _unpack_value self value col_name = Ok value)
  end.
Proof.
  unfold ColumnFamily_init.
  destruct (find _ _) as [[name col_fam]|] eqn:E.
  - cbv beta iota zeta. apply find_some in E as [Hin Hname]. cbn [fst] in Hname.
    apply String.eqb_eq in Hname. subst name.
    split; [eauto|].
    split; [cbn [col_name_data_type]; destruct autopack_names;
            cbn [known_type]; auto using extract_type_name_known|].
    split; [cbn [supercol_name_data_type]; destruct autopack_names, super;
            cbn [known_type negb]; auto using extract_type_name_known|].
    split; [|split].
    + intros col_name. unfold _get_data_type_for_col.
      cbn [col_type_dict cf_data_type].
      destruct (negb _).
      * destruct autopack_values; cbn [known_type];
          auto using extract_type_name_known.
      * destruct (dict_get col_name _) as [t|] eqn:Et; [|exact I].
        cbn [known_type]. destruct autopack_values; [|discriminate Et].
        eapply (@dict_get_values string (fun t => In t _TYPES)); [|exact Et].
        apply metadata_types. constructor.
    + intros ->. unfold _unpack_name, _pack_name. cbn. auto.
    + intros ->. unfold _pack_value, _unpack_value. cbn. auto.
  - split; [reflexivity|]. intros col_fam Hin.
    apply (find_none _ _ E) in Hin. cbn [fst] in Hin.
    rewrite String.eqb_refl in Hin. discriminate.
Qed.

(** * Writes with a given timestamp *)

(** X13.  [insert] sends the one row stamped with the timestamp it is
    given and returns it, without reading the handle's timestamp
    function; only when none is given is the function read, once. *)
Theorem insert_keeps_given_timestamp (self : ColumnFamily) (key : pyval)
    (columns : ColumnsArg) (given : option Z) (ttl : option Z)
    (write_consistency_level : option Z) (w : World) :
  (forall h ms cl, client_batch_mutate (client self) h ms cl = Ok tt) ->
  let t := match given with
           | Some t => t
           | None => timestamp self (clock_reads w)
           end in
  let out := insert self key columns given ttl write_consistency_level w in
  fst out = Ok t
  /\ clock_reads (snd out)
     = match given with
       | Some _ => clock_reads w
       | None => S (clock_reads w)
       end
  /\ sent_insertions (rpcs (snd out))
     = sent_insertions (rpcs w) ++ [mkInsertion key columns t ttl].
Proof.
  intros Hok.
  assert (Hsend : forall t w1,
            exists w',
              CfMutator_send
                (fold_left
                   (fun b row => CfMutator_insert b (fst row) (snd row) t ttl)
                   [(key, columns)] (batch self 100 write_consistency_level)) w1
              = (Ok (mkCfMutator self 100
                       (m_write_consistency_level
                          (batch self 100 write_consistency_level)) []), w')
              /\ clock_reads w' = clock_reads w1
              /\ sent_insertions (rpcs w')
                 = sent_insertions (rpcs w1) ++ [mkInsertion key columns t ttl]).
  { intros t w1. set (b0 := batch self 100 write_consistency_level).
    destruct (staged_after_inserts [(key, columns)] t ttl b0) as (E1 & E2 & E3 & E4).
    cbv zeta in E1, E2, E3, E4.
    set (b1 := fold_left _ [(key, columns)] b0) in *.
    unfold CfMutator_send. rewrite E1, E2, E3, E4.
    set (batches := chunks _ _ _).
    destruct (@send_batches (client self) (m_write_consistency_level b0) batches
                w1 Hok) as (units & w' & E & C & S).
    exists w'. unfold bindM. cbn [m_column_family m_queue_size b0 batch] in *.
    rewrite E. unfold ret. split; [reflexivity|]. split; [exact C|].
    rewrite S. subst batches. rewrite chunks_concat. reflexivity. }
  destruct given as [t0|]; cbv zeta.
  - destruct (insert self key columns (Some t0) ttl write_consistency_level w)
      as [r wz] eqn:Eout.
    cbn [fst snd]. revert Eout.
    unfold insert, batch_insert. unfold bindM at 1. unfold ret at 1.
    destruct (Hsend t0 w) as (w' & E & C & S).
    unfold bindM. rewrite E. unfold ret. intros [= <- <-]. auto.
  - destruct (insert self key columns None ttl write_consistency_level w)
      as [r wz] eqn:Eout.
    cbn [fst snd]. revert Eout.
    unfold insert, batch_insert. unfold bindM at 1. unfold read_timestamp at 1.
    match goal with
    | |- context [mkWorld ?a ?b ?c ?d] =>
        destruct (Hsend (timestamp self (clock_reads w)) (mkWorld a b c d))
          as (w' & E & C & S)
    end.
    unfold bindM. rewrite E. unfold ret. intros [= <- <-].
    cbn [clock_reads rpcs] in C, S. auto.
Qed.

(** * The clause of an indexed request *)

Lemma mapMM_inv (A B : Type) (f : A -> M B) (l : list A) (w w' : World)
    (r : list B) :
  mapMM f l w = (Ok r, w') ->
  Forall2 (fun x y => exists wa wb, f x wa = (Ok y, wb)) l r.
Proof.
  revert w r. induction l as [|x l IH]; intros w r.
  - cbn. unfold ret. intros [= <- <-]. constructor.
  - cbn [mapMM]. unfold bindM at 1.
    destruct (f x w) as [[y|e] w1] eqn:Ex; [|discriminate].
    unfold bindM at 1.
    destruct (mapMM f l w1) as [[ys|e] w2] eqn:El; [|discriminate].
    unfold ret. intros [= <- <-]. constructor; [eauto|]. eapply IH, El.
Qed.

(** X16.  [get_indexed_slices] either fails before anything is sent, or
    sends exactly one request whose clause has the caller's start key and
    count and, expression by expression, the caller's operator, the
    packed column name, and the value packed under the type looked up
    for the name as the caller gave it. *)
Theorem indexed_slices_clause_preserved (self : ColumnFamily)
    (index_clause : IndexClause) (columns : option (list pyval))
    (column_start column_finish : pyval) (column_reversed : bool)
    (column_count : Z) (include_timestamp : bool) (super_column : pyval)
    (read_consistency_level : option Z) (w : World) :
  let out := get_indexed_slices self index_clause columns column_start
               column_finish column_reversed column_count include_timestamp
               super_column read_consistency_level w in
  (exists e, fst out = Raise e /\ rpcs (snd out) = rpcs w)
  \/ (exists cp sp sent,
        rpcs (snd out)
        = rpcs w ++ [Rpc_get_indexed_slices cp sent sp
                       (_rcl self read_consistency_level)]
        /\ ic_start_key sent = ic_start_key index_clause
        /\ ic_count sent = ic_count index_clause
        /\ Forall2
             (fun given packed =>
                ie_op packed = ie_op given
                /\ (exists wa wb,
                      _pack_name self (ie_column_name given) false _NON_SLICE wa
                      = (Ok (ie_column_name packed), wb))
                /\ _pack_value self (ie_value given) (ie_column_name given)
                   = Ok (ie_value packed))
             (expressions index_clause) (expressions sent)).
Proof.
  cbv zeta.
  pose proof (@offline_slice_query self columns column_start column_finish
                column_reversed column_count super_column w) as Ho.
  destruct (get_indexed_slices self index_clause columns column_start
              column_finish column_reversed column_count include_timestamp
              super_column read_consistency_level w) as [r w'] eqn:E.
  cbn [fst snd]. unfold get_indexed_slices in E. unfold bindM at 1 in E.
  destruct (slice_query self columns column_start column_finish column_reversed
              column_count super_column w) as [[[cp sp]|e] w1];
    cbn [snd] in Ho;
    [|injection E as <- <-; left; exists e; split; [reflexivity|exact Ho]].
  unfold bindM at 1 in E.
  pose proof (@offline_mapMM _ _ (pack_expression self)
                (expressions index_clause)
                (offline_pack_expression self) w1) as He.
  destruct (mapMM (pack_expression self) (expressions index_clause) w1)
    as [[exprs|e] w2] eqn:Em; cbn [snd] in He;
    [|injection E as <- <-; left; exists e; split; [reflexivity|congruence]].
  right.
  exists cp, sp,
    (mkIndexClause exprs (ic_start_key index_clause) (ic_count index_clause)).
  split; [|split; [reflexivity|split; [reflexivity|]]].
  - unfold bindM, call in E.
    destruct (client_get_indexed_slices _ _ _ _ _ _) as [l|e'].
    + destruct (Nat.eqb (List.length l) 0); injection E as <- <-;
        cbn [rpcs]; rewrite He, Ho; reflexivity.
    + injection E as <- <-. cbn [rpcs]. rewrite He, Ho. reflexivity.
  - cbn [expressions]. apply mapMM_inv in Em.
    eapply Forall2_impl; [|exact Em].
    intros given packed (wa & wb & Hp). unfold pack_expression in Hp.
    unfold bindM at 1 in Hp.
    destruct (_pack_name self (ie_column_name given) false _NON_SLICE wa)
      as [[n|e] wn] eqn:En; [|discriminate].
    unfold bindM, lift in Hp.
    destruct (_pack_value self (ie_value given) (ie_column_name given))
      as [v|e]; [|discriminate].
    unfold ret in Hp. injection Hp as <- <-. cbn. eauto.
Qed.

(** * Names and values read from the store *)



(** * Rows of an indexed reply *)

Lemma rows_fold (self : ColumnFamily) (include_timestamp : bool)
    (l done : list KeySlice) (d0 d : dict Row) :
  NoDup (map ks_key (done ++ l)) ->
  Forall2 (row_entry self include_timestamp) done d0 ->
  fold_left
    (fun acc keyslice =>
       ret <- acc ;;
       v <- _convert_ColumnOrSuperColumns_to_dict_class self
              (ks_columns keyslice) include_timestamp ;;
       Ok (dict_set (ks_key keyslice) v ret))
    l (Ok d0) = Ok d ->
  Forall2 (row_entry self include_timestamp) (done ++ l) d.
Proof.
  revert done d0. induction l as [|ks l IH]; intros done d0 Hnd Hdone.
  - simpl. intros [= <-]. rewrite app_nil_r. exact Hdone.
  - cbn [fold_left bind].
    destruct (_convert_ColumnOrSuperColumns_to_dict_class self (ks_columns ks)
                include_timestamp) as [v|e] eqn:Ev;
      cbn [bind]; [|rewrite fold_raise by reflexivity; discriminate].
    assert (Hnew : ~ In (ks_key ks) (dict_keys d0)).
    { intros Hin. unfold dict_keys in Hin.
      apply in_map_iff in Hin as (item & Hk & Hitem).
      destruct (@forall2_in_r _ _ _ _ _ item Hdone Hitem) as (ks' & Hks' & [Hf _]).
      rewrite map_app in Hnd. cbn [map] in Hnd.
      apply NoDup_remove_2 in Hnd. apply Hnd, in_or_app. left.
      rewrite <- Hk, Hf. apply in_map, Hks'. }
    rewrite dict_set_new by exact Hnew.
    intros Hfold.
    replace (done ++ ks :: l) with ((done ++ [ks]) ++ l)
      by (rewrite <- app_assoc; reflexivity).
    apply IH with (d0 := d0 ++ [(ks_key ks, v)]); [| |exact Hfold].
    + rewrite <- app_assoc. exact Hnd.
    + apply Forall2_app; [exact Hdone|]. constructor; [|constructor].
      split; [reflexivity|exact Ev].
Qed.

Lemma rows_lookup (self : ColumnFamily) (include_timestamp : bool)
    (l : list KeySlice) (rows : dict Row) :
  Forall2 (row_entry self include_timestamp) l rows ->
  NoDup (map ks_key l) ->
  forall keyslice, In keyslice l ->
    exists row,
      _convert_ColumnOrSuperColumns_to_dict_class self (ks_columns keyslice)
        include_timestamp = Ok row
      /\ dict_get (ks_key keyslice) rows = Some row.
Proof.
  induction 1 as [|ks item l rows [Hk Hrow] F IH]; intros Hnd keyslice Hin;
    [destruct Hin|].
  cbn [map] in Hnd. apply NoDup_cons_iff in Hnd as [Hfresh Hnd].
  destruct item as [k row]. cbn [fst snd] in Hk, Hrow. subst k.
  cbn [dict_get]. destruct Hin as [<-|Hin].
  - exists row. rewrite pyval_eqb_refl. auto.
  - destruct (IH Hnd keyslice Hin) as (row' & Hrow' & Hget).
    exists row'. split; [exact Hrow'|].
    replace (pyval_eqb (ks_key keyslice) (ks_key ks)) with false; [exact Hget|].
    symmetry. apply pyval_eqb_neq. intros E. apply Hfresh. rewrite <- E.
    apply in_map, Hin.
Qed.

(** X18.  Key slices whose keys are distinct byte strings are converted
    to a mapping that holds exactly the keys of the reply, each with its
    converted row.  On a handle whose [dict_class] keeps insertion order
    the items come in the order of the reply (last conjunct). *)
Theorem indexed_rows_keep_reply_order (self : ColumnFamily)
    (keyslice_list : list KeySlice) (include_timestamp : bool)
    (rows : dict Row) :
  Forall is_str (map ks_key keyslice_list) ->
  NoDup (map ks_key keyslice_list) ->
  _convert_KeySlice_list_to_dict_class self keyslice_list include_timestamp
  = Ok rows ->
  (forall k, In k (dict_keys rows) <-> In k (map ks_key keyslice_list))
  /\ NoDup (dict_keys rows)
  /\ (forall keyslice, In keyslice keyslice_list ->
        exists row,
          _convert_ColumnOrSuperColumns_to_dict_class self
            (ks_columns keyslice) include_timestamp = Ok row
          /\ dict_get (ks_key keyslice) rows = Some row)
  /\ Forall2 (row_entry self include_timestamp) keyslice_list rows.
Proof.
  intros _ Hnd H.
  assert (F : Forall2 (row_entry self include_timestamp) ([] ++ keyslice_list) rows)
    by (eapply rows_fold; [exact Hnd|constructor|exact H]).
  cbn [app] in F.
  assert (Hkeys : dict_keys rows = map ks_key keyslice_list).
  { clear -F. induction F as [|ks item l d [Hk _] _ IH]; [reflexivity|].
    cbn [dict_keys map] in *. rewrite Hk. f_equal. exact IH. }
  split; [intros k; rewrite Hkeys; reflexivity|].
  split; [rewrite Hkeys; exact Hnd|].
  split; [apply (rows_lookup F Hnd)|exact F].
Qed.

(** * The theorems at concrete inputs *)

(** [pack_unpack_roundtrip] at the integer 1 under [LongType]: the eight
    bytes [00 00 00 00 00 00 00 01] and back. *)
Lemma pack_unpack_roundtrip_witness :
  valid_for Int64 (PyInt 1) = true
  /\ exists b, _pack (PyInt 1) (Some (tag_name Int64)) = Ok b
               /\ _unpack b (Some (tag_name Int64)) = Ok (PyInt 1).
Proof.
  split; [reflexivity|].
  apply (@pack_unpack_roundtrip Int64 (PyInt 1)). reflexivity.
Defined.

(** [explicit_columns_suppress_range] at one listed column and two
    different ranges. *)
Lemma explicit_columns_suppress_range_witness :
  create_SlicePredicate (Some [PyStr "a"]) (PyStr "b") (PyStr "y") true 5
  = mkSlicePredicate (Some [PyStr "a"]) None
  /\ create_SlicePredicate (Some [PyStr "a"]) (PyStr "c") (PyStr "z") false 7
     = mkSlicePredicate (Some [PyStr "a"]) None.
Proof.
  split; apply (proj1 explicit_columns_suppress_range).
Defined.

(** [empty_columns_still_explicit] at a range that would otherwise
    apply. *)
Lemma empty_columns_still_explicit_witness :
  create_SlicePredicate (Some []) (PyStr "b") (PyStr "y") true 5
  = mkSlicePredicate (Some []) None.
Proof.
  apply (proj1 empty_columns_still_explicit).
Defined.

(** [indexed_slices_raise_not_found] on the sample store, which matches
    no indexed request. *)
Lemma indexed_slices_raise_not_found_witness :
  fst (get_indexed_slices (raw_handle abc_store 1024)
         (mkIndexClause [mkIndexExpression (PyStr "name") 0 (PyStr "none")]
            (PyStr "") 100)
         None (PyStr "") (PyStr "") false 100 false PyNone None fresh_world)
  = Raise NotFoundException
  /\ fst (multiget (raw_handle abc_store 1024) [PyStr "X"] None (PyStr "")
            (PyStr "") false 100 false PyNone None fresh_world)
     = Ok [].
Proof.
  destruct (@indexed_slices_raise_not_found (raw_handle abc_store 1024)
              (mkIndexClause [mkIndexExpression (PyStr "name") 0 (PyStr "none")]
                 (PyStr "") 100)
              None (PyStr "") (PyStr "") false 100 false PyNone None
              fresh_world fresh_world fresh_world
              (mkColumnParent "Standard1" PyNone)
              (mkSlicePredicate None
                 (Some (mkSliceRange (PyStr "") (PyStr "") false 100)))
              [mkIndexExpression (PyStr "name") 0 (PyStr "none")]
              eq_refl eq_refl)
    as (_ & Hnone & _ & _ & Hmulti).
  split; [apply Hnone; reflexivity|].
  apply (Hmulti (PyStr "X")). reflexivity.
Defined.

(** [multiget_repeated_absent_key] on the sample store, at the key [X]
    that is not stored. *)
Lemma multiget_repeated_absent_key_witness :
  fst (get (raw_handle abc_store 1024) (PyStr "X") None (PyStr "") (PyStr "")
         false 100 false PyNone None fresh_world)
  = Raise NotFoundException
  /\ fst (multiget (raw_handle abc_store 1024) [PyStr "X"] None (PyStr "")
            (PyStr "") false 100 false PyNone None fresh_world)
     = Ok []
  /\ fst (multiget (raw_handle abc_store 1024) [PyStr "X"; PyStr "X"] None
            (PyStr "") (PyStr "") false 100 false PyNone None fresh_world)
     = Raise KeyError.
Proof.
  apply (@multiget_repeated_absent_key (raw_handle abc_store 1024) (PyStr "X")
           false 100 false None fresh_world);
    intros; reflexivity.
Defined.

(** [batch_insert_single_timestamp] on two rows. *)
Lemma batch_insert_single_timestamp_witness :
  let rows := [(PyStr "A", PlainColumns [(PyStr "name", PyStr "v1")]);
               (PyStr "B", PlainColumns [(PyStr "name", PyStr "v2")])] in
  let out := batch_insert (raw_handle abc_store 1024) rows None None None
               fresh_world in
  fst out = Ok 1000
  /\ clock_reads (snd out) = 1%nat
  /\ sent_insertions (rpcs (snd out))
     = [mkInsertion (PyStr "A") (PlainColumns [(PyStr "name", PyStr "v1")])
          1000 None;
        mkInsertion (PyStr "B") (PlainColumns [(PyStr "name", PyStr "v2")])
          1000 None].
Proof.
  apply (@batch_insert_single_timestamp (raw_handle abc_store 1024)
           [(PyStr "A", PlainColumns [(PyStr "name", PyStr "v1")]);
            (PyStr "B", PlainColumns [(PyStr "name", PyStr "v2")])]
           None None fresh_world).
  intros. reflexivity.
Defined.

(** [time_uuid_bounds_ordered] at the time value 1000. *)
Lemma time_uuid_bounds_ordered_witness :
  exists s f,
    _pack_name time_uuid_handle (PyTime 1000) false _SLICE_START fresh_world
    = (Ok (PyStr s), fresh_world)
    /\ _pack_name time_uuid_handle (PyTime 1000) false _SLICE_FINISH fresh_world
       = (Ok (PyStr f), fresh_world)
    /\ s <> f
    /\ time_uuid_leb s f = true.
Proof.
  destruct (@time_uuid_bounds_ordered time_uuid_handle 1000 fresh_world
              eq_refl eq_refl ltac:(pow2_consts; lia))
    as (s & f & Hs & Hf & _ & _ & _ & Hne & Hle & _).
  exists s, f. auto.
Defined.

(** [get_range_three_rows_three_pages] on the sample store. *)
Lemma get_range_three_rows_three_pages_witness :
  let r := get_range_run 15 (raw_handle abc_store 2) default_range_args
             (get_range (raw_handle abc_store 2) default_range_args)
             fresh_world in
  run_items r = [(PyStr "A", sample_row); (PyStr "B", sample_row);
                 (PyStr "C", sample_row)]
  /\ run_end r = Some (Ok tt)
  /\ range_requests (rpcs (run_world r))
     = [mkKeyRange (PyStr "") (PyStr "") 2; mkKeyRange (PyStr "B") (PyStr "") 2;
        mkKeyRange (PyStr "C") (PyStr "") 2].
Proof.
  destruct (@get_range_three_rows_three_pages "A" "B" "C"
              [sample_column] [sample_column] [sample_column]
              (raw_handle abc_store 2) sample_row sample_row sample_row
              false false 100 None fresh_world
              eq_refl eq_refl eq_refl eq_refl eq_refl eq_refl eq_refl
              15%nat (le_n 15))
    as (H1 & H2 & H3 & _).
  auto.
Defined.

(** The scan of the three sample rows, read off the code: when the
    iteration has stopped, three page requests have been sent, not two;
    after the second one the generator has yielded all three rows and is
    still open. *)
Lemma get_range_two_pages_refuted :
  let self := raw_handle abc_store 2 in
  let stopped := get_range_run 15 self default_range_args
                   (get_range self default_range_args) fresh_world in
  let open := get_range_run 12 self default_range_args
                (get_range self default_range_args) fresh_world in
  map fst (run_items stopped) = [PyStr "A"; PyStr "B"; PyStr "C"]
  /\ run_end stopped = Some (Ok tt)
  /\ List.length (range_requests (rpcs (run_world stopped))) = 3%nat
  /\ List.length (range_requests (rpcs (run_world stopped))) <> 2%nat
  /\ map fst (run_items open) = [PyStr "A"; PyStr "B"; PyStr "C"]
  /\ List.length (range_requests (rpcs (run_world open))) = 2%nat
  /\ run_end open = None.
Proof.
  cbv zeta. vm_compute. repeat split; discriminate.
Qed.

(** [get_range_never_repeats] on the sample store in byte order. *)
Lemma get_range_never_repeats_witness :
  let r := get_range_run 40 (raw_handle abc_store 2) default_range_args
             (get_range (raw_handle abc_store 2) default_range_args)
             fresh_world in
  StronglySorted str_key_lt (map fst (run_items r))
  /\ NoDup (map fst (run_items r)).
Proof.
  destruct (@get_range_never_repeats str_key_lt str_key_lt_irrefl
              str_key_lt_trans (raw_handle abc_store 2) default_range_args
              abc_store_contract 40 fresh_world)
    as (H1 & H2 & _).
  auto.
Defined.

(** [unpack_then_pack] at the three bytes [abc] under [UTF8Type]. *)
Lemma unpack_then_pack_witness :
  _unpack (PyStr "abc") (Some "UTF8Type") = Ok (PyUnicode [97; 98; 99])
  /\ _pack (PyUnicode [97; 98; 99]) (Some "UTF8Type") = Ok (PyStr "abc").
Proof.
  split; [reflexivity|].
  apply (proj2 (@unpack_then_pack (PyStr "abc") (PyUnicode [97; 98; 99])
                  (Some "UTF8Type") eq_refl)).
  reflexivity.
Defined.

(** [converted_row_keeps_every_column] at two columns. *)
Lemma converted_row_keeps_every_column_witness :
  let cols := [mkColumn (PyStr "a") (PyStr "1") 10;
               mkColumn (PyStr "b") (PyStr "2") 11] in
  let row := [(PyStr "a", Plain (Stamped (PyStr "1") 10));
              (PyStr "b", Plain (Stamped (PyStr "2") 11))] in
  NoDup (map col_name cols)
  /\ Forall2 (column_entry (raw_handle abc_store 1024) true Plain) cols row.
Proof.
  cbv zeta.
  assert (Hnd : NoDup (map col_name [mkColumn (PyStr "a") (PyStr "1") 10;
                                     mkColumn (PyStr "b") (PyStr "2") 11])).
  { repeat constructor; simpl; intuition discriminate. }
  split; [exact Hnd|].
  destruct (@converted_row_keeps_every_column (raw_handle abc_store 1024)
              [mkColumn (PyStr "a") (PyStr "1") 10;
               mkColumn (PyStr "b") (PyStr "2") 11] true Hnd) as [H _].
  apply H. reflexivity.
Defined.

(** [multiget_keeps_keys_with_data] on the sample store: of [A], [X],
    [C] the key [X] is not stored. *)
Lemma multiget_keeps_keys_with_data_witness :
  exists ret,
    fst (multiget (raw_handle abc_store 1024) [PyStr "A"; PyStr "X"; PyStr "C"]
           None (PyStr "") (PyStr "") false 100 false PyNone None fresh_world)
    = Ok ret
    /\ NoDup (dict_keys ret)
    /\ dict_get (PyStr "C") ret = Some (Some sample_row)
    /\ dict_keys ret = [PyStr "A"; PyStr "C"].
Proof.
  destruct (@multiget_keeps_keys_with_data (raw_handle abc_store 1024)
              [PyStr "A"; PyStr "X"; PyStr "C"] None (PyStr "") (PyStr "") false
              100 false PyNone None fresh_world fresh_world
              (mkColumnParent "Standard1" PyNone)
              (mkSlicePredicate None
                 (Some (mkSliceRange (PyStr "") (PyStr "") false 100)))
              [(PyStr "A", [sample_column]); (PyStr "X", []);
               (PyStr "C", [sample_column])])
    as (ret & H1 & _ & H2 & H3 & H4).
  - reflexivity.
  - reflexivity.
  - repeat constructor; eexists; reflexivity.
  - repeat constructor; simpl; intuition discriminate.
  - repeat constructor; simpl; intuition discriminate.
  - simpl. intros e [<-|[<-|[<-|[]]]]; simpl; auto.
  - simpl. intros e [<-|[<-|[<-|[]]]] He; try discriminate He;
      exists sample_row; reflexivity.
  - exists ret. split; [exact H1|]. split; [exact H2|]. split; [|exact H4].
    apply (H3 (PyStr "C", [sample_column]) sample_row);
      [simpl; auto|reflexivity|reflexivity].
Defined.

(** [get_range_short_first_page] on the sample store with the default
    page size. *)
Lemma get_range_short_first_page_witness :
  let r := get_range_run 9 (raw_handle abc_store 1024) default_range_args
             (get_range (raw_handle abc_store 1024) default_range_args)
             fresh_world in
  run_items r = [(PyStr "A", sample_row); (PyStr "B", sample_row);
                 (PyStr "C", sample_row)]
  /\ run_end r = Some (Ok tt)
  /\ List.length (rpcs (run_world r)) = 1%nat.
Proof.
  destruct (@get_range_short_first_page (raw_handle abc_store 1024)
              default_range_args fresh_world fresh_world
              (mkColumnParent "Standard1" PyNone)
              (mkSlicePredicate None
                 (Some (mkSliceRange (PyStr "") (PyStr "") false 100)))
              abc_store [sample_row; sample_row; sample_row]
              eq_refl eq_refl eq_refl)
    with (fuel := 9%nat) as (H1 & H2 & H3).
  - discriminate.
  - repeat constructor.
  - apply le_n.
  - cbv zeta. rewrite H3. auto.
Defined.

(** [get_range_row_count_limit] on the sample store with a limit of two
    rows. *)
Lemma get_range_row_count_limit_witness :
  let a := mkRangeArgs (PyStr "") (PyStr "") None (PyStr "") (PyStr "") false
             100 (Some 2) false PyNone None in
  ra_row_count a = Some 2
  /\ Z.of_nat (List.length
                 (run_items (get_range_run 40 (raw_handle abc_store 2) a
                               (get_range (raw_handle abc_store 2) a)
                               fresh_world)))
     <= Z.max 1 2.
Proof.
  split; [reflexivity|].
  apply (@get_range_row_count_limit (raw_handle abc_store 2)
           (mkRangeArgs (PyStr "") (PyStr "") None (PyStr "") (PyStr "") false
              100 (Some 2) false PyNone None) 2 eq_refl 40 fresh_world).
Defined.

(** [get_range_page_size_one_never_ends] on the sample store: after
    thirty pieces of its body the generator has yielded [A] alone, has
    sent ten requests, and is still open. *)
Lemma get_range_page_size_one_never_ends_witness :
  let r := get_range_run 30 (raw_handle abc_store 1) default_range_args
             (get_range (raw_handle abc_store 1) default_range_args)
             fresh_world in
  run_end r = None
  /\ run_items r = [(PyStr "A", sample_row)]
  /\ (10 <= List.length (rpcs (run_world r)))%nat.
Proof.
  assert (Hpage :
            forall h k,
              k = ra_start default_range_args
              \/ k = ks_key (mkKeySlice (PyStr "A") [sample_column]) ->
              client_get_range_slices (client (raw_handle abc_store 1)) h
                (mkColumnParent "Standard1" PyNone)
                (mkSlicePredicate None
                   (Some (mkSliceRange (PyStr "") (PyStr "") false 100)))
                (mkKeyRange k (ra_finish default_range_args) 1)
                (_rcl (raw_handle abc_store 1)
                   (ra_read_consistency_level default_range_args))
              = Ok (Some [mkKeySlice (PyStr "A") [sample_column]]))
    by (intros h k [->| ->]; reflexivity).
  destruct (@get_range_page_size_one_never_ends (raw_handle abc_store 1)
              default_range_args
              (mkColumnParent "Standard1" PyNone)
              (mkSlicePredicate None
                 (Some (mkSliceRange (PyStr "") (PyStr "") false 100)))
              (mkKeySlice (PyStr "A") [sample_column])
              eq_refl eq_refl Hpage
              sample_row fresh_world fresh_world 30%nat eq_refl eq_refl)
    as (H1 & H2 & H3).
  cbv zeta. split; [exact H1|]. split; [apply H2; repeat constructor|].
  cbn [fresh_world rpcs List.length] in H3. lia.
Defined.

(** [insert_keeps_given_timestamp] at the timestamp 42. *)
Lemma insert_keeps_given_timestamp_witness :
  let out := insert (raw_handle abc_store 1024) (PyStr "A")
               (PlainColumns [(PyStr "name", PyStr "v1")]) (Some 42) None None
               fresh_world in
  fst out = Ok 42
  /\ clock_reads (snd out) = 0%nat
  /\ sent_insertions (rpcs (snd out))
     = [mkInsertion (PyStr "A") (PlainColumns [(PyStr "name", PyStr "v1")])
          42 None].
Proof.
  apply (@insert_keeps_given_timestamp (raw_handle abc_store 1024) (PyStr "A")
           (PlainColumns [(PyStr "name", PyStr "v1")]) (Some 42) None None
           fresh_world).
  intros. reflexivity.
Defined.

(** [indexed_rows_keep_reply_order] on the rows of the sample store. *)
Lemma indexed_rows_keep_reply_order_witness :
  let rows := [(PyStr "A", sample_row); (PyStr "B", sample_row);
               (PyStr "C", sample_row)] in
  Forall is_str (map ks_key abc_store)
  /\ NoDup (map ks_key abc_store)
  /\ NoDup (dict_keys rows)
  /\ dict_get (PyStr "B") rows = Some sample_row
  /\ Forall2 (row_entry (raw_handle abc_store 1024) false) abc_store rows.
Proof.
  assert (Hstr : Forall is_str (map ks_key abc_store))
    by (repeat constructor; eexists; reflexivity).
  assert (Hnd : NoDup (map ks_key abc_store))
    by (repeat constructor; simpl; intuition discriminate).
  destruct (@indexed_rows_keep_reply_order (raw_handle abc_store 1024) abc_store
              false _ Hstr Hnd eq_refl) as (_ & H2 & _ & H4).
  cbv zeta. repeat split; auto.
Defined.

(** [Int64_column_layout] at the integer 1 on a little-endian host. *)
Lemma Int64_column_layout_witness :
  - 2 ^ 63 <= 1 < 2 ^ 63
  /\ exists s,
       _pack (PyInt 1) (Some "LongType") = Ok (PyStr s)
       /\ String.length s = 8%nat
       /\ Int64_pack true (PyInt 1) = Ok (PyStr (str_rev s))
       /\ Int64_unpack true (PyStr (str_rev s)) = Ok (PyInt 1).
Proof.
  assert (H : - 2 ^ 63 <= 1 < 2 ^ 63) by (pow2_consts; lia).
  split; [exact H|].
  exact (@Int64_column_layout true 1 H).
Defined.
